(** * TaskScheduler: the heuristic window-allocation solver and the entity models

  A shallow embedding of
  - [src/Scheduler.py]: the dataclasses [Resource], [ResourceGroup] and
    [Task] with their identity-based [__eq__] and [__hash__];
  - [src/factryengine/scheduler/heuristic_solver/main.py]: the class
    [HeuristicSolver] ([__init__], [solve], [_get_task_earliest_start],
    [_update_error_message]).

  Python dictionaries keep insertion order and the solver relies on it
  (the result list follows the key order of the task dictionary), so they
  are modelled as association lists with Python's update discipline.
  Exceptions are modelled by the [outcome] error monad.

  The collaborators of the solver ([get_task_predecessors], [WindowManager],
  [TaskAllocator]) are not among the sources: the solver is parametrised by
  them, and the window manager of the design document is modelled
  separately for the statements about calendars. *)

From Stdlib Require Import ZArith List String Bool Lia Sorted.
Import ListNotations.

Local Open Scope string_scope.
Local Open Scope list_scope.
Local Open Scope Z_scope.

(** ** Exceptions and the error monad *)

(** The exceptions that can cross [HeuristicSolver.solve].  [AllocationError]
  carries [str(e)]; [FatalError] stands for any other exception raised by a
  collaborator (for instance the invariant violation of a commit). *)
Inductive exn : Type :=
| KeyError
| ValueError
| TypeError
| AllocationError (msg : string)
| FatalError (msg : string).

Inductive outcome (A : Type) : Type :=
| Ok (a : A)
| Raise (e : exn).

Arguments Ok {A} a.
Arguments Raise {A} e.

Definition bind {A B : Type} (m : outcome A) (k : A -> outcome B) : outcome B :=
match m with
| Ok a => k a
| Raise e => Raise e
end.

Notation "x <- m ;; k" := (bind m (fun x => k))
(at level 61, m at next level, right associativity).

(** ** Python dictionaries *)

(** Keys of a dictionary: a type with a boolean equality ([__eq__] on keys). *)
Class PyKey (K : Type) : Type := {
key_eqb : K -> K -> bool;
key_eqb_eq : forall a b : K, key_eqb a b = true <-> a = b
}.

#[export] Instance PyKey_string : PyKey string :=
{| key_eqb := String.eqb; key_eqb_eq := String.eqb_eq |}.

#[export] Instance PyKey_Z : PyKey Z :=
{| key_eqb := Z.eqb; key_eqb_eq := Z.eqb_eq |}.

Module PyDict.
Section Dict.
Context {K V : Type} `{PyKey K}.

(** An insertion-ordered dictionary, oldest key first. *)
Definition dict : Type := list (K * V).

(** [d.get(k)]: [None] when the key is absent. *)
Fixpoint get (d : dict) (k : K) : option V :=
  match d with
  | [] => None
  | (k', v) :: rest => if key_eqb k' k then Some v else get rest k
  end.

(** [d[k]]: raises [KeyError] when the key is absent. *)
Definition getitem (d : dict) (k : K) : outcome V :=
  match get d k with
  | Some v => Ok v
  | None => Raise KeyError
  end.

(** [d[k] = v]: an existing key keeps its position, a new key goes last. *)
Fixpoint set (d : dict) (k : K) (v : V) : dict :=
  match d with
  | [] => [(k, v)]
  | (k', v') :: rest =>
      if key_eqb k' k then (k', v) :: rest else (k', v') :: set rest k v
  end.

Definition keys (d : dict) : list K := map fst d.
Definition values (d : dict) : list V := map snd d.

(** [d == {}] *)
Definition is_empty (d : dict) : bool :=
  match d with
  | [] => true
  | _ :: _ => false
  end.

(** Well-formedness of the representation: a Python dictionary holds a key
    at most once. *)
Definition wf (d : dict) : Prop := NoDup (keys d).

End Dict.
Arguments dict K V : clear implicits.
End PyDict.

(** ** Values stored in a task's result record *)

(** The result record of a task is itself a dictionary with string keys; its
    values are [None], an integer time, a string, the list of assigned
    resource ids, or the intervals of an allocation. *)
Inductive value : Type :=
| VNone
| VInt (z : Z)
| VStr (s : string)
| VIds (ids : list Z)
| VIntervals (intervals : list (Z * Z)).

(** [min(...)] and [max(...)] of a generator: [ValueError] on an empty one. *)
Definition py_min (l : list Z) : outcome Z :=
  match l with
  | [] => Raise ValueError
  | x :: rest => Ok (fold_left Z.min rest x)
  end.

Definition py_max (l : list Z) : outcome Z :=
  match l with
  | [] => Raise ValueError
  | x :: rest => Ok (fold_left Z.max rest x)
  end.

(** [max(l, default=0)] *)
Definition py_max_default0 (l : list Z) : Z :=
  match l with
  | [] => 0
  | x :: rest => fold_left Z.max rest x
  end.

(** * src/Scheduler.py: Resource, ResourceGroup, Task *)

Module Scheduler.

(** An entry of [availability_slots]: the dictionaries with the keys
    "slot_id", "start" and "end" that [Scheduler.schedule] reads. *)
Record slot : Type := mkSlot {
  slot_id : Z;
  slot_start : Z;
  slot_end : Z
}.

Record Resource : Type := mkResource {
  Resource_id : Z;
  availability_slots : list slot
}.

Record ResourceGroup : Type := mkResourceGroup {
  resource_group_id : Z;
  resources : list Resource
}.

#[warnings="-register-all"]
Inductive Task : Type :=
| mkTask (id duration priority : Z) (resource_group : ResourceGroup)
         (predecessors : option (list Task)).

Definition Task_id (t : Task) : Z :=
  match t with mkTask id _ _ _ _ => id end.
Definition Task_duration (t : Task) : Z :=
  match t with mkTask _ duration _ _ _ => duration end.
Definition Task_priority (t : Task) : Z :=
  match t with mkTask _ _ priority _ _ => priority end.
Definition Task_resource_group (t : Task) : ResourceGroup :=
  match t with mkTask _ _ _ resource_group _ => resource_group end.
Definition Task_predecessors (t : Task) : option (list Task) :=
  match t with mkTask _ _ _ _ predecessors => predecessors end.

(** The right-hand operand of a comparison: an instance of one of the three
    classes, or an object of another type. *)
Inductive object : Type :=
| OResource (r : Resource)
| OResourceGroup (g : ResourceGroup)
| OTask (t : Task)
| OInt (z : Z)
| ONone.

(** What [__eq__] returns: a boolean, or [NotImplemented]. *)
Inductive eq_result : Type :=
| PyBool (b : bool)
| NotImplemented.

Section Hash.
(** The builtin [hash] on integers. *)
Variable hash : Z -> Z.

Definition Resource__eq__ (self : Resource) (other : object) : eq_result :=
  match other with
  | OResource o => PyBool (Resource_id self =? Resource_id o)
  | _ => NotImplemented
  end.

Definition Resource__hash__ (self : Resource) : Z := hash (Resource_id self).

Definition ResourceGroup__eq__ (self : ResourceGroup) (other : object) : eq_result :=
  match other with
  | OResourceGroup o => PyBool (resource_group_id self =? resource_group_id o)
  | _ => NotImplemented
  end.

Definition ResourceGroup__hash__ (self : ResourceGroup) : Z :=
  hash (resource_group_id self).

Definition Task__eq__ (self : Task) (other : object) : eq_result :=
  match other with
  | OTask o => PyBool (Task_id self =? Task_id o)
  | _ => NotImplemented
  end.

Definition Task__hash__ (self : Task) : Z := hash (Task_id self).

Definition Task_get_resources (self : Task) : list Resource :=
  resources (Task_resource_group self).

End Hash.

(** [hash] on integers as CPython computes it on a 64-bit build. *)
Definition hash_int (n : Z) : Z :=
  let h := Z.sgn n * (Z.abs n mod (2 ^ 61 - 1)) in
  if h =? -1 then -2 else h.

End Scheduler.

(** * factryengine models read by the heuristic solver *)

Module Models.

(** A calendar: windows [(start, end)], each the half-open interval
    [start <= t < end]. *)
Definition windows : Type := list (Z * Z).

(** Modelled from the spec: the Resource of factryengine.models (not among the
    sources), "identity (unique id), an ordered sequence of availability
    windows". *)
Record Resource : Type := mkResource {
  Resource_id : Z;
  available_windows : windows
}.

(** Modelled from the spec: the Task of factryengine.models (not among the
    sources), reduced to the attributes that main.py reads and the ids of
    its predecessors ("store predecessor ids, not direct links").  The types
    of [assignments] and [constraints] are left open; [unique_resources] is
    what the method [get_unique_resources()] returns. *)
Record Task (Assignments Constraints : Type) : Type := mkTask {
  id : string;
  duration : Z;
  predecessor_ids : list string;
  predecessor_delay : Z;
  assignments : Assignments;
  constraints : Constraints;
  unique_resources : list Resource
}.

Arguments mkTask {Assignments Constraints}.
Arguments id {Assignments Constraints}.
Arguments duration {Assignments Constraints}.
Arguments predecessor_ids {Assignments Constraints}.
Arguments predecessor_delay {Assignments Constraints}.
Arguments assignments {Assignments Constraints}.
Arguments constraints {Assignments Constraints}.
Arguments unique_resources {Assignments Constraints}.

Definition get_unique_resources {Assignments Constraints : Type}
  (self : Task Assignments Constraints) : list Resource :=
  unique_resources self.

(** Modelled from the spec: [get_task_predecessors] of scheduler/utils, which
    is not among the sources ("resolve via the external task-dictionary
    lookup at read time"). *)
Fixpoint lookup_tasks {Assignments Constraints : Type}
  (task_dict : PyDict.dict string (Task Assignments Constraints))
  (ids : list string) : outcome (list (Task Assignments Constraints)) :=
  match ids with
  | [] => Ok []
  | pred_id :: rest =>
      pred <- PyDict.getitem task_dict pred_id ;;
      preds <- lookup_tasks task_dict rest ;;
      Ok (pred :: preds)
  end.

Definition get_task_predecessors {Assignments Constraints : Type}
  (task : Task Assignments Constraints)
  (task_dict : PyDict.dict string (Task Assignments Constraints))
  : outcome (list (Task Assignments Constraints)) :=
  lookup_tasks task_dict (predecessor_ids task).

End Models.

(** * The window manager, from the design document *)

Module WindowManager.
Import Models.

(** The window [a, b) when it is not empty. *)
Definition piece (a b : Z) : windows :=
  if a <? b then [(a, b)] else [].

(** Merging of a list sorted by start: [merge_from a b rest] is the
    normalised form of [(a, b) :: rest]. *)
Fixpoint merge_from (a b : Z) (rest : windows) : windows :=
  match rest with
  | [] => [(a, b)]
  | (c, d) :: rest' =>
      if c <=? b then merge_from a (Z.max b d) rest'
      else (a, b) :: merge_from c d rest'
  end.

(** Modelled from the spec: the normalisation of a calendar, which is not
    among the sources ("Windows are always merged/normalized so adjacent or
    overlapping windows never persist"). *)
Definition normalize (ws : windows) : windows :=
  match ws with
  | [] => []
  | (a, b) :: rest => merge_from a b rest
  end.

(** Modelled from the spec: the removal of one committed span from a
    calendar, which is not among the sources ("removes that exact span from
    the resource's availability, splitting a window into up to two remaining
    windows (before and after the consumed span) or removing it entirely if
    fully consumed"); [None] when the span "is not fully contained within a
    single existing window". *)
Fixpoint remove_span (ws : windows) (s e : Z) : option windows :=
  match ws with
  | [] => None
  | (a, b) :: rest =>
      if (a <=? s) && (s <=? e) && (e <=? b)
      then Some (piece a s ++ piece e b ++ rest)
      else option_map (cons (a, b)) (remove_span rest s e)
  end.

(** The state of a window manager: one calendar per resource id. *)
Definition t : Type := PyDict.dict Z windows.

(** Modelled from the spec: the constructor, which is not among the sources
    ("owns one Calendar per resource"). *)
Definition __init__ (resources : list Resource) : t :=
  fold_left
    (fun cal r => PyDict.set cal (Resource_id r) (normalize (available_windows r)))
    resources [].

(** The part of a calendar at or after [floor_time]; a window that straddles
    it is clipped. *)
Definition clip (ws : windows) (floor_time : Z) : windows :=
  flat_map (fun w => piece (Z.max (fst w) floor_time) (snd w)) ws.

(** Modelled from the spec: the query [windows_from], which is not among the
    sources ("returns only the portion of its availability at or after
    floor_time ... Resources with no availability at or after floor_time are
    omitted entirely"). *)
Definition get_task_resource_windows_dict (self : t) (task_resource_ids : list Z)
  (task_earliest_start : Z) : PyDict.dict Z windows :=
  fold_left
    (fun d rid =>
       match PyDict.get self rid with
       | None => d
       | Some ws =>
           match clip ws task_earliest_start with
           | [] => d
           | w :: ws' => PyDict.set d rid (w :: ws')
           end
       end)
    task_resource_ids [].

Definition commit_span (self : t) (rid : Z) (span : Z * Z) : outcome t :=
  match PyDict.get self rid with
  | None => Raise (FatalError "unknown resource")
  | Some ws =>
      match remove_span ws (fst span) (snd span) with
      | None => Raise (FatalError "span not contained in a window")
      | Some ws' => Ok (PyDict.set self rid (normalize ws'))
      end
  end.

(** Modelled from the spec: the commit, which is not among the sources, on
    the mapping resource id -> (start, end) that main.py passes. *)
Fixpoint update_resource_windows (self : t) (allocated : PyDict.dict Z (Z * Z))
  : outcome t :=
  match allocated with
  | [] => Ok self
  | (rid, span) :: rest =>
      self' <- commit_span self rid span ;;
      update_resource_windows self' rest
  end.

End WindowManager.

(** * heuristic_solver/main.py: HeuristicSolver *)

Module HeuristicSolver.
Import Models.

(** A result record: the dictionary built per task in [__init__]. *)
Definition record : Type := PyDict.dict string value.

(** The calls the solver makes to its collaborators, oldest first. *)
Inductive call : Type :=
| Call_get_task_resource_windows_dict (task_resource_ids : list Z)
                                      (task_earliest_start : Z)
| Call_allocate_task (resource_windows_dict : PyDict.dict Z windows)
                     (task_duration : Z)
| Call_update_resource_windows (allocated : PyDict.dict Z (Z * Z)).

(** The collaborators of the solver whose code is not among the sources:
    [get_task_predecessors] of scheduler/utils, the [WindowManager] with
    state [W], and [TaskAllocator.allocate_task]. *)
Record collaborators (Assignments Constraints W : Type) : Type := mkCollaborators {
  get_task_predecessors :
    Task Assignments Constraints ->
    PyDict.dict string (Task Assignments Constraints) ->
    outcome (list (Task Assignments Constraints));
  new_WindowManager : list Resource -> W;
  get_task_resource_windows_dict :
    W -> list Z -> Z -> outcome (PyDict.dict Z windows);
  update_resource_windows : W -> PyDict.dict Z (Z * Z) -> outcome W;
  allocate_task :
    PyDict.dict Z windows -> Assignments -> Z -> Constraints ->
    outcome (PyDict.dict Z (Z * Z))
}.

Arguments get_task_predecessors {Assignments Constraints W}.
Arguments new_WindowManager {Assignments Constraints W}.
Arguments get_task_resource_windows_dict {Assignments Constraints W}.
Arguments update_resource_windows {Assignments Constraints W}.
Arguments allocate_task {Assignments Constraints W}.

Section Solver.
Context {Assignments Constraints W : Type}.
Variable env : collaborators Assignments Constraints W.

(** The attributes of a [HeuristicSolver] object.  [calls] is not an
    attribute: it logs the collaborator calls made so far. *)
Record HeuristicSolver : Type := mkHeuristicSolver {
  task_dict : PyDict.dict string (Task Assignments Constraints);
  task_order : list string;
  window_manager : W;
  task_vars : PyDict.dict string record;
  calls : list call
}.

Definition with_task_vars (self : HeuristicSolver) (tv : PyDict.dict string record)
  : HeuristicSolver :=
  mkHeuristicSolver (task_dict self) (task_order self) (window_manager self) tv
                    (calls self).

Definition with_window_manager (self : HeuristicSolver) (wm : W) : HeuristicSolver :=
  mkHeuristicSolver (task_dict self) (task_order self) wm (task_vars self)
                    (calls self).

Definition logged (self : HeuristicSolver) (c : call) : HeuristicSolver :=
  mkHeuristicSolver (task_dict self) (task_order self) (window_manager self)
                    (task_vars self) (calls self ++ [c]).

(** The record every task starts with. *)
Definition initial_record (task_id : string) : record :=
  [("task_id", VStr task_id);
   ("assigned_resource_ids", VNone);
   ("task_start", VNone);
   ("task_end", VNone);
   ("resource_intervals", VNone);
   ("error_message", VNone)].

Definition __init__ (task_dict : PyDict.dict string (Task Assignments Constraints))
  (resources : list Resource) (task_order : list string) : HeuristicSolver :=
  {| task_dict := task_dict;
     task_order := task_order;
     window_manager := new_WindowManager env resources;
     task_vars :=
       fold_left (fun tv task_id => PyDict.set tv task_id (initial_record task_id))
                 (PyDict.keys task_dict) [];
     calls := [] |}.

(** The loop of [_get_task_earliest_start] over the predecessors; [None] is
    the early [return None]. *)
Fixpoint collect_task_ends (self : HeuristicSolver)
  (task : Task Assignments Constraints)
  (predecessors : list (Task Assignments Constraints)) (task_ends : list Z)
  : outcome (option (list Z)) :=
  match predecessors with
  | [] => Ok (Some task_ends)
  | pred :: rest =>
      r <- PyDict.getitem (task_vars self) (id pred) ;;
      task_end <- PyDict.getitem r "task_end" ;;
      match task_end with
      | VNone => Ok None
      | VInt task_end =>
          collect_task_ends self task rest
            (task_ends ++ [task_end + predecessor_delay task])
      | _ => Raise TypeError
      end
  end.

Definition _get_task_earliest_start (self : HeuristicSolver)
  (task : Task Assignments Constraints)
  (task_dict : PyDict.dict string (Task Assignments Constraints))
  : outcome (option Z) :=
  predecessors <- get_task_predecessors env task task_dict ;;
  task_ends <- collect_task_ends self task predecessors [] ;;
  match task_ends with
  | None => Ok None
  | Some task_ends => Ok (Some (py_max_default0 task_ends))
  end.

Definition _update_error_message (self : HeuristicSolver) (task_id : string)
  (message : string) : outcome HeuristicSolver :=
  r <- PyDict.getitem (task_vars self) task_id ;;
  Ok (with_task_vars self
        (PyDict.set (task_vars self) task_id
                    (PyDict.set r "error_message" (VStr message)))).

(** The dictionary [task_values] of a scheduled task: it has no
    "error_message" key. *)
Definition task_values (task_id : string) (allocated : PyDict.dict Z (Z * Z))
  (task_start task_end : Z) : record :=
  [("task_id", VStr task_id);
   ("assigned_resource_ids", VIds (PyDict.keys allocated));
   ("task_start", VInt task_start);
   ("task_end", VInt task_end);
   ("resource_intervals", VIntervals (PyDict.values allocated))].

(** One iteration of the loop of [solve]. *)
Definition solve_iteration (self : HeuristicSolver) (task_id : string)
  : outcome HeuristicSolver :=
  task <- PyDict.getitem (task_dict self) task_id ;;
  task_earliest_start <- _get_task_earliest_start self task (task_dict self) ;;
  match task_earliest_start with
  | None => _update_error_message self task_id "Task has unscheduled predecessors"
  | Some task_earliest_start =>
      let task_resource_ids := map Resource_id (get_unique_resources task) in
      task_resource_windows_dict <-
        get_task_resource_windows_dict env (window_manager self)
          task_resource_ids task_earliest_start ;;
      let self :=
        logged self (Call_get_task_resource_windows_dict
                       task_resource_ids task_earliest_start) in
      if PyDict.is_empty task_resource_windows_dict
      then _update_error_message self task_id "No available resources"
      else
        let self :=
          logged self (Call_allocate_task task_resource_windows_dict
                                          (duration task)) in
        match allocate_task env task_resource_windows_dict (assignments task)
                            (duration task) (constraints task) with
        | Raise (AllocationError e) => _update_error_message self task_id e
        | Raise e => Raise e
        | Ok allocated_resource_windows_dict =>
            wm <- update_resource_windows env (window_manager self)
                    allocated_resource_windows_dict ;;
            let self :=
              logged (with_window_manager self wm)
                     (Call_update_resource_windows
                        allocated_resource_windows_dict) in
            task_start <-
              py_min (map fst (PyDict.values allocated_resource_windows_dict)) ;;
            task_end <-
              py_max (map snd (PyDict.values allocated_resource_windows_dict)) ;;
            Ok (with_task_vars self
                  (PyDict.set (task_vars self) task_id
                     (task_values task_id allocated_resource_windows_dict
                                  task_start task_end)))
        end
  end.

(** The loop of [solve] over a task order. *)
Fixpoint solve_loop (self : HeuristicSolver) (order : list string)
  : outcome HeuristicSolver :=
  match order with
  | [] => Ok self
  | task_id :: rest =>
      self' <- solve_iteration self task_id ;;
      solve_loop self' rest
  end.

Definition run (self : HeuristicSolver) : outcome HeuristicSolver :=
  solve_loop self (task_order self).

Definition solve (self : HeuristicSolver) : outcome (list record) :=
  self' <- run self ;;
  Ok (PyDict.values (task_vars self')).

End Solver.

Arguments HeuristicSolver Assignments Constraints W : clear implicits.

End HeuristicSolver.

(** The collaborators of the design document around a given allocator: the
    predecessor lookup and the window manager modelled above. *)
Definition designed_collaborators {Assignments Constraints : Type}
  (allocate_task :
     PyDict.dict Z Models.windows -> Assignments -> Z -> Constraints ->
     outcome (PyDict.dict Z (Z * Z)))
  : HeuristicSolver.collaborators Assignments Constraints WindowManager.t :=
  {| HeuristicSolver.get_task_predecessors := Models.get_task_predecessors;
     HeuristicSolver.new_WindowManager := WindowManager.__init__;
     HeuristicSolver.get_task_resource_windows_dict :=
       fun wm ids floor_time =>
         Ok (WindowManager.get_task_resource_windows_dict wm ids floor_time);
     HeuristicSolver.update_resource_windows := WindowManager.update_resource_windows;
     HeuristicSolver.allocate_task := allocate_task |}.

(** * A worked run *)

Module Scenario.
Import Models.

(** A small allocator for the examples: the first resource of the mapping
    takes the whole task at the start of its first window, when that window
    is long enough. *)
Definition first_fit (resource_windows_dict : PyDict.dict Z windows)
  (assignments : unit) (task_duration : Z) (constraints : unit)
  : outcome (PyDict.dict Z (Z * Z)) :=
  match resource_windows_dict with
  | (rid, (s, e) :: _) :: _ =>
      if (0 <=? task_duration) && (task_duration <=? e - s)
      then Ok [(rid, (s, s + task_duration))]
      else Raise (AllocationError "insufficient availability")
  | _ => Raise (AllocationError "insufficient availability")
  end.

Definition env : HeuristicSolver.collaborators unit unit WindowManager.t :=
  designed_collaborators first_fit.

Definition R : Resource := mkResource 1 [(0, 4); (5, 10)].
Definition R2 : Resource := mkResource 2 [].

Definition T : Task unit unit := mkTask "T" 3 [] 0 tt tt [R].
Definition T2 : Task unit unit := mkTask "T2" 2 ["T"] 2 tt tt [R].
Definition T3 : Task unit unit := mkTask "T3" 20 [] 0 tt tt [R].
Definition T4 : Task unit unit := mkTask "T4" 1 ["T3"] 0 tt tt [R].
Definition T5 : Task unit unit := mkTask "T5" 1 [] 0 tt tt [R2].
Definition T6 : Task unit unit := mkTask "T6" 1 ["T4"] 0 tt tt [R].

(** A resource with a single window and a task that fills it. *)
Definition R3 : Resource := mkResource 3 [(0, 3)].
Definition T7 : Task unit unit := mkTask "T7" 3 [] 0 tt tt [R3].

Definition tasks : PyDict.dict string (Task unit unit) :=
  [("T", T); ("T2", T2); ("T3", T3); ("T4", T4); ("T5", T5); ("T6", T6)].

Definition order : list string := ["T"; "T2"; "T3"; "T4"; "T5"; "T6"].

Definition solver : HeuristicSolver.HeuristicSolver unit unit WindowManager.t :=
  HeuristicSolver.__init__ env tasks [R; R2] order.

(** The solver after the first [n] tasks of the order. *)
Definition after (n : nat) : HeuristicSolver.HeuristicSolver unit unit WindowManager.t :=
  match HeuristicSolver.solve_loop env solver (firstn n order) with
  | Ok self => self
  | Raise _ => solver
  end.

End Scenario.

(** * Predicates used in the statements *)

Definition is_maximum (l : list Z) (m : Z) : Prop :=
  In m l /\ forall x, In x l -> x <= m.

Definition is_minimum (l : list Z) (m : Z) : Prop :=
  In m l /\ forall x, In x l -> m <= x.

Module Spec.
Section Predicates.
Import Models HeuristicSolver.
Context {Assignments Constraints W : Type}.
Variable env : collaborators Assignments Constraints W.

Local Abbreviation Solver := (HeuristicSolver Assignments Constraints W).
Local Abbreviation Task := (Models.Task Assignments Constraints).

(** [recorded_end self pred e]: the record of [pred] holds the end [e]. *)
Definition recorded_end (self : Solver) (pred : Task) (e : Z) : Prop :=
  exists r, PyDict.get (task_vars self) (id pred) = Some r /\
            PyDict.get r "task_end" = Some (VInt e).

(** The record of [pred] holds no end. *)
Definition no_recorded_end (self : Solver) (pred : Task) : Prop :=
  exists r, PyDict.get (task_vars self) (id pred) = Some r /\
            PyDict.get r "task_end" = Some VNone.

(** The record of [pred] exists and its "task_end" is [None] or a time. *)
Definition has_record (self : Solver) (pred : Task) : Prop :=
  no_recorded_end self pred \/ exists e, recorded_end self pred e.

(** The window query of [solve] for [task], with its arguments and answer. *)
Definition window_query (self : Solver) (task : Task) (start : Z)
  (d : PyDict.dict Z windows) : Prop :=
  _get_task_earliest_start env self task (task_dict self) = Ok (Some start) /\
  get_task_resource_windows_dict env (window_manager self)
    (map Resource_id (get_unique_resources task)) start = Ok d.

(** The three ways an iteration of [solve] ends in an error message. *)
Definition ends_blocked (self : Solver) (task : Task) : Prop :=
  _get_task_earliest_start env self task (task_dict self) = Ok None.

Definition ends_without_resources (self : Solver) (task : Task) : Prop :=
  exists start, window_query self task start [].

Definition ends_allocation_failed (self : Solver) (task : Task) (msg : string)
  : Prop :=
  exists start d,
    window_query self task start d /\ d <> [] /\
    allocate_task env d (assignments task) (duration task) (constraints task) =
    Raise (AllocationError msg).

Definition ends_in_error (self : Solver) (task : Task) (msg : string) : Prop :=
  (ends_blocked self task /\ msg = "Task has unscheduled predecessors") \/
  (ends_without_resources self task /\ msg = "No available resources") \/
  ends_allocation_failed self task msg.

(** The iteration for [task] reaches the commit of [allocated], which leaves
    the window manager in state [wm]. *)
Definition ends_scheduled (self : Solver) (task : Task)
  (allocated : PyDict.dict Z (Z * Z)) (wm : W) : Prop :=
  exists start d,
    window_query self task start d /\ d <> [] /\
    allocate_task env d (assignments task) (duration task) (constraints task) =
    Ok allocated /\
    update_resource_windows env (window_manager self) allocated = Ok wm /\
    allocated <> [].

(** The allocations committed by a sequence of calls, oldest first. *)
Definition commits (cs : list call) : list (PyDict.dict Z (Z * Z)) :=
  flat_map (fun c => match c with
                     | Call_update_resource_windows allocated => [allocated]
                     | _ => []
                     end) cs.

(** A field of a record is set: the key is present with a value other than
    [None]. *)
Definition field_set (r : record) (field : string) : Prop :=
  exists v, PyDict.get r field = Some v /\ v <> VNone.

(** A field of a record is unset: the key is absent or holds [None]. *)
Definition field_unset (r : record) (field : string) : Prop :=
  PyDict.get r field = None \/ PyDict.get r field = Some VNone.

Definition complete_allocation (r : record) : Prop :=
  field_set r "assigned_resource_ids" /\ field_set r "task_start" /\
  field_set r "task_end" /\ field_set r "resource_intervals".

Definition no_allocation (r : record) : Prop :=
  field_unset r "assigned_resource_ids" /\ field_unset r "task_start" /\
  field_unset r "task_end" /\ field_unset r "resource_intervals".

(** Exactly one of a complete allocation and an error message is set. *)
Definition exactly_one (r : record) : Prop :=
  (complete_allocation r /\ ~ field_set r "error_message") \/
  (~ complete_allocation r /\ field_set r "error_message").

Definition neither (r : record) : Prop :=
  ~ complete_allocation r /\ ~ field_set r "error_message".

Definition both (r : record) : Prop :=
  complete_allocation r /\ field_set r "error_message".

(** Collaborators that raise no exception other than [AllocationError]:
    the predecessors of every task are found and are tasks of the
    dictionary, the window query answers, the allocator proposes a
    non-empty allocation or raises [AllocationError], and the commit accepts
    what the allocator proposes for the windows it was given. *)
Definition predecessors_known (td : PyDict.dict string Task) : Prop :=
  forall task_id task,
    PyDict.get td task_id = Some task ->
    exists preds, get_task_predecessors env task td = Ok preds /\
                  Forall (fun p => In (id p) (PyDict.keys td)) preds.

Definition query_answers : Prop :=
  forall wm ids start,
    exists d, get_task_resource_windows_dict env wm ids start = Ok d.

Definition allocator_proposes_or_fails : Prop :=
  forall d a task_duration c,
    (exists msg, allocate_task env d a task_duration c = Raise (AllocationError msg)) \/
    (exists allocated, allocate_task env d a task_duration c = Ok allocated /\
                       allocated <> []).

Definition commit_accepts_proposals : Prop :=
  forall wm ids start d a task_duration c allocated,
    get_task_resource_windows_dict env wm ids start = Ok d ->
    allocate_task env d a task_duration c = Ok allocated ->
    exists wm', update_resource_windows env wm allocated = Ok wm'.

(** The "task_end" of every record is [None] or a time. *)
Definition ends_well_typed (self : Solver) : Prop :=
  forall k r, PyDict.get (task_vars self) k = Some r ->
              PyDict.get r "task_end" = Some VNone \/
              exists e, PyDict.get r "task_end" = Some (VInt e).

(** The result table of a solver is in order: no key twice, a record for
    every task of the task dictionary, and every record under its own
    "task_id". *)
Definition table_in_order (self : Solver) : Prop :=
  PyDict.wf (task_vars self) /\
  (forall k task, PyDict.get (task_dict self) k = Some task ->
                  exists r, PyDict.get (task_vars self) k = Some r) /\
  (forall k r, In (k, r) (task_vars self) ->
               PyDict.get r "task_id" = Some (VStr k)).

End Predicates.
End Spec.

(** * Predicates on calendars *)

Module Calendar.
Import Models.

(** The time [t] lies in one of the windows: the union of the windows. *)
Definition covers (ws : windows) (t : Z) : Prop :=
  exists a b, In (a, b) ws /\ a <= t < b.

(** The windows are not empty, start at or after [lo], and each one ends at
    or before the start of the next. *)
Fixpoint weak_from (lo : Z) (ws : windows) : Prop :=
  match ws with
  | [] => True
  | (a, b) :: rest => lo <= a /\ a < b /\ weak_from b rest
  end.

(** The windows are not empty, start after [lo], and each one ends strictly
    before the start of the next. *)
Fixpoint strict_from (lo : Z) (ws : windows) : Prop :=
  match ws with
  | [] => True
  | (a, b) :: rest => lo < a /\ a < b /\ strict_from b rest
  end.

Definition strict (ws : windows) : Prop := exists lo, strict_from lo ws.

(** The invariant of the data model on the availability of a resource:
    windows with start < end, sorted, not overlapping. *)
Definition valid_availability (ws : windows) : Prop := exists lo, weak_from lo ws.

Definition nonempty_windows (ws : windows) : Prop :=
  Forall (fun w => fst w < snd w) ws.

Definition sorted_by_start (ws : windows) : Prop :=
  StronglySorted (fun w1 w2 => fst w1 < fst w2) ws.

(** Every window ends strictly before each later window starts: no two
    windows overlap or touch. *)
Definition separated (ws : windows) : Prop :=
  StronglySorted (fun w1 w2 => snd w1 < fst w2) ws.

(** The time [t] is available on resource [rid]. *)
Definition available (wm : WindowManager.t) (rid : Z) (t : Z) : Prop :=
  exists ws, PyDict.get wm rid = Some ws /\ covers ws t.

(** The allocation takes the time [t] on resource [rid]. *)
Definition takes (allocated : PyDict.dict Z (Z * Z)) (rid : Z) (t : Z) : Prop :=
  exists s e, In (rid, (s, e)) allocated /\ s <= t < e.

(** One of the committed allocations takes the time [t] on resource [rid]. *)
Definition booked (cs : list (PyDict.dict Z (Z * Z))) (rid : Z) (t : Z) : Prop :=
  exists allocated, In allocated cs /\ takes allocated rid t.

(** No time of a resource is taken by two of the committed allocations. *)
Fixpoint no_double_booking (cs : list (PyDict.dict Z (Z * Z))) : Prop :=
  match cs with
  | [] => True
  | allocated :: rest =>
      (forall rid t, takes allocated rid t -> ~ booked rest rid t) /\
      no_double_booking rest
  end.

End Calendar.

Module RunSpec.
Import Models Calendar.

(** Every calendar of the window manager is normalised. *)
Definition calendars_strict (wm : WindowManager.t) : Prop :=
  forall rid ws, PyDict.get wm rid = Some ws -> strict ws.

(** The state of the calendars after the commits [cs], starting from the
    window manager [wm0]: normalised calendars, whose union is what [wm0]
    offered minus what was committed, and commits that never overlap. *)
Definition calendars_consistent (wm0 wm : WindowManager.t)
  (cs : list (PyDict.dict Z (Z * Z))) : Prop :=
  calendars_strict wm /\
  (forall rid t, available wm rid t <-> available wm0 rid t /\ ~ booked cs rid t) /\
  (forall rid, PyDict.get wm rid = None <-> PyDict.get wm0 rid = None) /\
  no_double_booking cs.

End RunSpec.

(** * Further predicates on the solver *)

Module RunShapes.
Section Shapes.
Import Models HeuristicSolver Spec.
Context {Assignments Constraints W : Type}.
Variable env : collaborators Assignments Constraints W.

Local Abbreviation Solver := (HeuristicSolver Assignments Constraints W).
Local Abbreviation Task := (Models.Task Assignments Constraints).

(** The allocation is one that the allocator returned. *)
Definition proposed (allocated : PyDict.dict Z (Z * Z)) : Prop :=
  exists d a task_duration c,
    allocate_task env d a task_duration c = Ok allocated.

(** The records that [solve] builds for the task [task_id]: the record of
    [__init__], with or without an error message, or the [task_values] of an
    allocation, with or without an error message written by a later
    visit. *)
Inductive record_shape (task_id : string) : record -> Prop :=
| shape_pending : record_shape task_id (initial_record task_id)
| shape_failed (msg : string) :
    record_shape task_id
      (PyDict.set (initial_record task_id) "error_message" (VStr msg))
| shape_scheduled (allocated : PyDict.dict Z (Z * Z)) (s e : Z) :
    proposed allocated ->
    py_min (map fst (PyDict.values allocated)) = Ok s ->
    py_max (map snd (PyDict.values allocated)) = Ok e ->
    record_shape task_id (task_values task_id allocated s e)
| shape_scheduled_failed (allocated : PyDict.dict Z (Z * Z)) (s e : Z)
                         (msg : string) :
    proposed allocated ->
    py_min (map fst (PyDict.values allocated)) = Ok s ->
    py_max (map snd (PyDict.values allocated)) = Ok e ->
    record_shape task_id
      (PyDict.set (task_values task_id allocated s e) "error_message" (VStr msg)).

(** An exception that the loop of [solve] does not catch: from the
    computation of the earliest start, from the window query, from the
    allocator when it is not an [AllocationError], or from the commit. *)
Definition fatal_fault (self : Solver) (task : Task) (e : exn) : Prop :=
  _get_task_earliest_start env self task (task_dict self) = Raise e \/
  (exists start,
      _get_task_earliest_start env self task (task_dict self) = Ok (Some start) /\
      get_task_resource_windows_dict env (window_manager self)
        (map Resource_id (get_unique_resources task)) start = Raise e) \/
  (exists start d,
      window_query env self task start d /\ d <> [] /\
      allocate_task env d (assignments task) (duration task) (constraints task) =
      Raise e /\
      forall msg, e <> AllocationError msg) \/
  (exists start d allocated,
      window_query env self task start d /\ d <> [] /\
      allocate_task env d (assignments task) (duration task) (constraints task) =
      Ok allocated /\
      update_resource_windows env (window_manager self) allocated = Raise e).

(** The calls one iteration may add to the log. *)
Definition iteration_calls (task : Task) (added : list call) : Prop :=
  added = [] \/
  (exists start,
      added = [Call_get_task_resource_windows_dict
                 (map Resource_id (get_unique_resources task)) start]) \/
  (exists start d,
      added = [Call_get_task_resource_windows_dict
                 (map Resource_id (get_unique_resources task)) start;
               Call_allocate_task d (duration task)]) \/
  (exists start d allocated,
      allocate_task env d (assignments task) (duration task) (constraints task) =
      Ok allocated /\
      added = [Call_get_task_resource_windows_dict
                 (map Resource_id (get_unique_resources task)) start;
               Call_allocate_task d (duration task);
               Call_update_resource_windows allocated]).

(** The intervals that the allocator returns have start <= end. *)
Definition allocator_intervals_ordered : Prop :=
  forall d a task_duration c allocated,
    allocate_task env d a task_duration c = Ok allocated ->
    Forall (fun iv => fst iv <= snd iv) (PyDict.values allocated).

(** What a consumer of a result record finds in its allocation fields:
    all four are [None], or all four are set, with at least one resource,
    as many intervals as resources, and the given start and end. *)
Definition allocation_fields (r : record) : Prop :=
  (PyDict.get r "assigned_resource_ids" = Some VNone /\
   PyDict.get r "task_start" = Some VNone /\
   PyDict.get r "task_end" = Some VNone /\
   PyDict.get r "resource_intervals" = Some VNone) \/
  (exists ids intervals s e,
      PyDict.get r "assigned_resource_ids" = Some (VIds ids) /\
      PyDict.get r "task_start" = Some (VInt s) /\
      PyDict.get r "task_end" = Some (VInt e) /\
      PyDict.get r "resource_intervals" = Some (VIntervals intervals) /\
      ids <> [] /\ List.length ids = List.length intervals /\
      is_minimum (map fst intervals) s /\ is_maximum (map snd intervals) e).

End Shapes.
End RunShapes.

(** Allocators that break the contract, for the examples. *)
Module Faults.
Import Models.

(** Proposes a span that lies in no window of the worked run. *)
Definition out_of_window (resource_windows_dict : PyDict.dict Z windows)
  (assignments : unit) (task_duration : Z) (constraints : unit)
  : outcome (PyDict.dict Z (Z * Z)) :=
  Ok [(1, (100, 200))].

(** Proposes the empty allocation. *)
Definition nothing (resource_windows_dict : PyDict.dict Z windows)
  (assignments : unit) (task_duration : Z) (constraints : unit)
  : outcome (PyDict.dict Z (Z * Z)) :=
  Ok [].

(** Proposes an interval whose end lies before its start. *)
Definition reversed (resource_windows_dict : PyDict.dict Z windows)
  (assignments : unit) (task_duration : Z) (constraints : unit)
  : outcome (PyDict.dict Z (Z * Z)) :=
  Ok [(1, (5, 3))].

(** Collaborators around [reversed]: a window manager without state that
    offers the window [0, 10) on resource 1 and accepts every commit. *)
Definition accepting : HeuristicSolver.collaborators unit unit unit :=
  {| HeuristicSolver.get_task_predecessors := Models.get_task_predecessors;
     HeuristicSolver.new_WindowManager := fun _ => tt;
     HeuristicSolver.get_task_resource_windows_dict :=
       fun _ _ _ => Ok [(1, [(0, 10)])];
     HeuristicSolver.update_resource_windows := fun _ _ => Ok tt;
     HeuristicSolver.allocate_task := reversed |}.

End Faults.

(** * Scheduler.py: the sets built by Scheduler.schedule *)

Module SchedulerSets.
Import Scheduler.

(** [s.add(x)] for objects hashed and compared by the integer [key]: an
    object whose key is already in the set is not added.  The elements are
    listed in insertion order; the order in which Python iterates a set is
    not specified. *)
Definition set_add {A : Type} (key : A -> Z) (s : list A) (x : A) : list A :=
  if existsb (fun y => key y =? key x) s then s else s ++ [x].

(** [set(iterable)] *)
Definition py_set {A : Type} (key : A -> Z) (l : list A) : list A :=
  fold_left (set_add key) l [].

(** [set(task.resource_group for task in tasks)] *)
Definition schedule_resource_groups (tasks : list Task) : list ResourceGroup :=
  py_set resource_group_id (map Task_resource_group tasks).

(** [set(resource for resource_group in resource_groups
                  for resource in resource_group.resources)], where
    [iteration] lists [resource_groups] in the order of the iteration. *)
Definition schedule_resources (iteration : list ResourceGroup) : list Resource :=
  py_set Resource_id (flat_map resources iteration).

(** [iteration] enumerates the elements of the set [s]. *)
Definition enumerates {A : Type} (iteration s : list A) : Prop :=
  forall x, In x iteration <-> In x s.

(** Tasks whose groups agree: two groups with the same id have the same
    members. *)
Definition groups_agree (tasks : list Task) : Prop :=
  forall t1 t2, In t1 tasks -> In t2 tasks ->
    resource_group_id (Task_resource_group t1) =
    resource_group_id (Task_resource_group t2) ->
    resources (Task_resource_group t1) = resources (Task_resource_group t2).

End SchedulerSets.
(** * Facts about the error monad and dictionaries *)

Lemma bind_Ok_inv {A B : Type} (m : outcome A) (k : A -> outcome B) (b : B) :
bind m k = Ok b -> exists a, m = Ok a /\ k a = Ok b.
Proof.
destruct m as [a | e]; simpl; intros Hk.
- exists a. split; [reflexivity | exact Hk].
- discriminate Hk.
Qed.

Lemma key_eqb_refl {K : Type} `{PyKey K} (k : K) : key_eqb k k = true.
Proof. apply key_eqb_eq. reflexivity. Qed.

Lemma key_eqb_neq {K : Type} `{PyKey K} (a b : K) : key_eqb a b = false <-> a <> b.
Proof.
split.
- intros Hf Heq. apply key_eqb_eq in Heq. congruence.
- intros Hn. destruct (key_eqb a b) eqn:E; [| reflexivity].
  apply key_eqb_eq in E. contradiction.
Qed.

Section DictFacts.
Context {K V : Type} `{PyKey K}.
Import PyDict.

Lemma get_set_same (d : PyDict.dict K V) (k : K) (v : V) : get (set d k v) k = Some v.
Proof.
  induction d as [| [k' v'] rest IH]; simpl.
  - rewrite key_eqb_refl. reflexivity.
  - destruct (key_eqb k' k) eqn:E; simpl; rewrite E; [reflexivity | exact IH].
Qed.

Lemma get_set_other (d : PyDict.dict K V) (k k2 : K) (v : V) :
  k <> k2 -> get (set d k v) k2 = get d k2.
Proof.
  intros Hne. induction d as [| [k' v'] rest IH]; simpl.
  - apply key_eqb_neq in Hne. rewrite Hne. reflexivity.
  - destruct (key_eqb k' k) eqn:E; simpl.
    + apply key_eqb_eq in E. subst k'.
      apply key_eqb_neq in Hne. rewrite Hne. reflexivity.
    + rewrite IH. reflexivity.
Qed.

Lemma keys_set_present (d : PyDict.dict K V) (k : K) (v v0 : V) :
  get d k = Some v0 -> keys (set d k v) = keys d.
Proof.
  induction d as [| [k' v'] rest IH]; simpl; [discriminate |].
  destruct (key_eqb k' k) eqn:E; simpl; intros Hg.
  - reflexivity.
  - f_equal. apply IH. exact Hg.
Qed.

Lemma get_Some_In (d : PyDict.dict K V) (k : K) (v : V) : get d k = Some v -> In (k, v) d.
Proof.
  induction d as [| [k' v'] rest IH]; simpl; [discriminate |].
  destruct (key_eqb k' k) eqn:E; intros Hg.
  - apply key_eqb_eq in E. left. congruence.
  - right. apply IH. exact Hg.
Qed.

Lemma get_Some_keys (d : PyDict.dict K V) (k : K) (v : V) : get d k = Some v -> In k (keys d).
Proof.
  intros Hg. apply get_Some_In in Hg.
  change k with (fst (k, v)). apply in_map. exact Hg.
Qed.

Lemma keys_get_Some (d : PyDict.dict K V) (k : K) : In k (keys d) -> exists v, get d k = Some v.
Proof.
  induction d as [| [k' v'] rest IH]; simpl; [tauto |].
  intros [Heq | Hin].
  - subst k'. rewrite key_eqb_refl. eauto.
  - destruct (key_eqb k' k); eauto.
Qed.

Lemma In_get_wf (d : PyDict.dict K V) (k : K) (v : V) : wf d -> In (k, v) d -> get d k = Some v.
Proof.
  unfold wf. induction d as [| [k' v'] rest IH]; simpl; [tauto |].
  intros Hnd [Heq | Hin].
  - inversion Heq; subst. rewrite key_eqb_refl. reflexivity.
  - inversion Hnd as [| ? ? Hnotin Hnd']; subst.
    destruct (key_eqb k' k) eqn:E.
    + apply key_eqb_eq in E. subst k'. exfalso. apply Hnotin.
      change k with (fst (k, v)). apply in_map. exact Hin.
    + apply IH; assumption.
Qed.

Lemma In_set_inv (d : PyDict.dict K V) (k k2 : K) (v v2 : V) :
  In (k2, v2) (set d k v) -> (k2 = k /\ v2 = v) \/ In (k2, v2) d.
Proof.
  induction d as [| [k' v'] rest IH]; simpl.
  - intros [Heq | []]. inversion Heq; subst. left. split; reflexivity.
  - destruct (key_eqb k' k) eqn:E; simpl.
    + apply key_eqb_eq in E. subst k'. intros [Heq | Hin].
      * inversion Heq; subst. left. split; reflexivity.
      * right. right. exact Hin.
    + intros [Heq | Hin].
      * right. left. exact Heq.
      * destruct (IH Hin) as [Ha | Hb]; [left; exact Ha | right; right; exact Hb].
Qed.

Lemma keys_set_In (d : PyDict.dict K V) (k k2 : K) (v : V) :
  In k2 (keys (set d k v)) <-> k2 = k \/ In k2 (keys d).
Proof.
  induction d as [| [k' v'] rest IH]; simpl.
  - split; [intros [E | []]; left; congruence | intros [E | []]; left; congruence].
  - destruct (key_eqb k' k) eqn:E; simpl.
    + apply key_eqb_eq in E. subst k'. split; [tauto |].
      intros [E | Hin]; [left; congruence | exact Hin].
    + rewrite IH. tauto.
Qed.

Lemma wf_set (d : PyDict.dict K V) (k : K) (v : V) : wf d -> wf (set d k v).
Proof.
  unfold wf. induction d as [| [k' v'] rest IH]; simpl; intros Hnd.
  - constructor; [intros [] | constructor].
  - inversion Hnd as [| ? ? Hnotin Hnd']; subst.
    destruct (key_eqb k' k) eqn:E; simpl.
    + constructor; assumption.
    + constructor; [| apply IH; exact Hnd'].
      fold (keys (set rest k v)). rewrite keys_set_In.
      apply key_eqb_neq in E. intros [Heq | Hin]; [congruence | contradiction].
Qed.

Lemma map_values_keys {A : Type} (d : PyDict.dict K V) (f : V -> A) (g : K -> A) :
  (forall k v, In (k, v) d -> f v = g k) ->
  map f (values d) = map g (keys d).
Proof.
  induction d as [| [k v] rest IH]; simpl; intros Hfg; [reflexivity |].
  f_equal; [apply Hfg; left; reflexivity |].
  apply IH. intros k' v' Hin. apply Hfg. right. exact Hin.
Qed.

Lemma In_values (d : PyDict.dict K V) (v : V) :
  In v (values d) -> exists k, In (k, v) d.
Proof.
  unfold values. intros Hin. apply in_map_iff in Hin as [[k v'] [Hv Hin]].
  simpl in Hv. subst v'. exists k. exact Hin.
Qed.

End DictFacts.

(** * Scheduler.py: equality and hashing by id *)

Section SchedulerFacts.
Import Scheduler.
Variable hash : Z -> Z.

(** C9.  Two [Resource]s, two [ResourceGroup]s and two [Task]s compare equal
    exactly when their ids are equal, whatever their other attributes, and
    equal ids give equal hash values. *)
Theorem eq_and_hash_by_id :
  (forall r1 r2 : Resource,
      (Resource__eq__ r1 (OResource r2) = PyBool true <-> Resource_id r1 = Resource_id r2) /\
      (Resource__eq__ r1 (OResource r2) = PyBool false <-> Resource_id r1 <> Resource_id r2) /\
      (Resource_id r1 = Resource_id r2 ->
       Resource__hash__ hash r1 = Resource__hash__ hash r2)) /\
  (forall g1 g2 : ResourceGroup,
      (ResourceGroup__eq__ g1 (OResourceGroup g2) = PyBool true <->
       resource_group_id g1 = resource_group_id g2) /\
      (ResourceGroup__eq__ g1 (OResourceGroup g2) = PyBool false <->
       resource_group_id g1 <> resource_group_id g2) /\
      (resource_group_id g1 = resource_group_id g2 ->
       ResourceGroup__hash__ hash g1 = ResourceGroup__hash__ hash g2)) /\
  (forall t1 t2 : Task,
      (Task__eq__ t1 (OTask t2) = PyBool true <-> Task_id t1 = Task_id t2) /\
      (Task__eq__ t1 (OTask t2) = PyBool false <-> Task_id t1 <> Task_id t2) /\
      (Task_id t1 = Task_id t2 -> Task__hash__ hash t1 = Task__hash__ hash t2)).
Proof.
  repeat split; unfold Resource__eq__, ResourceGroup__eq__, Task__eq__,
    Resource__hash__, ResourceGroup__hash__, Task__hash__.
  all: try (intros Hb; injection Hb as Hb; first [apply Z.eqb_eq | apply Z.eqb_neq]; exact Hb).
  all: try (intros Hid; f_equal; first [apply Z.eqb_eq | apply Z.eqb_neq]; exact Hid).
  all: intros Hid; rewrite Hid; reflexivity.
Qed.

End SchedulerFacts.

Lemma eq_and_hash_by_id_witness :
  let r1 := Scheduler.mkResource 7 [] in
  let r2 := Scheduler.mkResource 7 [Scheduler.mkSlot 0 0 4] in
  let g1 := Scheduler.mkResourceGroup 1 [r1] in
  let g2 := Scheduler.mkResourceGroup 1 [] in
  let t1 := Scheduler.mkTask 3 5 1 g1 (Some []) in
  let t2 := Scheduler.mkTask 3 9 2 g2 (Some [t1]) in
  (Scheduler.Resource__eq__ r1 (Scheduler.OResource r2) = Scheduler.PyBool true /\
   Scheduler.Resource__hash__ Scheduler.hash_int r1 =
   Scheduler.Resource__hash__ Scheduler.hash_int r2) /\
  (Scheduler.ResourceGroup__eq__ g1 (Scheduler.OResourceGroup g2) = Scheduler.PyBool true /\
   Scheduler.ResourceGroup__hash__ Scheduler.hash_int g1 =
   Scheduler.ResourceGroup__hash__ Scheduler.hash_int g2) /\
  (Scheduler.Task__eq__ t1 (Scheduler.OTask t2) = Scheduler.PyBool true /\
   Scheduler.Task__hash__ Scheduler.hash_int t1 =
   Scheduler.Task__hash__ Scheduler.hash_int t2).
Proof.
  intros r1 r2 g1 g2 t1 t2.
  destruct (eq_and_hash_by_id Scheduler.hash_int) as [HR [HG HT]].
  destruct (HR r1 r2) as [HR1 [_ HR3]].
  destruct (HG g1 g2) as [HG1 [_ HG3]].
  destruct (HT t1 t2) as [HT1 [_ HT3]].
  refine (conj (conj _ _) (conj (conj _ _) (conj _ _))).
  - apply HR1. reflexivity.
  - apply HR3. reflexivity.
  - apply HG1. reflexivity.
  - apply HG3. reflexivity.
  - apply HT1. reflexivity.
  - apply HT3. reflexivity.
Defined.

(** * Minimum and maximum of a list *)

Lemma fold_max_is_maximum (l : list Z) (x : Z) :
  is_maximum (x :: l) (fold_left Z.max l x).
Proof.
  revert x. induction l as [| y l IH]; intros x; simpl.
  - split; [left; reflexivity |]. intros z [Hz | []]. lia.
  - destruct (IH (Z.max x y)) as [Hin Hub]. split.
    + destruct Hin as [Hm | Hin].
      * rewrite <- Hm. destruct (Z.max_spec x y) as [[_ E] | [_ E]]; rewrite E; simpl; tauto.
      * right. right. exact Hin.
    + intros z [Hz | [Hz | Hz]].
      * subst z. specialize (Hub (Z.max x y) (or_introl eq_refl)). lia.
      * subst z. specialize (Hub (Z.max x y) (or_introl eq_refl)). lia.
      * apply Hub. right. exact Hz.
Qed.

Lemma fold_min_is_minimum (l : list Z) (x : Z) :
  is_minimum (x :: l) (fold_left Z.min l x).
Proof.
  revert x. induction l as [| y l IH]; intros x; simpl.
  - split; [left; reflexivity |]. intros z [Hz | []]. lia.
  - destruct (IH (Z.min x y)) as [Hin Hlb]. split.
    + destruct Hin as [Hm | Hin].
      * rewrite <- Hm. destruct (Z.min_spec x y) as [[_ E] | [_ E]]; rewrite E; simpl; tauto.
      * right. right. exact Hin.
    + intros z [Hz | [Hz | Hz]].
      * subst z. specialize (Hlb (Z.min x y) (or_introl eq_refl)). lia.
      * subst z. specialize (Hlb (Z.min x y) (or_introl eq_refl)). lia.
      * apply Hlb. right. exact Hz.
Qed.

Lemma py_max_Ok (l : list Z) (m : Z) : py_max l = Ok m -> is_maximum l m.
Proof.
  destruct l as [| x l]; simpl; intros Hm; [discriminate |].
  injection Hm as <-. apply fold_max_is_maximum.
Qed.

Lemma py_min_Ok (l : list Z) (m : Z) : py_min l = Ok m -> is_minimum l m.
Proof.
  destruct l as [| x l]; simpl; intros Hm; [discriminate |].
  injection Hm as <-. apply fold_min_is_minimum.
Qed.

Lemma py_max_default0_is_maximum (l : list Z) :
  l <> [] -> is_maximum l (py_max_default0 l).
Proof.
  destruct l as [| x l]; [congruence |]. intros _. apply fold_max_is_maximum.
Qed.

(** * The heuristic solver *)

Section SolverFacts.
Import Models HeuristicSolver Spec.
Context {Assignments Constraints W : Type}.
Variable env : collaborators Assignments Constraints W.

Local Abbreviation Solver := (HeuristicSolver Assignments Constraints W).
Local Abbreviation Task := (Models.Task Assignments Constraints).

Lemma collect_task_ends_recorded (self : Solver) (task : Task)
  (preds : list Task) (ends : list Z) :
  Forall2 (recorded_end self) preds ends ->
  forall acc,
    collect_task_ends self task preds acc =
    Ok (Some (acc ++ map (fun e => e + predecessor_delay task) ends)).
Proof.
  induction 1 as [| pred e preds ends [r [Hr He]] _ IH]; intros acc; simpl.
  - rewrite app_nil_r. reflexivity.
  - unfold PyDict.getitem. rewrite Hr. simpl. rewrite He. simpl.
    rewrite IH, <- app_assoc. reflexivity.
Qed.

Lemma getitem_Ok {K V : Type} `{PyKey K} (d : PyDict.dict K V) (k : K) (v : V) :
  PyDict.getitem d k = Ok v <-> PyDict.get d k = Some v.
Proof.
  unfold PyDict.getitem. destruct (PyDict.get d k) as [v' |]; split; intros E;
    try discriminate; congruence.
Qed.

Lemma is_empty_true {K V : Type} (d : PyDict.dict K V) :
  PyDict.is_empty d = true <-> d = [].
Proof. destruct d; simpl; split; congruence. Qed.

Lemma is_empty_false {K V : Type} (d : PyDict.dict K V) :
  PyDict.is_empty d = false <-> d <> [].
Proof. destruct d; simpl; split; congruence. Qed.

Lemma update_error_message_Ok (self : Solver) (task_id msg : string) (r : record) :
  PyDict.get (task_vars self) task_id = Some r ->
  _update_error_message self task_id msg =
  Ok (with_task_vars self
        (PyDict.set (task_vars self) task_id
                    (PyDict.set r "error_message" (VStr msg)))).
Proof.
  intros Hr. unfold _update_error_message, PyDict.getitem. rewrite Hr. reflexivity.
Qed.

Lemma update_error_message_inv (self self' : Solver) (task_id msg : string) :
  _update_error_message self task_id msg = Ok self' ->
  exists r, PyDict.get (task_vars self) task_id = Some r /\
            self' = with_task_vars self
                      (PyDict.set (task_vars self) task_id
                                  (PyDict.set r "error_message" (VStr msg))).
Proof.
  unfold _update_error_message. intros Hu.
  apply bind_Ok_inv in Hu as [r [Hr Hu]]. apply getitem_Ok in Hr.
  injection Hu as <-. exists r. split; [exact Hr | reflexivity].
Qed.

(** The window query of an iteration is made at the earliest start. *)
Lemma iteration_queries_at_earliest_start (self self' : Solver) (task_id : string)
  (task : Task) (start : Z) :
  PyDict.get (task_dict self) task_id = Some task ->
  _get_task_earliest_start env self task (task_dict self) = Ok (Some start) ->
  solve_iteration env self task_id = Ok self' ->
  exists more,
    calls self' =
    calls self ++
      Call_get_task_resource_windows_dict
        (map Resource_id (get_unique_resources task)) start :: more.
Proof.
  intros Ht Hes Hs. unfold solve_iteration, PyDict.getitem in Hs.
  rewrite Ht in Hs. simpl in Hs. rewrite Hes in Hs. simpl in Hs.
  apply bind_Ok_inv in Hs as [d [Hq Hs]].
  destruct (PyDict.is_empty d).
  - apply update_error_message_inv in Hs as [r [_ ->]]. exists []. reflexivity.
  - destruct (allocate_task env d (assignments task) (duration task)
                            (constraints task)) as [allocated | ex].
    + apply bind_Ok_inv in Hs as [wm [_ Hs]].
      apply bind_Ok_inv in Hs as [task_start [_ Hs]].
      apply bind_Ok_inv in Hs as [task_end [_ Hs]].
      injection Hs as <-. simpl. eexists. rewrite <- !app_assoc. reflexivity.
    + destruct ex as [| | | msg | msg]; try discriminate Hs.
      apply update_error_message_inv in Hs as [r [_ ->]]. simpl.
      eexists. rewrite <- !app_assoc. reflexivity.
Qed.

(** C2.  When every predecessor has a recorded end, the earliest start is
    0 without predecessors and otherwise the maximum over the predecessors
    of (recorded end + the task's own predecessor delay); it is the time at
    which the iteration queries the windows; a single predecessor ending at
    3 with a delay of 2 gives 5. *)
Theorem earliest_start_max_of_predecessor_ends (self : Solver) (task : Task)
  (preds : list Task) (ends : list Z) :
  get_task_predecessors env task (task_dict self) = Ok preds ->
  Forall2 (recorded_end self) preds ends ->
  exists start,
    _get_task_earliest_start env self task (task_dict self) = Ok (Some start) /\
    (preds = [] -> start = 0) /\
    (preds <> [] ->
     is_maximum (map (fun e => e + predecessor_delay task) ends) start) /\
    (ends = [3] -> predecessor_delay task = 2 -> start = 5) /\
    (forall task_id self',
        PyDict.get (task_dict self) task_id = Some task ->
        solve_iteration env self task_id = Ok self' ->
        exists more,
          calls self' =
          calls self ++
            Call_get_task_resource_windows_dict
              (map Resource_id (get_unique_resources task)) start :: more).
Proof.
  intros Hp Hends.
  assert (_get_task_earliest_start env self task (task_dict self) =
          Ok (Some (py_max_default0
                      (map (fun e => e + predecessor_delay task) ends)))) as Hes.
  { unfold _get_task_earliest_start. rewrite Hp. simpl.
    rewrite (collect_task_ends_recorded self task preds ends Hends []).
    reflexivity. }
  eexists. split; [exact Hes |]. split; [| split; [| split]].
  - intros ->. inversion Hends. reflexivity.
  - intros Hne. apply py_max_default0_is_maximum.
    inversion Hends; subst; simpl; [congruence | discriminate].
  - intros -> ->. reflexivity.
  - intros task_id self' Ht Hs.
    apply (iteration_queries_at_earliest_start self self' task_id task _ Ht Hes Hs).
Qed.

(** ** The four ways an iteration can end *)

Lemma iteration_blocked (self : Solver) (task_id : string) (task : Task) (r : record) :
  PyDict.get (task_dict self) task_id = Some task ->
  PyDict.get (task_vars self) task_id = Some r ->
  ends_blocked env self task ->
  solve_iteration env self task_id =
  Ok (with_task_vars self
        (PyDict.set (task_vars self) task_id
           (PyDict.set r "error_message" (VStr "Task has unscheduled predecessors")))).
Proof.
  intros Ht Hr Hb. unfold solve_iteration, PyDict.getitem. rewrite Ht. simpl.
  unfold ends_blocked in Hb. rewrite Hb. simpl.
  apply update_error_message_Ok. exact Hr.
Qed.

Lemma iteration_without_resources (self : Solver) (task_id : string) (task : Task)
  (r : record) (start : Z) :
  PyDict.get (task_dict self) task_id = Some task ->
  PyDict.get (task_vars self) task_id = Some r ->
  window_query env self task start [] ->
  solve_iteration env self task_id =
  Ok (with_task_vars
        (logged self (Call_get_task_resource_windows_dict
                        (map Resource_id (get_unique_resources task)) start))
        (PyDict.set (task_vars self) task_id
           (PyDict.set r "error_message" (VStr "No available resources")))).
Proof.
  intros Ht Hr [Hes Hq]. unfold solve_iteration, PyDict.getitem. rewrite Ht. simpl.
  rewrite Hes. simpl. rewrite Hq. simpl.
  exact (update_error_message_Ok (logged self _) _ _ _ Hr).
Qed.

Lemma iteration_allocation_failed (self : Solver) (task_id : string) (task : Task)
  (r : record) (start : Z) (d : PyDict.dict Z windows) (msg : string) :
  PyDict.get (task_dict self) task_id = Some task ->
  PyDict.get (task_vars self) task_id = Some r ->
  window_query env self task start d ->
  d <> [] ->
  allocate_task env d (assignments task) (duration task) (constraints task) =
  Raise (AllocationError msg) ->
  solve_iteration env self task_id =
  Ok (with_task_vars
        (logged
           (logged self (Call_get_task_resource_windows_dict
                           (map Resource_id (get_unique_resources task)) start))
           (Call_allocate_task d (duration task)))
        (PyDict.set (task_vars self) task_id
           (PyDict.set r "error_message" (VStr msg)))).
Proof.
  intros Ht Hr [Hes Hq] Hd Ha. unfold solve_iteration, PyDict.getitem.
  rewrite Ht. simpl. rewrite Hes. simpl. rewrite Hq. simpl.
  apply is_empty_false in Hd. rewrite Hd, Ha.
  exact (update_error_message_Ok (logged (logged self _) _) _ _ _ Hr).
Qed.

Lemma iteration_scheduled (self : Solver) (task_id : string) (task : Task)
  (start : Z) (d : PyDict.dict Z windows) (allocated : PyDict.dict Z (Z * Z))
  (wm : W) :
  PyDict.get (task_dict self) task_id = Some task ->
  window_query env self task start d ->
  d <> [] ->
  allocate_task env d (assignments task) (duration task) (constraints task) =
  Ok allocated ->
  update_resource_windows env (window_manager self) allocated = Ok wm ->
  allocated <> [] ->
  exists task_start task_end,
    py_min (map fst (PyDict.values allocated)) = Ok task_start /\
    py_max (map snd (PyDict.values allocated)) = Ok task_end /\
    solve_iteration env self task_id =
    Ok (with_task_vars
          (logged
             (with_window_manager
                (logged
                   (logged self (Call_get_task_resource_windows_dict
                                   (map Resource_id (get_unique_resources task))
                                   start))
                   (Call_allocate_task d (duration task)))
                wm)
             (Call_update_resource_windows allocated))
          (PyDict.set (task_vars self) task_id
             (task_values task_id allocated task_start task_end))).
Proof.
  intros Ht [Hes Hq] Hd Ha Hc Hne.
  destruct allocated as [| [rid [s e]] rest]; [congruence |].
  eexists. eexists. split; [reflexivity |]. split; [reflexivity |].
  unfold solve_iteration, PyDict.getitem.
  rewrite Ht. simpl. rewrite Hes. simpl. rewrite Hq. simpl.
  apply is_empty_false in Hd. rewrite Hd, Ha. simpl. rewrite Hc. reflexivity.
Qed.

Lemma commits_app (cs cs' : list call) : commits (cs ++ cs') = commits cs ++ commits cs'.
Proof. unfold commits. apply flat_map_app. Qed.

(** Every successful iteration ended in one of the four ways. *)
Lemma solve_iteration_inv (self self' : Solver) (task_id : string) :
  solve_iteration env self task_id = Ok self' ->
  exists task,
    PyDict.get (task_dict self) task_id = Some task /\
    task_dict self' = task_dict self /\
    task_order self' = task_order self /\
    ((exists msg r,
         ends_in_error env self task msg /\
         PyDict.get (task_vars self) task_id = Some r /\
         task_vars self' =
         PyDict.set (task_vars self) task_id
                    (PyDict.set r "error_message" (VStr msg)) /\
         window_manager self' = window_manager self /\
         commits (calls self') = commits (calls self)) \/
     (exists allocated wm task_start task_end,
         ends_scheduled env self task allocated wm /\
         py_min (map fst (PyDict.values allocated)) = Ok task_start /\
         py_max (map snd (PyDict.values allocated)) = Ok task_end /\
         task_vars self' =
         PyDict.set (task_vars self) task_id
                    (task_values task_id allocated task_start task_end) /\
         window_manager self' = wm /\
         commits (calls self') = commits (calls self) ++ [allocated])).
Proof.
  unfold solve_iteration. intros Hs.
  apply bind_Ok_inv in Hs as [task [Ht Hs]]. apply getitem_Ok in Ht.
  apply bind_Ok_inv in Hs as [es [Hes Hs]].
  exists task. split; [exact Ht |].
  destruct es as [start |].
  - apply bind_Ok_inv in Hs as [d [Hq Hs]].
    destruct (PyDict.is_empty d) eqn:Hd.
    + apply is_empty_true in Hd. subst d.
      apply update_error_message_inv in Hs as [r [Hr ->]]. simpl in *.
      split; [reflexivity |]. split; [reflexivity |]. left.
      exists "No available resources", r.
      split. { right. left. split; [| reflexivity]. exists start. split; assumption. }
      split; [exact Hr |]. split; [reflexivity |]. split; [reflexivity |].
      rewrite commits_app. simpl. apply app_nil_r.
    + apply is_empty_false in Hd.
      destruct (allocate_task env d (assignments task) (duration task)
                              (constraints task)) as [allocated | ex] eqn:Ha.
      * apply bind_Ok_inv in Hs as [wm [Hc Hs]].
        apply bind_Ok_inv in Hs as [task_start [Hmin Hs]].
        apply bind_Ok_inv in Hs as [task_end [Hmax Hs]].
        injection Hs as <-. simpl in *.
        split; [reflexivity |]. split; [reflexivity |]. right.
        exists allocated, wm, task_start, task_end.
        split. { exists start, d. repeat split; try assumption.
                 intros ->. discriminate Hmin. }
        split; [exact Hmin |]. split; [exact Hmax |].
        split; [reflexivity |]. split; [reflexivity |].
        rewrite !commits_app. simpl. rewrite !app_nil_r. reflexivity.
      * destruct ex as [| | | msg | msg]; try discriminate Hs.
        apply update_error_message_inv in Hs as [r [Hr ->]]. simpl in *.
        split; [reflexivity |]. split; [reflexivity |]. left.
        exists msg, r.
        split. { right. right. exists start, d. repeat split; assumption. }
        split; [exact Hr |]. split; [reflexivity |]. split; [reflexivity |].
        rewrite !commits_app. simpl. rewrite !app_nil_r. reflexivity.
  - apply update_error_message_inv in Hs as [r [Hr ->]]. simpl in *.
    split; [reflexivity |]. split; [reflexivity |]. left.
    exists "Task has unscheduled predecessors", r.
    split. { left. split; [exact Hes | reflexivity]. }
    split; [exact Hr |]. split; [reflexivity |]. split; reflexivity.
Qed.

(** An iteration changes the record of its own task only. *)
Lemma solve_iteration_frame (self self' : Solver) (task_id : string) :
  solve_iteration env self task_id = Ok self' ->
  task_dict self' = task_dict self /\
  task_order self' = task_order self /\
  forall k, k <> task_id ->
            PyDict.get (task_vars self') k = PyDict.get (task_vars self) k.
Proof.
  intros Hs. apply solve_iteration_inv in Hs as [task [_ [Hd [Ho Hcases]]]].
  split; [exact Hd |]. split; [exact Ho |]. intros k Hk.
  destruct Hcases as [[msg [r [_ [_ [Htv _]]]]] | [al [wm [s [e [_ [_ [_ [Htv _]]]]]]]]];
    rewrite Htv; apply get_set_other; congruence.
Qed.

Lemma solve_loop_frame (order : list string) :
  forall self self' : Solver,
    solve_loop env self order = Ok self' ->
    task_dict self' = task_dict self /\
    task_order self' = task_order self /\
    forall k, ~ In k order ->
              PyDict.get (task_vars self') k = PyDict.get (task_vars self) k.
Proof.
  induction order as [| task_id rest IH]; simpl; intros self self' Hl.
  - injection Hl as <-. auto.
  - apply bind_Ok_inv in Hl as [mid [Hi Hl]].
    apply solve_iteration_frame in Hi as [Hd [Ho Hf]].
    apply IH in Hl as [Hd' [Ho' Hf']].
    split; [congruence |]. split; [congruence |].
    intros k Hk. simpl in Hk. rewrite Hf', Hf; [reflexivity | |]; intuition congruence.
Qed.

Lemma solve_loop_app (l1 l2 : list string) (self : Solver) :
  solve_loop env self (l1 ++ l2) =
  (mid <- solve_loop env self l1 ;; solve_loop env mid l2).
Proof.
  revert self. induction l1 as [| t l1 IH]; intros self; simpl; [reflexivity |].
  destruct (solve_iteration env self t) as [mid | ex]; simpl; [apply IH | reflexivity].
Qed.

(** C3.  When the allocator raises [AllocationError], the iteration records
    the message of the error for the task, leaves the window manager as it
    was (the calls made are the query and the allocation, no commit), and
    the loop goes on with the next task. *)
Theorem allocation_error_is_recorded (self : Solver) (task_id : string)
  (task : Task) (r : record) (start : Z) (d : PyDict.dict Z windows)
  (msg : string) :
  PyDict.get (task_dict self) task_id = Some task ->
  PyDict.get (task_vars self) task_id = Some r ->
  window_query env self task start d ->
  d <> [] ->
  allocate_task env d (assignments task) (duration task) (constraints task) =
  Raise (AllocationError msg) ->
  exists self',
    solve_iteration env self task_id = Ok self' /\
    PyDict.get (task_vars self') task_id =
    Some (PyDict.set r "error_message" (VStr msg)) /\
    PyDict.get (PyDict.set r "error_message" (VStr msg)) "error_message" =
    Some (VStr msg) /\
    window_manager self' = window_manager self /\
    calls self' =
    calls self ++
      [Call_get_task_resource_windows_dict
         (map Resource_id (get_unique_resources task)) start;
       Call_allocate_task d (duration task)] /\
    commits (calls self') = commits (calls self) /\
    forall rest,
      solve_loop env self (task_id :: rest) = solve_loop env self' rest.
Proof.
  intros Ht Hr Hq Hd Ha.
  pose proof (iteration_allocation_failed self task_id task r start d msg
                Ht Hr Hq Hd Ha) as Hi.
  eexists. split; [exact Hi |]. simpl.
  split; [apply get_set_same |]. split; [apply get_set_same |].
  split; [reflexivity |]. split; [rewrite <- app_assoc; reflexivity |].
  split.
  - rewrite !commits_app. simpl. rewrite !app_nil_r. reflexivity.
  - intros rest. rewrite Hi. reflexivity.
Qed.

(** C5.  When the window query answers with the empty mapping, the
    iteration records "No available resources" for the task; the only call
    made is the query, so the allocator is not invoked, and the loop goes on
    with the next task. *)
Theorem no_available_resources_is_recorded (self : Solver) (task_id : string)
  (task : Task) (r : record) (start : Z) :
  PyDict.get (task_dict self) task_id = Some task ->
  PyDict.get (task_vars self) task_id = Some r ->
  window_query env self task start [] ->
  exists self',
    solve_iteration env self task_id = Ok self' /\
    PyDict.get (task_vars self') task_id =
    Some (PyDict.set r "error_message" (VStr "No available resources")) /\
    PyDict.get (PyDict.set r "error_message" (VStr "No available resources"))
               "error_message" = Some (VStr "No available resources") /\
    calls self' =
    calls self ++
      [Call_get_task_resource_windows_dict
         (map Resource_id (get_unique_resources task)) start] /\
    window_manager self' = window_manager self /\
    forall rest,
      solve_loop env self (task_id :: rest) = solve_loop env self' rest.
Proof.
  intros Ht Hr Hq.
  pose proof (iteration_without_resources self task_id task r start Ht Hr Hq) as Hi.
  eexists. split; [exact Hi |]. simpl.
  split; [apply get_set_same |]. split; [apply get_set_same |].
  split; [reflexivity |]. split; [reflexivity |].
  intros rest. rewrite Hi. reflexivity.
Qed.

Lemma collect_task_ends_blocked (self : Solver) (task : Task) (preds : list Task) :
  Forall (has_record self) preds ->
  Exists (no_recorded_end self) preds ->
  forall acc, collect_task_ends self task preds acc = Ok None.
Proof.
  induction 1 as [| pred preds Hrec _ IH]; intros Hex acc.
  - inversion Hex.
  - simpl. unfold PyDict.getitem.
    destruct Hrec as [[r [Hr He]] | [e [r [Hr He]]]]; rewrite Hr; simpl; rewrite He; simpl.
    + reflexivity.
    + apply IH. inversion Hex as [? ? [r' [Hr' He']] | ? ? Hex']; subst; [| exact Hex'].
      congruence.
Qed.

Lemma blocked_by_predecessor (self : Solver) (task : Task) (preds : list Task) :
  get_task_predecessors env task (task_dict self) = Ok preds ->
  Forall (has_record self) preds ->
  Exists (no_recorded_end self) preds ->
  ends_blocked env self task.
Proof.
  intros Hp Hrec Hex. unfold ends_blocked, _get_task_earliest_start.
  rewrite Hp. simpl. rewrite (collect_task_ends_blocked self task preds Hrec Hex).
  reflexivity.
Qed.

(** C4.  A task with a predecessor that has no recorded end gets the
    message "Task has unscheduled predecessors"; no call is made to the
    window manager or to the allocator, its own "task_end" is left as it
    was, and as long as it stays undefined every successor processed later
    in the run is blocked in the same way. *)
Theorem unscheduled_predecessor_blocks_task (self : Solver) (task_id : string)
  (task : Task) (r : record) (preds : list Task) :
  PyDict.get (task_dict self) task_id = Some task ->
  PyDict.get (task_vars self) task_id = Some r ->
  get_task_predecessors env task (task_dict self) = Ok preds ->
  Forall (has_record self) preds ->
  Exists (no_recorded_end self) preds ->
  exists self',
    solve_iteration env self task_id = Ok self' /\
    PyDict.get (task_vars self') task_id =
    Some (PyDict.set r "error_message" (VStr "Task has unscheduled predecessors")) /\
    calls self' = calls self /\
    window_manager self' = window_manager self /\
    PyDict.get (PyDict.set r "error_message"
                  (VStr "Task has unscheduled predecessors")) "task_end" =
    PyDict.get r "task_end" /\
    (forall rest,
        solve_loop env self (task_id :: rest) = solve_loop env self' rest) /\
    (PyDict.get r "task_end" = Some VNone ->
     forall (later : list string) (self2 : Solver) (succ_id : string)
            (succ : Task) (succ_r : record) (succ_preds : list Task),
       ~ In task_id later ->
       solve_loop env self' later = Ok self2 ->
       PyDict.get (task_dict self2) succ_id = Some succ ->
       PyDict.get (task_vars self2) succ_id = Some succ_r ->
       get_task_predecessors env succ (task_dict self2) = Ok succ_preds ->
       Forall (has_record self2) succ_preds ->
       (exists p, In p succ_preds /\ id p = task_id) ->
       solve_iteration env self2 succ_id =
       Ok (with_task_vars self2
             (PyDict.set (task_vars self2) succ_id
                (PyDict.set succ_r "error_message"
                   (VStr "Task has unscheduled predecessors"))))).
Proof.
  intros Ht Hr Hp Hrec Hex.
  pose proof (iteration_blocked self task_id task r Ht Hr
                (blocked_by_predecessor self task preds Hp Hrec Hex)) as Hi.
  eexists. split; [exact Hi |]. simpl.
  split; [apply get_set_same |]. split; [reflexivity |]. split; [reflexivity |].
  split; [apply get_set_other; discriminate |].
  split; [intros rest; rewrite Hi; reflexivity |].
  intros Hend later self2 succ_id succ succ_r succ_preds Hnot Hloop Hst Hsr Hsp
         Hsrec [p [Hin Hid]].
  apply (iteration_blocked self2 succ_id succ succ_r Hst Hsr).
  apply (blocked_by_predecessor self2 succ succ_preds Hsp Hsrec).
  apply Exists_exists. exists p. split; [exact Hin |].
  exists (PyDict.set r "error_message" (VStr "Task has unscheduled predecessors")).
  apply solve_loop_frame in Hloop as [_ [_ Hframe]].
  rewrite Hid, (Hframe task_id Hnot). simpl. split; [apply get_set_same |].
  rewrite get_set_other; [exact Hend | discriminate].
Qed.

(** C6, amended.  A task that reaches the commit gets as "task_start" the
    minimum start and as "task_end" the maximum end of the intervals the
    allocator returned, and as "assigned_resource_ids" the keys of that
    allocation; when every returned interval has start <= end, the start is
    not after the end. *)
Theorem scheduled_task_records_allocation (self : Solver) (task_id : string)
  (task : Task) (allocated : PyDict.dict Z (Z * Z)) (wm : W) :
  PyDict.get (task_dict self) task_id = Some task ->
  ends_scheduled env self task allocated wm ->
  exists self' rec task_start task_end,
    solve_iteration env self task_id = Ok self' /\
    PyDict.get (task_vars self') task_id = Some rec /\
    PyDict.get rec "task_start" = Some (VInt task_start) /\
    is_minimum (map fst (PyDict.values allocated)) task_start /\
    PyDict.get rec "task_end" = Some (VInt task_end) /\
    is_maximum (map snd (PyDict.values allocated)) task_end /\
    PyDict.get rec "assigned_resource_ids" = Some (VIds (PyDict.keys allocated)) /\
    PyDict.get rec "resource_intervals" = Some (VIntervals (PyDict.values allocated)) /\
    window_manager self' = wm /\
    (Forall (fun iv => fst iv <= snd iv) (PyDict.values allocated) ->
     task_start <= task_end).
Proof.
  intros Ht [start [d [Hq [Hd [Ha [Hc Hne]]]]]].
  destruct (iteration_scheduled self task_id task start d allocated wm
              Ht Hq Hd Ha Hc Hne) as [task_start [task_end [Hmin [Hmax Hi]]]].
  eexists. exists (task_values task_id allocated task_start task_end),
    task_start, task_end.
  split; [exact Hi |]. simpl.
  split; [apply get_set_same |].
  apply py_min_Ok in Hmin. apply py_max_Ok in Hmax.
  repeat (split; [first [reflexivity | assumption] |]).
  intros Hwf. destruct Hmin as [Hs_in Hs_lb]. destruct Hmax as [_ He_ub].
  apply in_map_iff in Hs_in as [[s e] [Hfst Hin]]. simpl in Hfst. subst s.
  rewrite Forall_forall in Hwf. specialize (Hwf (task_start, e) Hin). simpl in Hwf.
  specialize (He_ub e). 
  assert (In e (map snd (PyDict.values allocated))) as He_in.
  { apply in_map_iff. exists (task_start, e). split; [reflexivity | exact Hin]. }
  specialize (He_ub He_in). lia.
Qed.

(** ** Records of tasks that were not visited yet *)

Lemma fold_initial_records_other (l : list string) (task_id : string) :
  forall acc : PyDict.dict string record,
    ~ In task_id l ->
    PyDict.get (fold_left (fun tv k => PyDict.set tv k (initial_record k)) l acc)
               task_id = PyDict.get acc task_id.
Proof.
  induction l as [| k l IH]; intros acc Hnot; simpl; [reflexivity |].
  simpl in Hnot. rewrite IH by tauto.
  apply get_set_other. intros ->. tauto.
Qed.

Lemma fold_initial_records_get (l : list string) (task_id : string) :
  forall acc : PyDict.dict string record,
    In task_id l ->
    PyDict.get (fold_left (fun tv k => PyDict.set tv k (initial_record k)) l acc)
               task_id = Some (initial_record task_id).
Proof.
  induction l as [| k l IH]; intros acc Hin; simpl; [destruct Hin |].
  destruct (in_dec string_dec task_id l) as [Hl | Hl].
  - apply IH. exact Hl.
  - destruct Hin as [-> | Hin]; [| contradiction].
    rewrite fold_initial_records_other by exact Hl. apply get_set_same.
Qed.

Lemma init_record (td : PyDict.dict string Task) (resources : list Resource)
  (order : list string) (task_id : string) (task : Task) :
  PyDict.get td task_id = Some task ->
  PyDict.get (task_vars (__init__ env td resources order)) task_id =
  Some (initial_record task_id).
Proof.
  intros Ht. simpl. apply fold_initial_records_get.
  apply (get_Some_keys td task_id task Ht).
Qed.

(** Until its first visit a task keeps the record of [__init__]. *)
Lemma unvisited_record (td : PyDict.dict string Task) (resources : list Resource)
  (order prefix : list string) (self : Solver) (task_id : string) (task : Task) :
  solve_loop env (__init__ env td resources order) prefix = Ok self ->
  ~ In task_id prefix ->
  PyDict.get td task_id = Some task ->
  PyDict.get (task_vars self) task_id = Some (initial_record task_id).
Proof.
  intros Hl Hnot Ht. apply solve_loop_frame in Hl as [_ [_ Hf]].
  rewrite (Hf task_id Hnot). apply (init_record td resources order task_id task Ht).
Qed.

Lemma iteration_error (self : Solver) (task_id : string) (task : Task)
  (r : record) (msg : string) :
  PyDict.get (task_dict self) task_id = Some task ->
  PyDict.get (task_vars self) task_id = Some r ->
  ends_in_error env self task msg ->
  exists self',
    solve_iteration env self task_id = Ok self' /\
    task_vars self' =
    PyDict.set (task_vars self) task_id (PyDict.set r "error_message" (VStr msg)) /\
    window_manager self' = window_manager self.
Proof.
  intros Ht Hr [[Hb ->] | [[[start Hq] ->] | [start [d [Hq [Hd Ha]]]]]].
  - eexists. split; [apply (iteration_blocked self task_id task r Ht Hr Hb) |].
    split; reflexivity.
  - eexists.
    split; [apply (iteration_without_resources self task_id task r start Ht Hr Hq) |].
    split; reflexivity.
  - eexists.
    split; [apply (iteration_allocation_failed self task_id task r start d msg
                     Ht Hr Hq Hd Ha) |].
    split; reflexivity.
Qed.

(** C10, amended.  An iteration that ends in an error (blocked, no resources
    or allocation failure) writes the "error_message" of its own task and
    nothing else: every other field of the record and every other record is
    what it was, so the allocation fields that were [None] stay [None]; on the
    first visit of a task in a run the record is the one of [__init__], whose
    allocation fields are all [None], so that a task failing on its first
    visit does not appear allocated and shows "task_end" = [None]. *)
Theorem error_writes_only_error_message (self : Solver) (task_id : string)
  (task : Task) (r : record) (msg : string) :
  PyDict.get (task_dict self) task_id = Some task ->
  PyDict.get (task_vars self) task_id = Some r ->
  ends_in_error env self task msg ->
  exists self' r',
    solve_iteration env self task_id = Ok self' /\
    PyDict.get (task_vars self') task_id = Some r' /\
    PyDict.get r' "error_message" = Some (VStr msg) /\
    (forall field, field <> "error_message" ->
                   PyDict.get r' field = PyDict.get r field) /\
    (forall k, k <> task_id ->
               PyDict.get (task_vars self') k = PyDict.get (task_vars self) k) /\
    window_manager self' = window_manager self /\
    (no_allocation r -> no_allocation r' /\ ~ complete_allocation r') /\
    (PyDict.get r "task_end" = Some VNone -> PyDict.get r' "task_end" = Some VNone) /\
    (forall td resources order prefix,
        solve_loop env (__init__ env td resources order) prefix = Ok self ->
        ~ In task_id prefix ->
        r = initial_record task_id /\ no_allocation r /\
        PyDict.get r "task_end" = Some VNone).
Proof.
  intros Ht Hr Herr.
  destruct (iteration_error self task_id task r msg Ht Hr Herr)
    as [self' [Hi [Htv Hwm]]].
  exists self', (PyDict.set r "error_message" (VStr msg)).
  assert (forall field, field <> "error_message" ->
            PyDict.get (PyDict.set r "error_message" (VStr msg)) field =
            PyDict.get r field) as Hfields.
  { intros field Hf. apply get_set_other. congruence. }
  split; [exact Hi |]. rewrite Htv.
  split; [apply get_set_same |]. split; [apply get_set_same |].
  split; [exact Hfields |].
  split; [intros k Hk; apply get_set_other; congruence |].
  split; [exact Hwm |]. split; [| split].
  - intros [Ha [Hs [He Hri]]].
    assert (no_allocation (PyDict.set r "error_message" (VStr msg))) as Hno.
    { unfold no_allocation, field_unset in *.
      rewrite !Hfields by discriminate. tauto. }
    split; [exact Hno |].
    intros [[v [Hv Hvn]] _]. destruct Hno as [[Hn | Hn] _]; congruence.
  - intros He. rewrite Hfields by discriminate. exact He.
  - intros td resources order prefix Hl Hnot.
    assert (r = initial_record task_id) as ->.
    { pose proof Hl as Hl'. apply solve_loop_frame in Hl' as [Hd _].
      simpl in Hd. rewrite Hd in Ht.
      pose proof (unvisited_record td resources order prefix self task_id task
                    Hl Hnot Ht) as Hu.
      congruence. }
    split; [reflexivity |]. split; [| reflexivity].
    unfold no_allocation, field_unset. simpl. tauto.
Qed.

(** ** The result table along a run *)

Lemma keys_set_absent {V : Type} (d : PyDict.dict string V) (k : string) (v : V) :
  ~ In k (PyDict.keys d) -> PyDict.keys (PyDict.set d k v) = PyDict.keys d ++ [k].
Proof.
  induction d as [| [k' v'] rest IH]; simpl; intros Hnot; [reflexivity |].
  destruct (String.eqb k' k) eqn:E.
  - apply String.eqb_eq in E. tauto.
  - simpl. f_equal. apply IH. tauto.
Qed.

Lemma fold_initial_records_keys (l : list string) :
  forall acc : PyDict.dict string record,
    NoDup l -> (forall k, In k l -> ~ In k (PyDict.keys acc)) ->
    PyDict.keys (fold_left (fun tv k => PyDict.set tv k (initial_record k)) l acc) =
    PyDict.keys acc ++ l.
Proof.
  induction l as [| k l IH]; intros acc Hnd Hfresh; simpl.
  - rewrite app_nil_r. reflexivity.
  - inversion Hnd as [| ? ? Hk Hnd']; subst.
    rewrite IH; [| exact Hnd' |].
    + rewrite keys_set_absent by (apply Hfresh; left; reflexivity).
      rewrite <- app_assoc. reflexivity.
    + intros k' Hin Hkeys. apply keys_set_In in Hkeys as [-> | Hkeys].
      * contradiction.
      * apply (Hfresh k'); [right; exact Hin | exact Hkeys].
Qed.

Lemma fold_initial_records_In (l : list string) (k : string) (r : record) :
  forall acc : PyDict.dict string record,
    In (k, r) (fold_left (fun tv k => PyDict.set tv k (initial_record k)) l acc) ->
    r = initial_record k \/ In (k, r) acc.
Proof.
  induction l as [| k' l IH]; intros acc Hin; simpl in Hin; [right; exact Hin |].
  apply IH in Hin as [Hr | Hin]; [left; exact Hr |].
  apply In_set_inv in Hin as [[-> ->] | Hin]; [left; reflexivity | right; exact Hin].
Qed.

Lemma fold_initial_records_wf (l : list string) :
  forall acc : PyDict.dict string record,
    PyDict.wf acc ->
    PyDict.wf (fold_left (fun tv k => PyDict.set tv k (initial_record k)) l acc).
Proof.
  induction l as [| k l IH]; intros acc Hwf; simpl; [exact Hwf |].
  apply IH. apply wf_set. exact Hwf.
Qed.

Lemma init_table_in_order (td : PyDict.dict string Task) (resources : list Resource)
  (order : list string) :
  table_in_order (__init__ env td resources order).
Proof.
  split; [| split].
  - simpl. apply fold_initial_records_wf. constructor.
  - intros k task Hk. exists (initial_record k).
    apply (init_record td resources order k task Hk).
  - intros k r Hin. simpl in Hin.
    apply fold_initial_records_In in Hin as [-> | []]. reflexivity.
Qed.

Lemma init_keys (td : PyDict.dict string Task) (resources : list Resource)
  (order : list string) :
  PyDict.wf td ->
  PyDict.keys (task_vars (__init__ env td resources order)) = PyDict.keys td.
Proof.
  intros Hwf. simpl. rewrite fold_initial_records_keys; [reflexivity | exact Hwf |].
  intros k _ [].
Qed.

Lemma solve_iteration_table (self self' : Solver) (task_id : string) :
  solve_iteration env self task_id = Ok self' ->
  table_in_order self ->
  table_in_order self' /\
  PyDict.keys (task_vars self') = PyDict.keys (task_vars self).
Proof.
  intros Hs [Hwf [Hall Hkey]].
  apply solve_iteration_inv in Hs as [task [Ht [Hd [_ Hcases]]]].
  destruct (Hall task_id task Ht) as [r0 Hr0].
  assert (exists rec, task_vars self' = PyDict.set (task_vars self) task_id rec /\
                      PyDict.get rec "task_id" = Some (VStr task_id))
    as [rec [Htv Hrec]].
  { destruct Hcases as [[msg [r [_ [Hr [Htv _]]]]] |
                        [al [wm [s [e [_ [_ [_ [Htv _]]]]]]]]].
    - eexists. split; [exact Htv |].
      rewrite get_set_other by discriminate.
      apply Hkey. apply get_Some_In. exact Hr.
    - eexists. split; [exact Htv | reflexivity]. }
  unfold table_in_order. rewrite Htv, Hd. split; [split; [| split] |].
  - apply wf_set. exact Hwf.
  - intros k task' Hk.
    destruct (string_dec task_id k) as [<- | Hne].
    + exists rec. apply get_set_same.
    + rewrite get_set_other by exact Hne. apply (Hall k task' Hk).
  - intros k r Hin. apply In_set_inv in Hin as [[-> ->] | Hin];
      [exact Hrec | apply Hkey; exact Hin].
  - apply (keys_set_present (task_vars self) task_id rec r0 Hr0).
Qed.

Lemma solve_loop_table (order : list string) :
  forall self self' : Solver,
    solve_loop env self order = Ok self' ->
    table_in_order self ->
    table_in_order self' /\
    PyDict.keys (task_vars self') = PyDict.keys (task_vars self).
Proof.
  induction order as [| task_id rest IH]; simpl; intros self self' Hl Hinv.
  - injection Hl as <-. split; [exact Hinv | reflexivity].
  - apply bind_Ok_inv in Hl as [mid [Hi Hl]].
    apply solve_iteration_table in Hi as [Hmid Hkeys]; [| exact Hinv].
    apply IH in Hl as [Hinv' Hkeys']; [| exact Hmid].
    split; [exact Hinv' | congruence].
Qed.

(** ** Runs that raise no exception *)

Lemma init_ends_well_typed (td : PyDict.dict string Task) (resources : list Resource)
  (order : list string) :
  ends_well_typed (__init__ env td resources order).
Proof.
  intros k r Hget. apply get_Some_In in Hget. simpl in Hget.
  apply fold_initial_records_In in Hget as [-> | []]. left. reflexivity.
Qed.

Lemma solve_iteration_ends_well_typed (self self' : Solver) (task_id : string) :
  solve_iteration env self task_id = Ok self' ->
  ends_well_typed self -> ends_well_typed self'.
Proof.
  intros Hs Hty k r' Hget.
  apply solve_iteration_inv in Hs as [task [_ [_ [_ Hcases]]]].
  destruct Hcases as [[msg [r [_ [Hr [Htv _]]]]] |
                      [al [wm [s [e [_ [_ [_ [Htv _]]]]]]]]];
    rewrite Htv in Hget; (destruct (string_dec task_id k) as [<- | Hne];
      [rewrite get_set_same in Hget; injection Hget as <- |
       rewrite get_set_other in Hget by exact Hne; apply (Hty k r' Hget)]).
  - rewrite get_set_other by discriminate. apply (Hty task_id r Hr).
  - right. exists e. reflexivity.
Qed.

Lemma collect_task_ends_progress (self : Solver) (task : Task) (preds : list Task) :
  Forall (has_record self) preds ->
  forall acc, exists res, collect_task_ends self task preds acc = Ok res.
Proof.
  induction 1 as [| pred preds Hrec _ IH]; intros acc; simpl.
  - eexists. reflexivity.
  - unfold PyDict.getitem.
    destruct Hrec as [[r [Hr He]] | [e [r [Hr He]]]]; rewrite Hr; simpl; rewrite He; simpl.
    + eexists. reflexivity.
    + apply IH.
Qed.

Lemma solve_iteration_progress (self : Solver) (task_id : string) :
  table_in_order self -> ends_well_typed self ->
  In task_id (PyDict.keys (task_dict self)) ->
  predecessors_known env (task_dict self) ->
  query_answers env -> allocator_proposes_or_fails env ->
  commit_accepts_proposals env ->
  exists self', solve_iteration env self task_id = Ok self'.
Proof.
  intros [Hwf [Hall Hkey]] Hty Hin Hpreds Hquery Halloc Hcommit.
  destruct (keys_get_Some (task_dict self) task_id Hin) as [task Ht].
  destruct (Hall task_id task Ht) as [r Hr].
  destruct (Hpreds task_id task Ht) as [preds [Hp Hknown]].
  assert (Forall (has_record self) preds) as Hrec.
  { apply Forall_forall. intros p Hp_in.
    rewrite Forall_forall in Hknown. specialize (Hknown p Hp_in).
    destruct (keys_get_Some (task_dict self) (id p) Hknown) as [ptask Hptask].
    destruct (Hall (id p) ptask Hptask) as [pr Hpr].
    destruct (Hty (id p) pr Hpr) as [Hn | [e He]].
    - left. exists pr. split; assumption.
    - right. exists e, pr. split; assumption. }
  destruct (collect_task_ends_progress self task preds Hrec []) as [res Hres].
  assert (exists es, _get_task_earliest_start env self task (task_dict self) = Ok es)
    as [es Hes].
  { unfold _get_task_earliest_start. rewrite Hp. simpl. rewrite Hres. simpl.
    destruct res; eexists; reflexivity. }
  destruct es as [start |].
  - destruct (Hquery (window_manager self)
                     (map Resource_id (get_unique_resources task)) start) as [d Hq].
    destruct d as [| entry d'] eqn:Ed.
    + eexists.
      apply (iteration_without_resources self task_id task r start Ht Hr).
      split; assumption.
    + rewrite <- Ed in Hq.
      assert (d <> []) as Hd by (rewrite Ed; discriminate).
      destruct (Halloc d (assignments task) (duration task) (constraints task))
        as [[msg Ha] | [allocated [Ha Hne]]].
      * eexists.
        apply (iteration_allocation_failed self task_id task r start d msg Ht Hr);
          [split; assumption | exact Hd | exact Ha].
      * destruct (Hcommit _ _ _ _ _ _ _ _ Hq Ha) as [wm Hc].
        destruct (iteration_scheduled self task_id task start d allocated wm Ht
                    (conj Hes Hq) Hd Ha Hc Hne) as [s [e [_ [_ Hi]]]].
        eexists. exact Hi.
  - eexists. apply (iteration_blocked self task_id task r Ht Hr Hes).
Qed.

Lemma solve_loop_progress (order : list string) :
  forall self : Solver,
    table_in_order self -> ends_well_typed self ->
    (forall task_id, In task_id order -> In task_id (PyDict.keys (task_dict self))) ->
    predecessors_known env (task_dict self) ->
    query_answers env -> allocator_proposes_or_fails env ->
    commit_accepts_proposals env ->
    exists self', solve_loop env self order = Ok self'.
Proof.
  induction order as [| task_id rest IH];
    intros self Htab Hty Hin Hpreds Hquery Halloc Hcommit; simpl.
  - eexists. reflexivity.
  - destruct (solve_iteration_progress self task_id Htab Hty
                (Hin task_id (or_introl eq_refl)) Hpreds Hquery Halloc Hcommit)
      as [mid Hi].
    rewrite Hi. simpl.
    destruct (solve_iteration_frame self mid task_id Hi) as [Hd _].
    apply IH; try assumption.
    + apply (solve_iteration_table self mid task_id Hi Htab).
    + apply (solve_iteration_ends_well_typed self mid task_id Hi Hty).
    + intros k Hk. rewrite Hd. apply Hin. right. exact Hk.
    + rewrite Hd. exact Hpreds.
Qed.

(** C7.  Whatever the task order and whichever tasks fail, the list that
    [solve] returns holds one record per key of the task dictionary, in the
    order of its keys: the "task_id" fields of the records are exactly the
    keys, and two runs over the same dictionary with different orders return
    records for the same ids in the same positions.  [solve] does return
    when the order names tasks of the dictionary and the collaborators raise
    nothing but [AllocationError]. *)
Theorem solve_returns_one_record_per_task (td : PyDict.dict string Task)
  (resources : list Resource) (order : list string) :
  PyDict.wf td ->
  (forall records,
      solve env (__init__ env td resources order) = Ok records ->
      map (fun r => PyDict.get r "task_id") records =
      map (fun k => Some (VStr k)) (PyDict.keys td) /\
      List.length records = List.length (PyDict.keys td) /\
      forall order' records',
        solve env (__init__ env td resources order') = Ok records' ->
        map (fun r => PyDict.get r "task_id") records' =
        map (fun r => PyDict.get r "task_id") records) /\
  ((forall task_id, In task_id order -> In task_id (PyDict.keys td)) ->
   predecessors_known env td ->
   query_answers env -> allocator_proposes_or_fails env ->
   commit_accepts_proposals env ->
   exists records, solve env (__init__ env td resources order) = Ok records).
Proof.
  intros Hwf.
  assert (forall o rs,
             solve env (__init__ env td resources o) = Ok rs ->
             map (fun r => PyDict.get r "task_id") rs =
             map (fun k => Some (VStr k)) (PyDict.keys td)) as Hids.
  { intros o rs Hs. unfold solve, run in Hs.
    apply bind_Ok_inv in Hs as [final [Hl Hs]]. injection Hs as <-.
    apply solve_loop_table in Hl as [[_ [_ Hkey]] Hkeys];
      [| apply init_table_in_order].
    transitivity (map (fun k => Some (VStr k)) (PyDict.keys (task_vars final))).
    - exact (map_values_keys (task_vars final) _ (fun k => Some (VStr k)) Hkey).
    - rewrite Hkeys, init_keys by exact Hwf. reflexivity. }
  split.
  - intros records Hs. pose proof (Hids order records Hs) as Hrec.
    split; [exact Hrec |]. split.
    + apply (f_equal (@List.length _)) in Hrec. rewrite !length_map in Hrec.
      exact Hrec.
    + intros order' records' Hs'. rewrite Hrec. apply (Hids order' records' Hs').
  - intros Hin Hpreds Hquery Halloc Hcommit.
    destruct (solve_loop_progress order (__init__ env td resources order)
                (init_table_in_order td resources order)
                (init_ends_well_typed td resources order)
                Hin Hpreds Hquery Halloc Hcommit) as [final Hl].
    unfold solve, run. simpl task_order. rewrite Hl. simpl.
    eexists. reflexivity.
Qed.

Lemma count_occ_one_split (l : list string) (x : string) :
  count_occ string_dec l x = 1%nat ->
  exists l1 l2, l = l1 ++ x :: l2 /\ ~ In x l1 /\ ~ In x l2.
Proof.
  induction l as [| a l IH]; simpl; [discriminate |].
  destruct (string_dec a x) as [-> | Hne]; intros Hc.
  - exists [], l. split; [reflexivity |]. split; [intros [] |].
    apply (count_occ_not_In string_dec). congruence.
  - destruct (IH Hc) as [l1 [l2 [-> [H1 H2]]]].
    exists (a :: l1), l2. split; [reflexivity |]. split; [| exact H2].
    intros [E | Hin]; [congruence | contradiction].
Qed.

Lemma fold_initial_records_keys_In (l : list string) (k : string) :
  forall acc : PyDict.dict string record,
    In k (PyDict.keys
            (fold_left (fun tv k => PyDict.set tv k (initial_record k)) l acc)) ->
    In k l \/ In k (PyDict.keys acc).
Proof.
  induction l as [| k' l IH]; intros acc Hin; simpl in Hin; [right; exact Hin |].
  apply IH in Hin as [Hin | Hin]; [left; right; exact Hin |].
  apply keys_set_In in Hin as [-> | Hin]; [left; left; reflexivity | right; exact Hin].
Qed.

Lemma failed_record_exactly_one (task_id msg : string) :
  exactly_one (PyDict.set (initial_record task_id) "error_message" (VStr msg)).
Proof.
  right. split.
  - intros [[v [Hv Hn]] _]. simpl in Hv. congruence.
  - exists (VStr msg). split; [reflexivity | discriminate].
Qed.

Lemma scheduled_record_exactly_one (task_id : string)
  (allocated : PyDict.dict Z (Z * Z)) (task_start task_end : Z) :
  exactly_one (task_values task_id allocated task_start task_end).
Proof.
  left. split.
  - repeat split; eexists; (split; [reflexivity | discriminate]).
  - intros [v [Hv _]]. simpl in Hv. discriminate Hv.
Qed.

Lemma initial_record_neither (task_id : string) : neither (initial_record task_id).
Proof.
  split.
  - intros [[v [Hv Hn]] _]. simpl in Hv. congruence.
  - intros [v [Hv Hn]]. simpl in Hv. congruence.
Qed.

(** C8, amended.  In the list returned by [solve], the record of a task that
    the task order visits exactly once has exactly one of a complete
    allocation and an error message; the record of a task that the order
    does not visit is the one of [__init__] and has neither. *)
Theorem visited_once_exactly_one (td : PyDict.dict string Task)
  (resources : list Resource) (order : list string) (records : list record) :
  solve env (__init__ env td resources order) = Ok records ->
  forall r, In r records ->
    exists task_id,
      PyDict.get r "task_id" = Some (VStr task_id) /\
      In task_id (PyDict.keys td) /\
      (count_occ string_dec order task_id = 1%nat -> exactly_one r) /\
      (~ In task_id order -> r = initial_record task_id /\ neither r).
Proof.
  intros Hs r Hin. unfold solve, run in Hs.
  apply bind_Ok_inv in Hs as [final [Hl Hs]]. injection Hs as <-. simpl in Hl.
  apply In_values in Hin as [k Hin].
  destruct (solve_loop_table order _ final Hl
              (init_table_in_order td resources order)) as [[Hwf [_ Hkey]] Hkeys].
  pose proof (In_get_wf (task_vars final) k r Hwf Hin) as Hget.
  assert (In k (PyDict.keys td)) as Hk.
  { pose proof (get_Some_keys (task_vars final) k r Hget) as Hk.
    rewrite Hkeys in Hk. simpl in Hk.
    apply fold_initial_records_keys_In in Hk as [Hk | []]. exact Hk. }
  destruct (keys_get_Some td k Hk) as [task Htask].
  exists k. split; [apply Hkey; exact Hin |]. split; [exact Hk |]. split.
  - intros Hc. apply count_occ_one_split in Hc as [l1 [l2 [-> [H1 H2]]]].
    rewrite solve_loop_app in Hl. apply bind_Ok_inv in Hl as [s1 [Hl1 Hl]].
    simpl in Hl. apply bind_Ok_inv in Hl as [s2 [Hi Hl2]].
    pose proof (unvisited_record td resources _ l1 s1 k task Hl1 H1 Htask) as Hr1.
    apply solve_loop_frame in Hl2 as [_ [_ Hf]]. rewrite (Hf k H2) in Hget.
    apply solve_iteration_inv in Hi as [task' [_ [_ [_ Hcases]]]].
    destruct Hcases as [[msg [r1 [_ [Hr [Htv _]]]]] |
                        [al [wm [s [e [_ [_ [_ [Htv _]]]]]]]]];
      rewrite Htv, get_set_same in Hget; injection Hget as <-.
    + assert (r1 = initial_record k) as -> by congruence.
      apply failed_record_exactly_one.
    + apply scheduled_record_exactly_one.
  - intros Hnot.
    pose proof (unvisited_record td resources order order final k task
                  Hl Hnot Htask) as Hu.
    assert (r = initial_record k) as -> by congruence.
    split; [reflexivity | apply initial_record_neither].
Qed.

End SolverFacts.

(** * The worked run *)

Section WorkedRun.
Import Models HeuristicSolver Spec.

Lemma tasks_wf : PyDict.wf Scenario.tasks.
Proof.
  unfold PyDict.wf. simpl.
  repeat (constructor; [simpl; intuition discriminate |]). constructor.
Defined.

(** T2 depends on T with a delay of 2, and T was scheduled ending at 3. *)
Lemma earliest_start_max_of_predecessor_ends_witness :
  exists start,
    _get_task_earliest_start Scenario.env (Scenario.after 1) Scenario.T2
                             (task_dict (Scenario.after 1)) = Ok (Some start) /\
    start = 5.
Proof.
  destruct (earliest_start_max_of_predecessor_ends Scenario.env
              (Scenario.after 1) Scenario.T2 [Scenario.T] [3])
    as [start [Hstart [_ [_ [Hfive _]]]]].
  - reflexivity.
  - constructor; [| constructor].
    exists (task_values "T" [(1, (0, 3))] 0 3). split; reflexivity.
  - exists start. split; [exact Hstart | apply Hfive; reflexivity].
Defined.

(** T3 asks for 20 units: the allocator raises [AllocationError]. *)
Lemma allocation_error_is_recorded_witness :
  exists self',
    solve_iteration Scenario.env (Scenario.after 2) "T3" = Ok self' /\
    PyDict.get (task_vars self') "T3" =
    Some (PyDict.set (initial_record "T3") "error_message"
                     (VStr "insufficient availability")) /\
    window_manager self' = window_manager (Scenario.after 2).
Proof.
  destruct (allocation_error_is_recorded Scenario.env (Scenario.after 2) "T3"
              Scenario.T3 (initial_record "T3") 0 [(1, [(3, 4); (7, 10)])]
              "insufficient availability")
    as [self' [Hi [Hrec [_ [Hwm _]]]]].
  - reflexivity.
  - reflexivity.
  - split; reflexivity.
  - discriminate.
  - reflexivity.
  - exists self'. split; [exact Hi |]. split; [exact Hrec | exact Hwm].
Defined.

(** T4 depends on T3, which failed; T6 depends on T4 and is visited after
    T5. *)
Lemma unscheduled_predecessor_blocks_task_witness :
  exists self',
    solve_iteration Scenario.env (Scenario.after 3) "T4" = Ok self' /\
    PyDict.get (task_vars self') "T4" =
    Some (PyDict.set (initial_record "T4") "error_message"
                     (VStr "Task has unscheduled predecessors")) /\
    calls self' = calls (Scenario.after 3) /\
    solve_iteration Scenario.env (Scenario.after 5) "T6" =
    Ok (with_task_vars (Scenario.after 5)
          (PyDict.set (task_vars (Scenario.after 5)) "T6"
             (PyDict.set (initial_record "T6") "error_message"
                (VStr "Task has unscheduled predecessors")))).
Proof.
  destruct (unscheduled_predecessor_blocks_task Scenario.env (Scenario.after 3)
              "T4" Scenario.T4 (initial_record "T4") [Scenario.T3])
    as [self' [Hi [Hrec [Hcalls [_ [_ [_ Hsucc]]]]]]].
  - reflexivity.
  - reflexivity.
  - reflexivity.
  - constructor; [| constructor]. left.
    eexists. split; reflexivity.
  - constructor. eexists. split; reflexivity.
  - exists self'. split; [exact Hi |]. split; [exact Hrec |]. split; [exact Hcalls |].
    assert (solve_iteration Scenario.env (Scenario.after 3) "T4" =
            Ok (Scenario.after 4)) as Hfour by (vm_compute; reflexivity).
    rewrite Hfour in Hi. injection Hi as <-.
    apply (Hsucc eq_refl ["T5"] (Scenario.after 5) "T6" Scenario.T6
                 (initial_record "T6") [Scenario.T4]).
    + simpl. intuition discriminate.
    + reflexivity.
    + reflexivity.
    + reflexivity.
    + reflexivity.
    + constructor; [| constructor]. left. eexists. split; reflexivity.
    + exists Scenario.T4. split; [left; reflexivity | reflexivity].
Defined.

(** T5 runs on R2, which has no window. *)
Lemma no_available_resources_is_recorded_witness :
  exists self',
    solve_iteration Scenario.env (Scenario.after 4) "T5" = Ok self' /\
    PyDict.get (task_vars self') "T5" =
    Some (PyDict.set (initial_record "T5") "error_message"
                     (VStr "No available resources")) /\
    calls self' =
    calls (Scenario.after 4) ++ [Call_get_task_resource_windows_dict [2] 0].
Proof.
  destruct (no_available_resources_is_recorded Scenario.env (Scenario.after 4)
              "T5" Scenario.T5 (initial_record "T5") 0)
    as [self' [Hi [Hrec [_ [Hcalls _]]]]].
  - reflexivity.
  - reflexivity.
  - split; reflexivity.
  - exists self'. split; [exact Hi |]. split; [exact Hrec | exact Hcalls].
Defined.

(** T takes [0, 3) on R. *)
Lemma scheduled_task_records_allocation_witness :
  exists self' rec,
    solve_iteration Scenario.env Scenario.solver "T" = Ok self' /\
    PyDict.get (task_vars self') "T" = Some rec /\
    PyDict.get rec "task_start" = Some (VInt 0) /\
    PyDict.get rec "task_end" = Some (VInt 3) /\
    PyDict.get rec "assigned_resource_ids" = Some (VIds [1]).
Proof.
  destruct (scheduled_task_records_allocation Scenario.env Scenario.solver "T"
              Scenario.T [(1, (0, 3))] [(1, [(3, 4); (5, 10)]); (2, [])])
    as [self' [rec [s [e [Hi [Hrec [Hs [Hmin [He [Hmax [Hids [_ [_ Hle]]]]]]]]]]]]].
  - reflexivity.
  - exists 0, [(1, [(0, 4); (5, 10)])].
    repeat split; try reflexivity; discriminate.
  - exists self', rec. split; [exact Hi |]. split; [exact Hrec |].
    assert (s = 0) as Es.
    { destruct Hmin as [[E | []] _]. symmetry. exact E. }
    assert (e = 3) as Ee.
    { destruct Hmax as [[E | []] _]. symmetry. exact E. }
    rewrite Es in Hs. rewrite Ee in He.
    split; [exact Hs |]. split; [exact He | exact Hids].
Defined.

(** C6 fails as stated: the solver records the minimum start and the
    maximum end of whatever the allocator returns; when the allocator
    returns the interval (5, 3) and the commit accepts it, the task is
    scheduled with "task_start" 5 and "task_end" 3. *)
Lemma scheduled_task_with_start_after_end :
  ends_scheduled Faults.accepting
    (__init__ Faults.accepting Scenario.tasks [Scenario.R] ["T"])
    Scenario.T [(1, (5, 3))] tt /\
  exists self' rec,
    solve_iteration Faults.accepting
      (__init__ Faults.accepting Scenario.tasks [Scenario.R] ["T"]) "T" =
    Ok self' /\
    PyDict.get (task_vars self') "T" = Some rec /\
    PyDict.get rec "assigned_resource_ids" = Some (VIds [1]) /\
    PyDict.get rec "task_start" = Some (VInt 5) /\
    PyDict.get rec "task_end" = Some (VInt 3) /\
    ~ 5 <= 3.
Proof.
  split.
  - exists 0, [(1, [(0, 10)])].
    split; [split; reflexivity |]. split; [discriminate |].
    split; [reflexivity |]. split; [reflexivity | discriminate].
  - eexists. eexists. split; [vm_compute; reflexivity |].
    split; [reflexivity |]. split; [reflexivity |].
    split; [reflexivity |]. split; [reflexivity | lia].
Qed.

(** In the run, T3 is visited once and fails. *)
Lemma visited_once_exactly_one_witness :
  exactly_one (PyDict.set (initial_record "T3") "error_message"
                          (VStr "insufficient availability")).
Proof.
  destruct (solve Scenario.env Scenario.solver) as [records | ex] eqn:Hs;
    [| vm_compute in Hs; discriminate Hs].
  assert (In (PyDict.set (initial_record "T3") "error_message"
                         (VStr "insufficient availability")) records) as Hin.
  { vm_compute in Hs. injection Hs as <-. right. right. left. reflexivity. }
  destruct (visited_once_exactly_one Scenario.env Scenario.tasks
              [Scenario.R; Scenario.R2] Scenario.order records Hs _ Hin)
    as [task_id [Hid [_ [Hone _]]]].
  apply Hone. simpl in Hid. injection Hid as <-. reflexivity.
Defined.

(** C8 fails as stated: the record of a task that the order does not visit
    has neither an allocation nor an error message, and the record of a task
    that is visited twice, scheduled the first time (T7 fills the only
    window of R3) and without resources the second time, has both. *)
Lemma exactly_one_fails_unless_visited_once :
  (exists r,
      solve Scenario.env
            (__init__ Scenario.env [("T7", Scenario.T7)] [Scenario.R3] []) = Ok [r] /\
      neither r /\ ~ exactly_one r) /\
  (exists r,
      solve Scenario.env
            (__init__ Scenario.env [("T7", Scenario.T7)] [Scenario.R3] ["T7"; "T7"]) =
      Ok [r] /\
      both r /\ ~ exactly_one r).
Proof.
  split.
  - exists (initial_record "T7"). split; [reflexivity |].
    pose proof (initial_record_neither "T7") as Hn.
    split; [exact Hn |]. destruct Hn as [Hna Hne].
    intros [[Ha _] | [_ He]]; contradiction.
  - eexists. split; [vm_compute; reflexivity |].
    assert (both
              [("task_id", VStr "T7"); ("assigned_resource_ids", VIds [3]);
               ("task_start", VInt 0); ("task_end", VInt 3);
               ("resource_intervals", VIntervals [(0, 3)]);
               ("error_message", VStr "No available resources")]) as Hb.
    { split; [repeat split |]; eexists; (split; [reflexivity | discriminate]). }
    split; [exact Hb |]. destruct Hb as [Ha He].
    intros [[_ Hne] | [Hna _]]; contradiction.
Qed.

(** C10 fails as stated: T7 is scheduled on its first visit and finds no
    resources on its second one; the error leaves the allocation of the
    first visit in the record, so the failed task appears allocated and its
    "task_end" is 3, not [None]. *)
Lemma failed_task_keeps_earlier_allocation :
  exists s1 s2 r2,
    solve_iteration Scenario.env
      (__init__ Scenario.env [("T7", Scenario.T7)] [Scenario.R3] ["T7"; "T7"])
      "T7" = Ok s1 /\
    ends_in_error Scenario.env s1 Scenario.T7 "No available resources" /\
    solve_iteration Scenario.env s1 "T7" = Ok s2 /\
    PyDict.get (task_vars s2) "T7" = Some r2 /\
    PyDict.get r2 "error_message" = Some (VStr "No available resources") /\
    PyDict.get r2 "task_end" = Some (VInt 3) /\
    complete_allocation r2 /\ ~ no_allocation r2.
Proof.
  eexists. eexists. eexists.
  split; [vm_compute; reflexivity |].
  split.
  { right. left. split; [| reflexivity]. exists 0. split; reflexivity. }
  split; [vm_compute; reflexivity |].
  split; [reflexivity |]. split; [reflexivity |]. split; [reflexivity |].
  split.
  - repeat split; eexists; (split; [reflexivity | discriminate]).
  - intros [_ [_ [[He | He] _]]]; discriminate He.
Qed.

(** T3 fails on its first visit: only its "error_message" is written. *)
Lemma error_writes_only_error_message_witness :
  exists self' r',
    solve_iteration Scenario.env (Scenario.after 2) "T3" = Ok self' /\
    PyDict.get (task_vars self') "T3" = Some r' /\
    PyDict.get r' "error_message" = Some (VStr "insufficient availability") /\
    no_allocation r' /\
    PyDict.get (task_vars self') "T" = PyDict.get (task_vars (Scenario.after 2)) "T".
Proof.
  destruct (error_writes_only_error_message Scenario.env (Scenario.after 2) "T3"
              Scenario.T3 (initial_record "T3") "insufficient availability")
    as [self' [r' [Hi [Hrec [Hmsg [_ [Hothers [_ [Hno _]]]]]]]]].
  - reflexivity.
  - reflexivity.
  - right. right. exists 0, [(1, [(3, 4); (7, 10)])].
    split; [split; reflexivity |]. split; [discriminate | reflexivity].
  - exists self', r'. split; [exact Hi |]. split; [exact Hrec |].
    split; [exact Hmsg |]. split.
    + apply Hno. unfold no_allocation, field_unset. simpl. tauto.
    + apply Hothers. discriminate.
Defined.

End WorkedRun.

(** * The window manager of the design document *)

Section CalendarFacts.
Import Models WindowManager Calendar.

Lemma weak_from_le (ws : windows) (lo lo' : Z) :
  lo' <= lo -> weak_from lo ws -> weak_from lo' ws.
Proof. destruct ws as [| [a b] rest]; simpl; [tauto | intuition lia]. Qed.

Lemma strict_from_weak (ws : windows) :
  forall lo, strict_from lo ws -> weak_from lo ws.
Proof.
  induction ws as [| [a b] rest IH]; simpl; intros lo; [tauto |].
  intros [Hlo [Hab Hrest]]. repeat split; try lia. apply IH. exact Hrest.
Qed.

Lemma strict_from_covers (ws : windows) :
  forall lo t, strict_from lo ws -> covers ws t -> lo < t.
Proof.
  induction ws as [| [a b] rest IH]; simpl; intros lo t Hs [c [d [Hin Ht]]].
  - destruct Hin.
  - destruct Hs as [Hlo [Hab Hrest]]. destruct Hin as [E | Hin].
    + inversion E; subst. lia.
    + assert (b < t) by (apply (IH b t Hrest); exists c, d; tauto). lia.
Qed.

Lemma strict_from_In (ws : windows) :
  forall lo c d, strict_from lo ws -> In (c, d) ws -> lo < c /\ c < d.
Proof.
  induction ws as [| [a b] rest IH]; simpl; intros lo c d Hs Hin; [destruct Hin |].
  destruct Hs as [Hlo [Hab Hrest]]. destruct Hin as [E | Hin].
  - inversion E; subst. lia.
  - destruct (IH b c d Hrest Hin). lia.
Qed.

Lemma covers_cons (a b : Z) (ws : windows) (t : Z) :
  covers ((a, b) :: ws) t <-> a <= t < b \/ covers ws t.
Proof.
  unfold covers. simpl. split.
  - intros [c [d [[E | Hin] Ht]]]; [inversion E; subst; left; exact Ht |].
    right. exists c, d. tauto.
  - intros [Ht | [c [d [Hin Ht]]]]; [exists a, b; tauto | exists c, d; tauto].
Qed.

Lemma covers_nil (t : Z) : ~ covers [] t.
Proof. intros [a [b [[] _]]]. Qed.

Lemma covers_app (ws1 ws2 : windows) (t : Z) :
  covers (ws1 ++ ws2) t <-> covers ws1 t \/ covers ws2 t.
Proof.
  unfold covers. split.
  - intros [a [b [Hin Ht]]]. apply in_app_or in Hin as [Hin | Hin];
      [left | right]; exists a, b; tauto.
  - intros [[a [b [Hin Ht]]] | [a [b [Hin Ht]]]]; exists a, b;
      (split; [apply in_or_app; tauto | exact Ht]).
Qed.

Lemma covers_piece (a b t : Z) : covers (piece a b) t <-> a <= t < b.
Proof.
  unfold piece. destruct (a <? b) eqn:E.
  - rewrite covers_cons. pose proof (covers_nil t). tauto.
  - apply Z.ltb_ge in E. split; [intros Hc; destruct (covers_nil t Hc) | lia].
Qed.

(** ** Normalisation *)

Lemma merge_from_strict (rest : windows) :
  forall a b lo, lo < a -> a < b -> weak_from b rest ->
                 strict_from lo (merge_from a b rest).
Proof.
  induction rest as [| [c d] rest IH]; simpl; intros a b lo Hlo Hab Hw.
  - lia.
  - destruct Hw as [Hbc [Hcd Hrest]]. destruct (c <=? b) eqn:E.
    + apply Z.leb_le in E. apply IH; try lia.
      apply (weak_from_le rest d); [lia | exact Hrest].
    + apply Z.leb_gt in E. simpl. repeat split; try lia.
      apply IH; try lia. exact Hrest.
Qed.

Lemma merge_from_covers (rest : windows) :
  forall a b t, a < b -> weak_from b rest ->
                (covers (merge_from a b rest) t <-> covers ((a, b) :: rest) t).
Proof.
  induction rest as [| [c d] rest IH]; simpl; intros a b t Hab Hw; [tauto |].
  destruct Hw as [Hbc [Hcd Hrest]]. destruct (c <=? b) eqn:E.
  - apply Z.leb_le in E. replace (Z.max b d) with d by lia.
    rewrite IH by (try lia; exact Hrest).
    rewrite !covers_cons. intuition lia.
  - rewrite covers_cons, IH by (try lia; exact Hrest).
    rewrite !covers_cons. tauto.
Qed.

Lemma normalize_strict (ws : windows) :
  valid_availability ws -> strict (normalize ws).
Proof.
  intros [lo Hw]. destruct ws as [| [a b] rest]; simpl.
  - exists 0. exact I.
  - simpl in Hw. exists (a - 1). apply merge_from_strict; try lia. tauto.
Qed.

Lemma normalize_covers (ws : windows) (t : Z) :
  valid_availability ws -> (covers (normalize ws) t <-> covers ws t).
Proof.
  intros [lo Hw]. destruct ws as [| [a b] rest]; simpl; [tauto |].
  simpl in Hw. apply merge_from_covers; [lia | tauto].
Qed.

(** ** Removal of a span *)

Lemma remove_span_window (ws : windows) (s e : Z) :
  forall ws', remove_span ws s e = Some ws' ->
              exists a b, In (a, b) ws /\ a <= s /\ s <= e /\ e <= b.
Proof.
  induction ws as [| [a b] rest IH]; simpl; intros ws' Hr; [discriminate |].
  destruct ((a <=? s) && (s <=? e) && (e <=? b)) eqn:E.
  - apply andb_true_iff in E as [E E3]. apply andb_true_iff in E as [E1 E2].
    exists a, b. split; [left; reflexivity | lia].
  - destruct (remove_span rest s e) as [ws'' |] eqn:Er; [| discriminate].
    destruct (IH ws'' eq_refl) as [c [d [Hin Hc]]].
    exists c, d. split; [right; exact Hin | exact Hc].
Qed.

Lemma pieces_weak (a b s e lo : Z) (rest : windows) :
  lo <= a -> a <= s -> s <= e -> e <= b -> weak_from b rest ->
  weak_from lo (piece a s ++ piece e b ++ rest).
Proof.
  intros Hlo Has Hse Heb Hrest. unfold piece.
  destruct (a <? s) eqn:E1; destruct (e <? b) eqn:E2; simpl;
    try apply Z.ltb_lt in E1; try apply Z.ltb_lt in E2;
    repeat split; try lia; try exact Hrest;
    apply (weak_from_le rest b); try lia; exact Hrest.
Qed.

Lemma remove_span_weak (ws : windows) (s e : Z) :
  forall lo ws', strict_from lo ws -> remove_span ws s e = Some ws' ->
                 weak_from lo ws'.
Proof.
  induction ws as [| [a b] rest IH]; simpl; intros lo ws' Hs Hr; [discriminate |].
  destruct Hs as [Hlo [Hab Hrest]].
  destruct ((a <=? s) && (s <=? e) && (e <=? b)) eqn:E.
  - apply andb_true_iff in E as [E E3]. apply andb_true_iff in E as [E1 E2].
    injection Hr as <-. apply pieces_weak; try lia.
    apply strict_from_weak. exact Hrest.
  - destruct (remove_span rest s e) as [ws'' |] eqn:Er; [| discriminate].
    injection Hr as <-. simpl. repeat split; try lia.
    apply (IH b ws'' Hrest eq_refl).
Qed.

Lemma remove_span_covers (ws : windows) (s e : Z) :
  forall lo ws' t, strict_from lo ws -> remove_span ws s e = Some ws' ->
                   (covers ws' t <-> covers ws t /\ ~ s <= t < e).
Proof.
  induction ws as [| [a b] rest IH]; simpl; intros lo ws' t Hs Hr; [discriminate |].
  destruct Hs as [Hlo [Hab Hrest]].
  destruct ((a <=? s) && (s <=? e) && (e <=? b)) eqn:E.
  - apply andb_true_iff in E as [E E3]. apply andb_true_iff in E as [E1 E2].
    injection Hr as <-.
    rewrite !covers_app, !covers_piece, covers_cons.
    split.
    + intros [Ht | [Ht | Ht]]; try lia.
      pose proof (strict_from_covers rest b t Hrest Ht). split; [tauto | lia].
    + intros [[Ht | Ht] Hn]; [lia | tauto].
  - destruct (remove_span rest s e) as [ws'' |] eqn:Er; [| discriminate].
    injection Hr as <-.
    destruct (remove_span_window rest s e ws'' Er) as [c [d [Hin Hc]]].
    destruct (strict_from_In rest b c d Hrest Hin) as [Hbc Hcd].
    rewrite !covers_cons, (IH b ws'' t Hrest eq_refl).
    split; [intros [Ht | Ht]; [split; [tauto | lia] | tauto] | tauto].
Qed.

Lemma remove_span_within (ws : windows) (s e : Z) (ws' : windows) (t : Z) :
  remove_span ws s e = Some ws' -> s <= t < e -> covers ws t.
Proof.
  intros Hr Ht. destruct (remove_span_window ws s e ws' Hr) as [a [b [Hin Hc]]].
  exists a, b. split; [exact Hin | lia].
Qed.

Lemma strict_from_shape (ws : windows) :
  forall lo, strict_from lo ws ->
             Forall (fun w => lo < fst w) ws /\
             nonempty_windows ws /\ sorted_by_start ws /\ separated ws.
Proof.
  unfold nonempty_windows, sorted_by_start, separated.
  induction ws as [| [a b] rest IH]; simpl; intros lo Hs.
  - repeat split; constructor.
  - destruct Hs as [Hlo [Hab Hrest]].
    destruct (IH b Hrest) as [Hlb [Hne [Hss Hsep]]].
    split; [| split; [| split]].
    + constructor; [exact Hlo |].
      apply (Forall_impl _ (P := fun w => b < fst w)); [simpl; intros; lia | exact Hlb].
    + constructor; [exact Hab | exact Hne].
    + constructor; [exact Hss |].
      apply (Forall_impl _ (P := fun w => b < fst w)); [simpl; intros; lia | exact Hlb].
    + constructor; [exact Hsep | exact Hlb].
Qed.

(** ** Commits on the calendars of a window manager *)

Lemma commit_span_spec (wm wm' : WindowManager.t) (rid s e : Z) :
  RunSpec.calendars_strict wm ->
  commit_span wm rid (s, e) = Ok wm' ->
  RunSpec.calendars_strict wm' /\
  (forall t, available wm' rid t <-> available wm rid t /\ ~ s <= t < e) /\
  (forall rid' t, rid' <> rid -> (available wm' rid' t <-> available wm rid' t)) /\
  (forall t, s <= t < e -> available wm rid t) /\
  (forall rid', PyDict.get wm' rid' = None <-> PyDict.get wm rid' = None).
Proof.
  intros Hstrict Hc. unfold commit_span in Hc. simpl in Hc.
  destruct (PyDict.get wm rid) as [ws |] eqn:Hws; [| discriminate].
  destruct (remove_span ws s e) as [ws' |] eqn:Hr; [| discriminate].
  injection Hc as <-.
  destruct (Hstrict rid ws Hws) as [lo Hlo].
  assert (valid_availability ws') as Hvalid.
  { exists lo. apply (remove_span_weak ws s e lo ws' Hlo Hr). }
  split; [| split; [| split; [| split]]].
  - intros rid' ws0 Hget. destruct (Z.eq_dec rid rid') as [<- | Hne].
    + rewrite get_set_same in Hget. injection Hget as <-.
      apply normalize_strict. exact Hvalid.
    + rewrite get_set_other in Hget by exact Hne. apply (Hstrict rid' ws0 Hget).
  - intros t. unfold available. rewrite get_set_same, Hws. split.
    + intros [ws0 [E Hcov]]. injection E as <-.
      apply (proj1 (normalize_covers ws' t Hvalid)) in Hcov.
      apply (proj1 (remove_span_covers ws s e lo ws' t Hlo Hr)) in Hcov as [Hcov Hn].
      split; [exists ws; split; [reflexivity | exact Hcov] | exact Hn].
    + intros [[ws0 [E Hcov]] Hn]. injection E as <-.
      exists (normalize ws'). split; [reflexivity |].
      apply (proj2 (normalize_covers ws' t Hvalid)).
      apply (proj2 (remove_span_covers ws s e lo ws' t Hlo Hr)). split; assumption.
  - intros rid' t Hne. unfold available.
    rewrite get_set_other by congruence. tauto.
  - intros t Ht. exists ws. split; [exact Hws |].
    apply (remove_span_within ws s e ws' t Hr Ht).
  - intros rid'. destruct (Z.eq_dec rid rid') as [<- | Hne].
    + rewrite get_set_same, Hws. split; discriminate.
    + rewrite get_set_other by exact Hne. tauto.
Qed.

Lemma takes_cons (rid0 rid s e t : Z) (rest : PyDict.dict Z (Z * Z)) :
  takes ((rid0, (s, e)) :: rest) rid t <->
  (rid = rid0 /\ s <= t < e) \/ takes rest rid t.
Proof.
  unfold takes. simpl. split.
  - intros [s' [e' [[E | Hin] Ht]]].
    + inversion E; subst. left. split; [reflexivity | exact Ht].
    + right. exists s', e'. split; assumption.
  - intros [[-> Ht] | [s' [e' [Hin Ht]]]].
    + exists s, e. split; [left; reflexivity | exact Ht].
    + exists s', e'. split; [right; exact Hin | exact Ht].
Qed.

Lemma update_resource_windows_spec (allocated : PyDict.dict Z (Z * Z)) :
  forall wm wm' : WindowManager.t,
    RunSpec.calendars_strict wm ->
    update_resource_windows wm allocated = Ok wm' ->
    RunSpec.calendars_strict wm' /\
    (forall rid t, available wm' rid t <->
                   available wm rid t /\ ~ takes allocated rid t) /\
    (forall rid t, takes allocated rid t -> available wm rid t) /\
    (forall rid, PyDict.get wm' rid = None <-> PyDict.get wm rid = None).
Proof.
  induction allocated as [| [rid0 [s e]] rest IH]; simpl; intros wm wm' Hstrict Hu.
  - injection Hu as <-. split; [exact Hstrict |]. split; [| split].
    + intros rid t. split; [| tauto].
      intros Ha. split; [exact Ha |]. intros [s [e [[] _]]].
    + intros rid t [s [e [[] _]]].
    + tauto.
  - apply bind_Ok_inv in Hu as [mid [Hc Hu]].
    destruct (commit_span_spec wm mid rid0 s e Hstrict Hc)
      as [Hmid [Hsame [Hother [Hwithin Hnone]]]].
    destruct (IH mid wm' Hmid Hu) as [Hstrict' [Hav [Htk Hnone']]].
    split; [exact Hstrict' |]. split; [| split].
    + intros rid t. rewrite Hav, takes_cons.
      destruct (Z.eq_dec rid rid0) as [-> | Hne].
      * rewrite Hsame. tauto.
      * rewrite (Hother rid t Hne). tauto.
    + intros rid t Ht. apply takes_cons in Ht as [[-> Ht] | Ht].
      * apply Hwithin. exact Ht.
      * apply Htk in Ht. destruct (Z.eq_dec rid rid0) as [-> | Hne].
        -- apply Hsame in Ht. tauto.
        -- apply (Hother rid t Hne). exact Ht.
    + intros rid. rewrite Hnone', Hnone. tauto.
Qed.

(** ** Booked times *)

Lemma booked_app (cs : list (PyDict.dict Z (Z * Z))) (allocated : PyDict.dict Z (Z * Z))
  (rid t : Z) :
  booked (cs ++ [allocated]) rid t <-> booked cs rid t \/ takes allocated rid t.
Proof.
  unfold booked. split.
  - intros [a [Hin Ht]]. apply in_app_or in Hin as [Hin | [<- | []]].
    + left. exists a. split; assumption.
    + right. exact Ht.
  - intros [[a [Hin Ht]] | Ht].
    + exists a. split; [apply in_or_app; left; exact Hin | exact Ht].
    + exists allocated. split; [apply in_or_app; right; left; reflexivity | exact Ht].
Qed.

Lemma no_double_booking_app (cs : list (PyDict.dict Z (Z * Z)))
  (allocated : PyDict.dict Z (Z * Z)) :
  no_double_booking cs ->
  (forall rid t, takes allocated rid t -> ~ booked cs rid t) ->
  no_double_booking (cs ++ [allocated]).
Proof.
  induction cs as [| a cs IH]; simpl; intros Hnd Hfresh.
  - split; [| exact I]. intros rid t _ [a [[] _]].
  - destruct Hnd as [Ha Hnd]. split.
    + intros rid t Ht Hb. apply booked_app in Hb as [Hb | Hb].
      * apply (Ha rid t Ht Hb).
      * apply (Hfresh rid t Hb). exists a. split; [left; reflexivity | exact Ht].
    + apply IH; [exact Hnd |]. intros rid t Ht [a' [Hin Ht']].
      apply (Hfresh rid t Ht). exists a'. split; [right; exact Hin | exact Ht'].
Qed.

(** ** The calendars built by the constructor *)

Lemma init_fold_other (l : list Resource) (rid : Z) :
  forall acc : WindowManager.t,
    ~ In rid (map Resource_id l) ->
    PyDict.get
      (fold_left (fun cal r => PyDict.set cal (Resource_id r)
                                          (normalize (available_windows r))) l acc)
      rid = PyDict.get acc rid.
Proof.
  induction l as [| x l IH]; simpl; intros acc Hnot; [reflexivity |].
  rewrite IH by tauto. apply get_set_other. tauto.
Qed.

Lemma init_fold_get (l : list Resource) (r : Resource) :
  forall acc : WindowManager.t,
    NoDup (map Resource_id l) -> In r l ->
    PyDict.get
      (fold_left (fun cal r => PyDict.set cal (Resource_id r)
                                          (normalize (available_windows r))) l acc)
      (Resource_id r) = Some (normalize (available_windows r)).
Proof.
  induction l as [| x l IH]; simpl; intros acc Hnd Hin; [destruct Hin |].
  inversion Hnd as [| ? ? Hx Hnd']; subst. destruct Hin as [-> | Hin].
  - rewrite init_fold_other by exact Hx. apply get_set_same.
  - apply IH; assumption.
Qed.

Lemma init_fold_In (l : list Resource) (rid : Z) (ws : windows) :
  forall acc : WindowManager.t,
    PyDict.get
      (fold_left (fun cal r => PyDict.set cal (Resource_id r)
                                          (normalize (available_windows r))) l acc)
      rid = Some ws ->
    (exists r, In r l /\ ws = normalize (available_windows r)) \/
    PyDict.get acc rid = Some ws.
Proof.
  induction l as [| x l IH]; simpl; intros acc Hget; [right; exact Hget |].
  apply IH in Hget as [[r [Hin Hws]] | Hget].
  - left. exists r. split; [right; exact Hin | exact Hws].
  - destruct (Z.eq_dec (Resource_id x) rid) as [E | Hne].
    + rewrite E, get_set_same in Hget. injection Hget as <-.
      left. exists x. split; [left; reflexivity | reflexivity].
    + rewrite get_set_other in Hget by exact Hne. right. exact Hget.
Qed.

Lemma init_calendars_strict (resources : list Resource) :
  (forall r, In r resources -> valid_availability (available_windows r)) ->
  RunSpec.calendars_strict (WindowManager.__init__ resources).
Proof.
  intros Hvalid rid ws Hget. unfold WindowManager.__init__ in Hget.
  apply init_fold_In in Hget as [[r [Hin ->]] | Hget]; [| discriminate Hget].
  apply normalize_strict. apply Hvalid. exact Hin.
Qed.

End CalendarFacts.

(** * The calendars along a run of the solver *)

Section RunFacts.
Import Models HeuristicSolver Spec Calendar RunSpec.
Context {Assignments Constraints : Type}.
Variable allocate :
  PyDict.dict Z windows -> Assignments -> Z -> Constraints ->
  outcome (PyDict.dict Z (Z * Z)).

Local Abbreviation env := (designed_collaborators allocate).
Local Abbreviation Solver := (HeuristicSolver Assignments Constraints WindowManager.t).

Lemma solve_iteration_consistent (wm0 : WindowManager.t) (self self' : Solver)
  (task_id : string) :
  solve_iteration env self task_id = Ok self' ->
  calendars_consistent wm0 (window_manager self) (commits (calls self)) ->
  calendars_consistent wm0 (window_manager self') (commits (calls self')).
Proof.
  intros Hs [Hstrict [Hav [Hnone Hnd]]].
  apply solve_iteration_inv in Hs as [task [_ [_ [_ Hcases]]]].
  destruct Hcases as [[msg [r [_ [_ [_ [Hwm Hc]]]]]] |
                      [al [wm [s [e [Hsched [_ [_ [_ [Hwm Hc]]]]]]]]]].
  - rewrite Hwm, Hc. split; [exact Hstrict |].
    split; [exact Hav |]. split; [exact Hnone | exact Hnd].
  - destruct Hsched as [start [d [_ [_ [_ [Hu _]]]]]]. simpl in Hu.
    destruct (update_resource_windows_spec al (window_manager self) wm Hstrict Hu)
      as [Hstrict' [Hav' [Htk Hnone']]].
    rewrite Hwm, Hc. split; [exact Hstrict' |]. split; [| split].
    + intros rid t. rewrite Hav', Hav, booked_app. tauto.
    + intros rid. rewrite Hnone', Hnone. tauto.
    + apply no_double_booking_app; [exact Hnd |].
      intros rid t Ht. apply Htk in Ht. apply Hav in Ht. tauto.
Qed.

Lemma solve_loop_consistent (wm0 : WindowManager.t) (visited : list string) :
  forall self self' : Solver,
    solve_loop env self visited = Ok self' ->
    calendars_consistent wm0 (window_manager self) (commits (calls self)) ->
    calendars_consistent wm0 (window_manager self') (commits (calls self')).
Proof.
  induction visited as [| task_id rest IH]; simpl; intros self self' Hl Hinv.
  - injection Hl as <-. exact Hinv.
  - apply bind_Ok_inv in Hl as [mid [Hi Hl]].
    apply (IH mid self' Hl).
    apply (solve_iteration_consistent wm0 self mid task_id Hi Hinv).
Qed.

Lemma init_consistent (resources : list Resource) :
  (forall r, In r resources -> valid_availability (available_windows r)) ->
  calendars_consistent (WindowManager.__init__ resources)
                       (WindowManager.__init__ resources) [].
Proof.
  intros Hvalid. split; [apply init_calendars_strict; exact Hvalid |].
  split; [| split; [tauto | exact I]].
  intros rid t. split; [| tauto].
  intros Ha. split; [exact Ha |]. intros [a [[] _]].
Qed.

(** C1.  With the window manager of the design document, after any number
    of iterations of a run (hence after every commit) the calendar of every
    resource consists of non-empty windows sorted by start, each ending
    strictly before the next one starts, whose union is the original
    availability of the resource minus the spans committed so far; and no
    two commits take the same time of the same resource. *)
Theorem calendars_sorted_disjoint_and_exact
  (td : PyDict.dict string (Task Assignments Constraints))
  (resources : list Resource) (order visited : list string) (self : Solver) :
  (forall r, In r resources -> valid_availability (available_windows r)) ->
  NoDup (map Resource_id resources) ->
  solve_loop env (__init__ env td resources order) visited = Ok self ->
  (forall r, In r resources ->
     exists ws,
       PyDict.get (window_manager self) (Resource_id r) = Some ws /\
       nonempty_windows ws /\ sorted_by_start ws /\ separated ws /\
       forall t, covers ws t <->
                 covers (available_windows r) t /\
                 ~ booked (commits (calls self)) (Resource_id r) t) /\
  no_double_booking (commits (calls self)).
Proof.
  intros Hvalid Hnd Hl.
  pose proof (solve_loop_consistent (WindowManager.__init__ resources) visited
                _ self Hl (init_consistent resources Hvalid))
    as [Hstrict [Hav [Hnone Hndb]]].
  split; [| exact Hndb]. intros r Hin.
  pose proof (init_fold_get resources r [] Hnd Hin) as Hinit.
  fold (WindowManager.__init__ resources) in Hinit.
  destruct (PyDict.get (window_manager self) (Resource_id r)) as [ws |] eqn:Hws.
  - exists ws. split; [reflexivity |].
    destruct (Hstrict (Resource_id r) ws Hws) as [lo Hlo].
    destruct (strict_from_shape ws lo Hlo) as [_ [Hne [Hss Hsep]]].
    split; [exact Hne |]. split; [exact Hss |]. split; [exact Hsep |].
    intros t. specialize (Hav (Resource_id r) t). unfold available in Hav.
    rewrite Hws, Hinit in Hav.
    rewrite <- (normalize_covers (available_windows r) t (Hvalid r Hin)).
    split.
    + intros Hc. destruct Hav as [Hav _].
      destruct Hav as [[ws0 [E Hc0]] Hnb]; [exists ws; tauto |].
      injection E as <-. tauto.
    + intros [Hc Hnb]. destruct Hav as [_ Hav].
      destruct Hav as [ws1 [E Hc1]]; [split; [eexists; eauto | exact Hnb] |].
      injection E as <-. exact Hc1.
  - apply Hnone in Hws. congruence.
Qed.

End RunFacts.

(** After T and T2 of the worked run, R keeps [3, 4) and [7, 10). *)
Lemma calendars_sorted_disjoint_and_exact_witness :
  exists ws,
    PyDict.get (HeuristicSolver.window_manager (Scenario.after 2)) 1 = Some ws /\
    Calendar.separated ws /\
    (forall t, Calendar.covers ws t <->
               Calendar.covers [(0, 4); (5, 10)] t /\
               ~ Calendar.booked
                   (Spec.commits (HeuristicSolver.calls (Scenario.after 2))) 1 t) /\
    Calendar.no_double_booking
      (Spec.commits (HeuristicSolver.calls (Scenario.after 2))).
Proof.
  destruct (calendars_sorted_disjoint_and_exact Scenario.first_fit Scenario.tasks
              [Scenario.R; Scenario.R2] Scenario.order ["T"; "T2"]
              (Scenario.after 2)) as [Hres Hndb].
  - intros r [<- | [<- | []]]; exists 0; simpl; [lia | exact I].
  - simpl. repeat (constructor; [simpl; intuition discriminate |]). constructor.
  - vm_compute. reflexivity.
  - destruct (Hres Scenario.R (or_introl eq_refl)) as [ws [Hws [_ [_ [Hsep Hcov]]]]].
    exists ws. split; [exact Hws |]. split; [exact Hsep |].
    split; [exact Hcov | exact Hndb].
Defined.

(** * The collaborators of the worked run raise nothing but AllocationError *)

Section WorkedRunCollaborators.
Import Models HeuristicSolver Spec WindowManager.

Lemma scenario_predecessors_known : predecessors_known Scenario.env Scenario.tasks.
Proof.
  intros task_id task Hget. simpl in Hget.
  repeat (match type of Hget with
          | (if ?b then _ else _) = _ => destruct b
          end;
          [injection Hget as <-; eexists; split;
           [reflexivity | repeat constructor; simpl; tauto] |]).
  discriminate Hget.
Qed.

Lemma scenario_query_answers : query_answers Scenario.env.
Proof. intros wm ids start. eexists. reflexivity. Qed.

Lemma scenario_allocator : allocator_proposes_or_fails Scenario.env.
Proof.
  intros d a task_duration c. simpl. unfold Scenario.first_fit.
  destruct d as [| [rid [| [s e] ws]] d']; try (left; eexists; reflexivity).
  destruct ((0 <=? task_duration) && (task_duration <=? e - s)).
  - right. eexists. split; [reflexivity | discriminate].
  - left. eexists. reflexivity.
Qed.

Lemma query_entries (wm : WindowManager.t) (start : Z) (ids : list Z) (rid : Z)
  (ws' : windows) :
  forall acc : PyDict.dict Z windows,
    In (rid, ws')
       (fold_left
          (fun d rid =>
             match PyDict.get wm rid with
             | None => d
             | Some ws =>
                 match clip ws start with
                 | [] => d
                 | w :: ws' => PyDict.set d rid (w :: ws')
                 end
             end) ids acc) ->
    In (rid, ws') acc \/
    exists ws, PyDict.get wm rid = Some ws /\ clip ws start = ws'.
Proof.
  induction ids as [| rid0 ids IH]; simpl; intros acc Hin; [left; exact Hin |].
  apply IH in Hin as [Hin | Hin]; [| right; exact Hin].
  destruct (PyDict.get wm rid0) as [ws |] eqn:Hws; [| left; exact Hin].
  destruct (clip ws start) as [| w ws''] eqn:Hclip; [left; exact Hin |].
  apply In_set_inv in Hin as [[-> ->] | Hin]; [| left; exact Hin].
  right. exists ws. split; assumption.
Qed.

Lemma clip_In (ws : windows) (start s e : Z) :
  In (s, e) (clip ws start) ->
  exists a, In (a, e) ws /\ s = Z.max a start /\ s < e.
Proof.
  unfold clip. intros Hin. apply in_flat_map in Hin as [[a b] [Hw Hp]].
  simpl in Hp. unfold piece in Hp.
  destruct (Z.max a start <? b) eqn:E; [| destruct Hp].
  destruct Hp as [Hp | []]. injection Hp as <- <-.
  apply Z.ltb_lt in E. exists a. repeat split; [exact Hw | exact E].
Qed.

Lemma remove_span_succeeds (ws : windows) (a b s e : Z) :
  In (a, b) ws -> a <= s -> s <= e -> e <= b ->
  exists ws', remove_span ws s e = Some ws'.
Proof.
  intros Hin Has Hse Heb. induction ws as [| [c d] rest IH]; [destruct Hin |].
  simpl. destruct ((c <=? s) && (s <=? e) && (e <=? d)) eqn:E.
  - eexists. reflexivity.
  - destruct Hin as [Heq | Hin].
    + injection Heq as -> ->.
      assert ((a <=? s) && (s <=? e) && (e <=? b) = true) as Et.
      { rewrite !andb_true_iff, !Z.leb_le. lia. }
      congruence.
    + destruct (IH Hin) as [ws' ->]. eexists. reflexivity.
Qed.

Lemma scenario_commit_accepts : commit_accepts_proposals Scenario.env.
Proof.
  intros wm ids start d a task_duration c allocated Hq Ha. simpl in Hq, Ha |- *.
  injection Hq as <-. unfold Scenario.first_fit in Ha.
  destruct (WindowManager.get_task_resource_windows_dict wm ids start)
    as [| [rid [| [s e] rest]] d'] eqn:Hd; try discriminate Ha.
  destruct ((0 <=? task_duration) && (task_duration <=? e - s)) eqn:E;
    [| discriminate Ha].
  injection Ha as <-. apply andb_true_iff in E as [E1 E2].
  apply Z.leb_le in E1. apply Z.leb_le in E2.
  assert (In (rid, (s, e) :: rest)
             (WindowManager.get_task_resource_windows_dict wm ids start)) as Hin
    by (rewrite Hd; left; reflexivity).
  unfold WindowManager.get_task_resource_windows_dict in Hin.
  apply query_entries in Hin as [[] | [ws [Hws Hclip]]].
  assert (In (s, e) (clip ws start)) as Hse by (rewrite Hclip; left; reflexivity).
  apply clip_In in Hse as [a0 [Hwin [Hs Hlt]]].
  destruct (remove_span_succeeds ws a0 e s (s + task_duration) Hwin)
    as [ws' Hr]; try lia.
  simpl. unfold commit_span. simpl. rewrite Hws, Hr. simpl.
  eexists. reflexivity.
Qed.

End WorkedRunCollaborators.

(** The whole run returns one record per task, in the order of the keys of
    the task dictionary. *)
Lemma solve_returns_one_record_per_task_witness :
  exists records,
    HeuristicSolver.solve Scenario.env Scenario.solver = Ok records /\
    map (fun r => PyDict.get r "task_id") records =
    [Some (VStr "T"); Some (VStr "T2"); Some (VStr "T3"); Some (VStr "T4");
     Some (VStr "T5"); Some (VStr "T6")].
Proof.
  destruct (solve_returns_one_record_per_task Scenario.env Scenario.tasks
              [Scenario.R; Scenario.R2] Scenario.order tasks_wf)
    as [Hshape Hreturns].
  destruct Hreturns as [records Hs].
  - intros task_id Hin. simpl in Hin |- *. tauto.
  - exact scenario_predecessors_known.
  - exact scenario_query_answers.
  - exact scenario_allocator.
  - exact scenario_commit_accepts.
  - exists records. split; [exact Hs |].
    exact (proj1 (Hshape records Hs)).
Defined.

(** * Further properties of the solver *)

Section MoreSolverFacts.
Import Models HeuristicSolver Spec RunShapes.
Context {Assignments Constraints W : Type}.
Variable env : collaborators Assignments Constraints W.

Local Abbreviation Solver := (HeuristicSolver Assignments Constraints W).
Local Abbreviation Task := (Models.Task Assignments Constraints).

(** X1.  An id of the task order that is not a key of the task dictionary
    makes [solve] raise [KeyError] when the loop reaches it: the tasks after
    it are not visited and no result list is returned. *)
Theorem unknown_task_id_raises_KeyError (self mid : Solver)
  (visited rest : list string) (task_id : string) :
  task_order self = visited ++ task_id :: rest ->
  solve_loop env self visited = Ok mid ->
  PyDict.get (task_dict self) task_id = None ->
  solve_loop env self (visited ++ task_id :: rest) = Raise KeyError /\
  solve env self = Raise KeyError.
Proof.
  intros Horder Hl Hnone.
  assert (solve_loop env self (visited ++ task_id :: rest) = Raise KeyError) as Hr.
  { rewrite solve_loop_app, Hl. simpl.
    apply solve_loop_frame in Hl as [Hd _].
    unfold solve_iteration, PyDict.getitem. rewrite Hd, Hnone. reflexivity. }
  split; [exact Hr |]. unfold solve, run. rewrite Horder, Hr. reflexivity.
Qed.

Lemma collect_task_ends_app (self : Solver) (task : Task)
  (before : list Task) (ends : list Z) :
  Forall2 (recorded_end self) before ends ->
  forall rest acc,
    collect_task_ends self task (before ++ rest) acc =
    collect_task_ends self task rest
      (acc ++ map (fun e => e + predecessor_delay task) ends).
Proof.
  induction 1 as [| pred e before ends [r [Hr He]] _ IH]; intros rest acc; simpl.
  - rewrite app_nil_r. reflexivity.
  - unfold PyDict.getitem. rewrite Hr. simpl. rewrite He. simpl.
    rewrite IH, <- app_assoc. reflexivity.
Qed.

(** X2.  [_get_task_earliest_start] returns [None] at the first predecessor
    without a recorded end and does not look at the predecessors after it,
    whatever their records are. *)
Theorem earliest_start_stops_at_first_unscheduled (self : Solver) (task : Task)
  (td : PyDict.dict string Task) (before after : list Task) (p : Task)
  (ends : list Z) :
  get_task_predecessors env task td = Ok (before ++ p :: after) ->
  Forall2 (recorded_end self) before ends ->
  no_recorded_end self p ->
  _get_task_earliest_start env self task td = Ok None.
Proof.
  intros Hp Hbefore [r [Hr He]]. unfold _get_task_earliest_start.
  rewrite Hp. simpl. rewrite (collect_task_ends_app self task before ends Hbefore).
  simpl. unfold PyDict.getitem. rewrite Hr. simpl. rewrite He. reflexivity.
Qed.

(** X3.  A predecessor that has no record in the result table, met before
    any predecessor without a recorded end, makes [_get_task_earliest_start]
    raise [KeyError]; the iteration of [solve] for the task raises it too. *)
Theorem predecessor_without_record_raises_KeyError (self : Solver)
  (task_id : string) (task : Task) (before after : list Task) (p : Task)
  (ends : list Z) :
  PyDict.get (task_dict self) task_id = Some task ->
  get_task_predecessors env task (task_dict self) = Ok (before ++ p :: after) ->
  Forall2 (recorded_end self) before ends ->
  PyDict.get (task_vars self) (id p) = None ->
  _get_task_earliest_start env self task (task_dict self) = Raise KeyError /\
  solve_iteration env self task_id = Raise KeyError.
Proof.
  intros Ht Hp Hbefore Hnone.
  assert (_get_task_earliest_start env self task (task_dict self) = Raise KeyError)
    as Hes.
  { unfold _get_task_earliest_start. rewrite Hp. simpl.
    rewrite (collect_task_ends_app self task before ends Hbefore).
    simpl. unfold PyDict.getitem. rewrite Hnone. reflexivity. }
  split; [exact Hes |].
  unfold solve_iteration, PyDict.getitem. rewrite Ht. simpl. rewrite Hes. reflexivity.
Qed.

(** X4.  Only [AllocationError] is caught: an exception from the computation
    of the earliest start, from the window query, from the commit, or any
    other exception from the allocator leaves the iteration and the loop of
    [solve] as it is, so the run is aborted. *)
Theorem uncaught_exception_aborts_run (self : Solver) (task_id : string)
  (task : Task) (e : exn) :
  PyDict.get (task_dict self) task_id = Some task ->
  fatal_fault env self task e ->
  solve_iteration env self task_id = Raise e /\
  forall rest, solve_loop env self (task_id :: rest) = Raise e.
Proof.
  intros Ht Hfault.
  assert (solve_iteration env self task_id = Raise e) as Hi.
  { unfold solve_iteration, PyDict.getitem. rewrite Ht. simpl.
    destruct Hfault as [Hes | [[start [Hes Hq]] |
                         [[start [d [[Hes Hq] [Hd [Ha Hne]]]]] |
                          [start [d [al [[Hes Hq] [Hd [Ha Hc]]]]]]]]].
    - rewrite Hes. reflexivity.
    - rewrite Hes. simpl. rewrite Hq. reflexivity.
    - rewrite Hes. simpl. rewrite Hq. simpl.
      apply is_empty_false in Hd. rewrite Hd, Ha.
      destruct e as [| | | msg | msg]; try reflexivity.
      exfalso. apply (Hne msg). reflexivity.
    - rewrite Hes. simpl. rewrite Hq. simpl.
      apply is_empty_false in Hd. rewrite Hd, Ha. simpl. rewrite Hc. reflexivity. }
  split; [exact Hi |]. intros rest. simpl. rewrite Hi. reflexivity.
Qed.

(** X5.  When the allocator returns the empty mapping, the commit is made
    with it and then [min] over no interval raises [ValueError]: the
    iteration does not record anything and the run is aborted. *)
Theorem empty_allocation_raises_ValueError (self : Solver) (task_id : string)
  (task : Task) (start : Z) (d : PyDict.dict Z windows) (wm : W) :
  PyDict.get (task_dict self) task_id = Some task ->
  window_query env self task start d ->
  d <> [] ->
  allocate_task env d (assignments task) (duration task) (constraints task) = Ok [] ->
  update_resource_windows env (window_manager self) [] = Ok wm ->
  solve_iteration env self task_id = Raise ValueError /\
  forall rest, solve_loop env self (task_id :: rest) = Raise ValueError.
Proof.
  intros Ht [Hes Hq] Hd Ha Hc.
  assert (solve_iteration env self task_id = Raise ValueError) as Hi.
  { unfold solve_iteration, PyDict.getitem. rewrite Ht. simpl.
    rewrite Hes. simpl. rewrite Hq. simpl.
    apply is_empty_false in Hd. rewrite Hd, Ha. simpl. rewrite Hc. reflexivity. }
  split; [exact Hi |]. intros rest. simpl. rewrite Hi. reflexivity.
Qed.

(** ** The calls of an iteration *)

Lemma solve_iteration_calls (self self' : Solver) (task_id : string) :
  solve_iteration env self task_id = Ok self' ->
  exists task added,
    PyDict.get (task_dict self) task_id = Some task /\
    calls self' = calls self ++ added /\
    iteration_calls env task added.
Proof.
  unfold solve_iteration. intros Hs.
  apply bind_Ok_inv in Hs as [task [Ht Hs]]. apply getitem_Ok in Ht.
  apply bind_Ok_inv in Hs as [es [Hes Hs]].
  exists task. destruct es as [start |].
  - apply bind_Ok_inv in Hs as [d [Hq Hs]].
    destruct (PyDict.is_empty d) eqn:Hd.
    + apply update_error_message_inv in Hs as [r [Hr ->]].
      eexists. split; [exact Ht |]. split; [reflexivity |].
      right. left. exists start. reflexivity.
    + destruct (allocate_task env d (assignments task) (duration task)
                              (constraints task)) as [allocated | ex] eqn:Ha.
      * apply bind_Ok_inv in Hs as [wm [Hc Hs]].
        apply bind_Ok_inv in Hs as [task_start [Hmin Hs]].
        apply bind_Ok_inv in Hs as [task_end [Hmax Hs]].
        injection Hs as <-. eexists. split; [exact Ht |]. simpl.
        split; [rewrite <- !app_assoc; reflexivity |].
        right. right. right. exists start, d, allocated.
        split; [exact Ha | reflexivity].
      * destruct ex as [| | | msg | msg]; try discriminate Hs.
        apply update_error_message_inv in Hs as [r [Hr ->]].
        eexists. split; [exact Ht |]. simpl.
        split; [rewrite <- !app_assoc; reflexivity |].
        right. right. left. exists start, d. reflexivity.
  - apply update_error_message_inv in Hs as [r [Hr ->]].
    exists []. split; [exact Ht |]. simpl.
    split; [rewrite app_nil_r; reflexivity | left; reflexivity].
Qed.

Lemma iteration_calls_bounds (task : Task) (added : list call) :
  iteration_calls env task added ->
  (List.length added <= 3)%nat /\ (List.length (commits added) <= 1)%nat.
Proof.
  intros [-> | [[start ->] | [[start [d ->]] | [start [d [al [_ ->]]]]]]];
    simpl; lia.
Qed.

(** X6.  The calls of a run are, task after task of the visited order, one
    group per task: nothing, the window query, the query and the
    allocation, or the query, the allocation and the commit of what the
    allocator returned; so a run makes at most three calls and at most one
    commit per visited task. *)
Theorem calls_follow_the_protocol (visited : list string) :
  forall self self' : Solver,
    solve_loop env self visited = Ok self' ->
    exists groups,
      calls self' = calls self ++ List.concat groups /\
      Forall2 (fun task_id added =>
                 exists task, PyDict.get (task_dict self) task_id = Some task /\
                              iteration_calls env task added)
              visited groups /\
      (List.length (calls self') <=
       List.length (calls self) + 3 * List.length visited)%nat /\
      (List.length (commits (calls self')) <=
       List.length (commits (calls self)) + List.length visited)%nat.
Proof.
  induction visited as [| task_id rest IH]; simpl; intros self self' Hl.
  - injection Hl as <-. exists []. simpl. rewrite app_nil_r.
    split; [reflexivity |]. split; [constructor | lia].
  - apply bind_Ok_inv in Hl as [mid [Hi Hl]].
    destruct (solve_iteration_calls self mid task_id Hi)
      as [task [added [Ht [Hc Hshape]]]].
    destruct (iteration_calls_bounds task added Hshape) as [Hb1 Hb2].
    destruct (solve_iteration_frame env self mid task_id Hi) as [Hd _].
    destruct (IH mid self' Hl) as [groups [Hcalls [Hgroups [Hn1 Hn2]]]].
    exists (added :: groups). simpl. split; [| split; [| split]].
    + rewrite Hcalls, Hc, <- app_assoc. reflexivity.
    + constructor; [exists task; split; assumption |].
      rewrite Hd in Hgroups. exact Hgroups.
    + rewrite Hc, length_app in Hn1. lia.
    + rewrite Hc, commits_app, length_app in Hn2. lia.
Qed.

(** ** The shapes of the records *)

Lemma set_set_same {V : Type} (d : PyDict.dict string V) (k : string) (v1 v2 : V) :
  PyDict.set (PyDict.set d k v1) k v2 = PyDict.set d k v2.
Proof.
  induction d as [| [k' v'] rest IH]; simpl.
  - rewrite String.eqb_refl. reflexivity.
  - destruct (String.eqb k' k) eqn:E; simpl; rewrite E; [reflexivity |].
    f_equal. exact IH.
Qed.

Lemma record_shape_failed (task_id msg : string) (r : record) :
  record_shape env task_id r ->
  record_shape env task_id (PyDict.set r "error_message" (VStr msg)).
Proof.
  intros [| msg0 | al s e Hp Hmin Hmax | al s e msg0 Hp Hmin Hmax].
  - apply shape_failed.
  - rewrite set_set_same. apply shape_failed.
  - apply shape_scheduled_failed; assumption.
  - rewrite set_set_same. apply shape_scheduled_failed; assumption.
Qed.

Lemma solve_iteration_shapes (self self' : Solver) (task_id : string) :
  solve_iteration env self task_id = Ok self' ->
  (forall k r, PyDict.get (task_vars self) k = Some r -> record_shape env k r) ->
  forall k r, PyDict.get (task_vars self') k = Some r -> record_shape env k r.
Proof.
  intros Hs Hshapes k r' Hget.
  apply solve_iteration_inv in Hs as [task [_ [_ [_ Hcases]]]].
  destruct Hcases as [[msg [r [_ [Hr [Htv _]]]]] |
                      [al [wm [s [e [Hsched [Hmin [Hmax [Htv _]]]]]]]]];
    rewrite Htv in Hget; (destruct (string_dec task_id k) as [<- | Hne];
      [rewrite get_set_same in Hget; injection Hget as <- |
       rewrite get_set_other in Hget by exact Hne; apply (Hshapes k r' Hget)]).
  - apply record_shape_failed. apply (Hshapes task_id r Hr).
  - destruct Hsched as [start [d [_ [_ [Ha _]]]]].
    apply shape_scheduled; [| exact Hmin | exact Hmax].
    exists d, (assignments task), (duration task), (constraints task). exact Ha.
Qed.

Lemma solve_loop_shapes (visited : list string) :
  forall self self' : Solver,
    solve_loop env self visited = Ok self' ->
    (forall k r, PyDict.get (task_vars self) k = Some r -> record_shape env k r) ->
    forall k r, PyDict.get (task_vars self') k = Some r -> record_shape env k r.
Proof.
  induction visited as [| task_id rest IH]; simpl; intros self self' Hl Hshapes.
  - injection Hl as <-. exact Hshapes.
  - apply bind_Ok_inv in Hl as [mid [Hi Hl]].
    apply (IH mid self' Hl).
    apply (solve_iteration_shapes self mid task_id Hi Hshapes).
Qed.

Lemma init_shapes (td : PyDict.dict string Task) (resources : list Resource)
  (order : list string) :
  forall k r,
    PyDict.get (task_vars (__init__ env td resources order)) k = Some r ->
    record_shape env k r.
Proof.
  intros k r Hget. apply get_Some_In in Hget. simpl in Hget.
  apply fold_initial_records_In in Hget as [-> | []]. apply shape_pending.
Qed.

Lemma Forall2_keys_values {V : Type} (d : PyDict.dict string V)
  (P : string -> V -> Prop) :
  (forall k v, In (k, v) d -> P k v) ->
  Forall2 P (PyDict.keys d) (PyDict.values d).
Proof.
  induction d as [| [k v] rest IH]; simpl; intros HP; constructor.
  - apply HP. left. reflexivity.
  - apply IH. intros k' v' Hin. apply HP. right. exact Hin.
Qed.

Lemma returned_records_shapes (td : PyDict.dict string Task)
  (resources : list Resource) (order : list string) (records : list record) :
  PyDict.wf td ->
  solve env (__init__ env td resources order) = Ok records ->
  Forall2 (record_shape env) (PyDict.keys td) records.
Proof.
  intros Hwf Hs. unfold solve, run in Hs.
  apply bind_Ok_inv in Hs as [final [Hl Hs]]. injection Hs as <-. simpl in Hl.
  destruct (solve_loop_table env order _ final Hl
              (init_table_in_order env td resources order))
    as [[Hwf' _] Hkeys].
  rewrite <- (init_keys env td resources order Hwf), <- Hkeys.
  apply Forall2_keys_values. intros k r Hin.
  apply (solve_loop_shapes order _ final Hl (init_shapes td resources order)).
  apply (In_get_wf (task_vars final) k r Hwf' Hin).
Qed.

(** X7.  The list returned by [solve] holds, key by key of the task
    dictionary, a record of one of four shapes: the record of [__init__], that
    record with an error message, the [task_values] of an allocation that the
    allocator returned, or such [task_values] with an error message added by
    a later visit. *)
Theorem returned_records_have_four_shapes (td : PyDict.dict string Task)
  (resources : list Resource) (order : list string) (records : list record) :
  PyDict.wf td ->
  solve env (__init__ env td resources order) = Ok records ->
  Forall2 (record_shape env) (PyDict.keys td) records.
Proof.
  intros Hwf Hs. unfold solve, run in Hs.
  apply bind_Ok_inv in Hs as [final [Hl Hs]]. injection Hs as <-. simpl in Hl.
  destruct (solve_loop_table env order _ final Hl
              (init_table_in_order env td resources order))
    as [[Hwf' _] Hkeys].
  rewrite <- (init_keys env td resources order Hwf), <- Hkeys.
  apply Forall2_keys_values. intros k r Hin.
  apply (In_get_wf (task_vars final) k r Hwf') in Hin.
  revert k r Hin.
  apply (solve_loop_shapes order _ final Hl). apply init_shapes.
Qed.

Lemma record_shape_fields (task_id : string) (r : record) :
  record_shape env task_id r ->
  PyDict.get r "task_id" = Some (VStr task_id) /\ allocation_fields r.
Proof.
  assert (forall (al : PyDict.dict Z (Z * Z)) s e,
             py_min (map fst (PyDict.values al)) = Ok s ->
             py_max (map snd (PyDict.values al)) = Ok e ->
             PyDict.keys al <> [] /\
             List.length (PyDict.keys al) = List.length (PyDict.values al) /\
             is_minimum (map fst (PyDict.values al)) s /\
             is_maximum (map snd (PyDict.values al)) e) as Hal.
  { intros al s e Hmin Hmax. split; [| split; [| split]].
    - destruct al; [discriminate Hmin | discriminate].
    - unfold PyDict.keys, PyDict.values. rewrite !length_map. reflexivity.
    - apply py_min_Ok. exact Hmin.
    - apply py_max_Ok. exact Hmax. }
  intros [| msg | al s e _ Hmin Hmax | al s e msg _ Hmin Hmax].
  - split; [reflexivity |]. left. repeat split; reflexivity.
  - split; [reflexivity |]. left. repeat split; reflexivity.
  - split; [reflexivity |]. right.
    exists (PyDict.keys al), (PyDict.values al), s, e.
    repeat (split; [reflexivity |]). apply (Hal al s e Hmin Hmax).
  - split; [reflexivity |]. right.
    exists (PyDict.keys al), (PyDict.values al), s, e.
    repeat (split; [reflexivity |]). apply (Hal al s e Hmin Hmax).
Qed.

(** X8.  In every record that [solve] returns the keys "task_id",
    "assigned_resource_ids", "task_start", "task_end" and
    "resource_intervals" are present, "task_id" is the key of the task, and
    the four allocation fields are either all [None] or all set: then at
    least one resource is assigned, there are as many intervals as
    resources, and start and end are the minimum start and the maximum end
    of the intervals. *)
Theorem returned_records_allocation_all_or_nothing
  (td : PyDict.dict string Task) (resources : list Resource)
  (order : list string) (records : list record) :
  PyDict.wf td ->
  solve env (__init__ env td resources order) = Ok records ->
  Forall2 (fun task_id r =>
             PyDict.get r "task_id" = Some (VStr task_id) /\ allocation_fields r)
          (PyDict.keys td) records.
Proof.
  intros Hwf Hs.
  pose proof (returned_records_shapes td resources order records Hwf Hs) as Hsh.
  eapply Forall2_impl; [| exact Hsh].
  intros k r Hshape. apply record_shape_fields. exact Hshape.
Qed.

Lemma record_shape_ordered (task_id : string) (r : record) (s e : Z) :
  allocator_intervals_ordered env ->
  record_shape env task_id r ->
  PyDict.get r "task_start" = Some (VInt s) ->
  PyDict.get r "task_end" = Some (VInt e) ->
  s <= e.
Proof.
  assert (forall al s e,
             proposed env al -> allocator_intervals_ordered env ->
             py_min (map fst (PyDict.values al)) = Ok s ->
             py_max (map snd (PyDict.values al)) = Ok e -> s <= e) as Hal.
  { intros al s0 e0 [d [a [dur [c Ha]]]] Hord Hmin Hmax.
    specialize (Hord d a dur c al Ha). rewrite Forall_forall in Hord.
    apply py_min_Ok in Hmin as [Hs_in _]. apply py_max_Ok in Hmax as [_ He_ub].
    apply in_map_iff in Hs_in as [[s1 e1] [Hfst Hin]]. simpl in Hfst. subst s1.
    specialize (Hord (s0, e1) Hin). simpl in Hord.
    assert (e1 <= e0); [| lia].
    apply He_ub. apply in_map_iff. exists (s0, e1). split; [reflexivity | exact Hin]. }
  intros Hord [| msg | al s0 e0 Hp Hmin Hmax | al s0 e0 msg Hp Hmin Hmax] Hs He;
    simpl in Hs, He; try discriminate Hs;
    injection Hs as <-; injection He as <-; apply (Hal al s0 e0 Hp Hord Hmin Hmax).
Qed.

(** X9.  When the intervals that the allocator returns have start <= end,
    every record that [solve] returns with a "task_start" and a "task_end"
    has task_start <= task_end, also for a task that was visited more than
    once. *)
Theorem returned_records_start_before_end (td : PyDict.dict string Task)
  (resources : list Resource) (order : list string) (records : list record) :
  PyDict.wf td ->
  allocator_intervals_ordered env ->
  solve env (__init__ env td resources order) = Ok records ->
  forall r s e,
    In r records ->
    PyDict.get r "task_start" = Some (VInt s) ->
    PyDict.get r "task_end" = Some (VInt e) ->
    s <= e.
Proof.
  intros Hwf Hord Hs r s e Hin Hstart Hend.
  pose proof (returned_records_shapes td resources order records Hwf Hs) as Hsh.
  assert (exists k, record_shape env k r) as [k Hshape].
  { clear Hs. induction Hsh as [| k r0 ks rs Hshape _ IH]; [destruct Hin |].
    destruct Hin as [-> | Hin]; [exists k; exact Hshape | apply IH; exact Hin]. }
  apply (record_shape_ordered k r s e Hord Hshape Hstart Hend).
Qed.

(** ** Recorded ends *)

Lemma solve_iteration_keeps_end (self self' : Solver) (task_id : string)
  (pred : Task) (e : Z) :
  solve_iteration env self task_id = Ok self' ->
  recorded_end self pred e ->
  exists e', recorded_end self' pred e'.
Proof.
  intros Hs [r [Hr He]].
  apply solve_iteration_inv in Hs as [task [_ [_ [_ Hcases]]]].
  destruct Hcases as [[msg [r0 [_ [Hr0 [Htv _]]]]] |
                      [al [wm [s [e0 [_ [_ [_ [Htv _]]]]]]]]];
    (destruct (string_dec task_id (id pred)) as [E | Hne];
     [| exists e, r; rewrite Htv, get_set_other by exact Hne; split; assumption]).
  - exists e. eexists. rewrite Htv, E, get_set_same. split; [reflexivity |].
    rewrite get_set_other by discriminate. rewrite E in Hr0. congruence.
  - exists e0. eexists. rewrite Htv, E, get_set_same. split; reflexivity.
Qed.

(** X10.  A recorded end is never erased: a task that has a "task_end" keeps
    one (the same, or a new one if it is scheduled again) through all later
    iterations, so a predecessor that has stopped blocking a task does not
    block it later in the run. *)
Theorem recorded_end_is_kept (visited : list string) :
  forall (self self' : Solver) (pred : Task) (e : Z),
    solve_loop env self visited = Ok self' ->
    recorded_end self pred e ->
    (exists e', recorded_end self' pred e') /\ ~ no_recorded_end self' pred.
Proof.
  assert (forall (s : Solver) p, (exists e', recorded_end s p e') ->
                                 ~ no_recorded_end s p) as Hexcl.
  { intros s p [e' [r [Hr He]]] [r' [Hr' He']]. congruence. }
  induction visited as [| task_id rest IH]; simpl; intros self self' pred e Hl Hrec.
  - injection Hl as <-. split; [exists e; exact Hrec |].
    apply Hexcl. exists e. exact Hrec.
  - apply bind_Ok_inv in Hl as [mid [Hi Hl]].
    destruct (solve_iteration_keeps_end self mid task_id pred e Hi Hrec) as [e1 H1].
    apply (IH mid self' pred e1 Hl H1).
Qed.

Lemma solve_loop_ends_well_typed (visited : list string) :
  forall self self' : Solver,
    solve_loop env self visited = Ok self' ->
    ends_well_typed self -> ends_well_typed self'.
Proof.
  induction visited as [| task_id rest IH]; simpl; intros self self' Hl Hty.
  - injection Hl as <-. exact Hty.
  - apply bind_Ok_inv in Hl as [mid [Hi Hl]].
    apply (IH mid self' Hl).
    apply (solve_iteration_ends_well_typed env self mid task_id Hi Hty).
Qed.

(** X11.  In a run that starts from [__init__], the addition
    [task_end + task.predecessor_delay] never meets a value that is not a
    time: the loop over the predecessors returns, or raises [KeyError] for a
    predecessor without record, and never raises [TypeError]. *)
Theorem predecessor_loop_never_raises_TypeError (td : PyDict.dict string Task)
  (resources : list Resource) (order visited : list string) (self : Solver) :
  solve_loop env (__init__ env td resources order) visited = Ok self ->
  forall (task : Task) (preds : list Task) (acc : list Z),
    (exists res, collect_task_ends self task preds acc = Ok res) \/
    collect_task_ends self task preds acc = Raise KeyError.
Proof.
  intros Hl task preds.
  pose proof (solve_loop_ends_well_typed visited _ self Hl
                (init_ends_well_typed env td resources order)) as Hty.
  induction preds as [| pred rest IH]; intros acc; simpl.
  - left. eexists. reflexivity.
  - unfold PyDict.getitem.
    destruct (PyDict.get (task_vars self) (id pred)) as [r |] eqn:Hr;
      [| right; reflexivity].
    simpl. destruct (Hty (id pred) r Hr) as [He | [e He]]; rewrite He; simpl.
    + left. eexists. reflexivity.
    + apply IH.
Qed.

(** X12.  [__init__] gives every key of the task dictionary the record with
    its "task_id" and all other fields [None], makes no record for any
    other id, and keeps the order of the keys. *)
Theorem init_creates_one_empty_record_per_task (td : PyDict.dict string Task)
  (resources : list Resource) (order : list string) :
  (forall task_id,
      In task_id (PyDict.keys td) ->
      PyDict.get (task_vars (__init__ env td resources order)) task_id =
      Some (initial_record task_id)) /\
  (forall task_id,
      ~ In task_id (PyDict.keys td) ->
      PyDict.get (task_vars (__init__ env td resources order)) task_id = None) /\
  (PyDict.wf td ->
   PyDict.keys (task_vars (__init__ env td resources order)) = PyDict.keys td).
Proof.
  split; [| split].
  - intros task_id Hin. simpl. apply fold_initial_records_get. exact Hin.
  - intros task_id Hnot. simpl. rewrite fold_initial_records_other by exact Hnot.
    reflexivity.
  - apply init_keys.
Qed.

End MoreSolverFacts.

(** * Frame of a run *)

Section RunFrameFacts.
Import Models HeuristicSolver Spec.
Context {Assignments Constraints W : Type}.
Variable env : collaborators Assignments Constraints W.

Local Abbreviation Solver := (HeuristicSolver Assignments Constraints W).

(** X16.  Whatever the outcomes of the iterations, a run changes the records
    of the ids it visits and no other: the record of every other id, the
    task dictionary and the task order are what they were before. *)
Theorem run_changes_only_visited_records (visited : list string)
  (self self' : Solver) :
  solve_loop env self visited = Ok self' ->
  task_dict self' = task_dict self /\
  task_order self' = task_order self /\
  forall task_id,
    ~ In task_id visited ->
    PyDict.get (task_vars self') task_id = PyDict.get (task_vars self) task_id.
Proof.
  revert self. induction visited as [| visited_id rest IH]; simpl; intros self Hl.
  - injection Hl as <-. auto.
  - apply bind_Ok_inv in Hl as [mid [Hi Hl]].
    apply solve_iteration_frame in Hi as [Hd [Ho Hf]].
    apply IH in Hl as [Hd' [Ho' Hf']].
    split; [congruence |]. split; [congruence |].
    intros task_id Hnot. rewrite Hf', Hf; [reflexivity | |]; intuition congruence.
Qed.

Lemma solve_iteration_commits (self self' : Solver) (task_id : string) :
  solve_iteration env self task_id = Ok self' ->
  (commits (calls self') = commits (calls self) /\
   window_manager self' = window_manager self) \/
  (exists allocated,
      commits (calls self') = commits (calls self) ++ [allocated] /\
      update_resource_windows env (window_manager self) allocated =
      Ok (window_manager self')).
Proof.
  intros Hs. apply solve_iteration_inv in Hs as [task [_ [_ [_ Hcases]]]].
  destruct Hcases as [[msg [r [_ [_ [_ [Hwm Hc]]]]]] |
                      [al [wm [s [e [Hsched [_ [_ [_ [Hwm Hc]]]]]]]]]].
  - left. split; assumption.
  - right. exists al. split; [exact Hc |].
    destruct Hsched as [start [d [_ [_ [_ [Hu _]]]]]]. rewrite Hwm. exact Hu.
Qed.

Lemma solve_loop_commits_grow (visited : list string) :
  forall self self' : Solver,
    solve_loop env self visited = Ok self' ->
    exists more, commits (calls self') = commits (calls self) ++ more.
Proof.
  induction visited as [| task_id rest IH]; simpl; intros self self' Hl.
  - injection Hl as <-. exists []. rewrite app_nil_r. reflexivity.
  - apply bind_Ok_inv in Hl as [mid [Hi Hl]].
    destruct (IH mid self' Hl) as [more Hmore].
    destruct (solve_iteration_commits self mid task_id Hi)
      as [[Hc _] | [al [Hc _]]]; rewrite Hmore, Hc.
    + exists more. reflexivity.
    + exists (al :: more). rewrite <- app_assoc. reflexivity.
Qed.

Lemma solve_loop_without_commit (visited : list string) :
  forall self self' : Solver,
    solve_loop env self visited = Ok self' ->
    commits (calls self') = commits (calls self) ->
    window_manager self' = window_manager self.
Proof.
  induction visited as [| task_id rest IH]; simpl; intros self self' Hl Hsame.
  - injection Hl as <-. reflexivity.
  - apply bind_Ok_inv in Hl as [mid [Hi Hl]].
    destruct (solve_loop_commits_grow rest mid self' Hl) as [more Hmore].
    destruct (solve_iteration_commits self mid task_id Hi)
      as [[Hc Hwm] | [al [Hc _]]].
    + rewrite <- Hwm. apply (IH mid self' Hl). congruence.
    + exfalso. rewrite Hmore, Hc, <- app_assoc in Hsame.
      apply (f_equal (@List.length _)) in Hsame.
      rewrite !length_app in Hsame. simpl in Hsame. lia.
Qed.

(** X17.  The window manager changes through commits only: an iteration
    either leaves it as it was and logs no commit, or replaces it by the
    result of committing the allocation it logs; a run that logs no commit
    returns with the window manager it started with. *)
Theorem window_manager_changes_by_commits_only (visited : list string)
  (self self' : Solver) :
  solve_loop env self visited = Ok self' ->
  (forall task_id rest mid,
      visited = task_id :: rest ->
      solve_iteration env self task_id = Ok mid ->
      (commits (calls mid) = commits (calls self) /\
       window_manager mid = window_manager self) \/
      (exists allocated,
          commits (calls mid) = commits (calls self) ++ [allocated] /\
          update_resource_windows env (window_manager self) allocated =
          Ok (window_manager mid))) /\
  (commits (calls self') = commits (calls self) ->
   window_manager self' = window_manager self).
Proof.
  intros Hl. split.
  - intros task_id rest mid _ Hi. apply (solve_iteration_commits self mid task_id Hi).
  - apply (solve_loop_without_commit visited self self' Hl).
Qed.

End RunFrameFacts.

(** * Further properties of Scheduler.py *)

Section MoreSchedulerFacts.
Import Scheduler SchedulerSets.

(** X13.  On each of the three classes [__eq__] is an equivalence: an object
    equals itself, the answer does not depend on the side of the operands,
    and equality passes from one pair to the next; for an operand of
    another type the answer is [NotImplemented], never a boolean. *)
Theorem eq_is_an_equivalence_on_each_class :
  (forall r : Resource, Resource__eq__ r (OResource r) = PyBool true) /\
  (forall r1 r2 : Resource,
      Resource__eq__ r1 (OResource r2) = Resource__eq__ r2 (OResource r1)) /\
  (forall r1 r2 r3 : Resource,
      Resource__eq__ r1 (OResource r2) = PyBool true ->
      Resource__eq__ r2 (OResource r3) = PyBool true ->
      Resource__eq__ r1 (OResource r3) = PyBool true) /\
  (forall g : ResourceGroup, ResourceGroup__eq__ g (OResourceGroup g) = PyBool true) /\
  (forall g1 g2 : ResourceGroup,
      ResourceGroup__eq__ g1 (OResourceGroup g2) =
      ResourceGroup__eq__ g2 (OResourceGroup g1)) /\
  (forall g1 g2 g3 : ResourceGroup,
      ResourceGroup__eq__ g1 (OResourceGroup g2) = PyBool true ->
      ResourceGroup__eq__ g2 (OResourceGroup g3) = PyBool true ->
      ResourceGroup__eq__ g1 (OResourceGroup g3) = PyBool true) /\
  (forall t : Task, Task__eq__ t (OTask t) = PyBool true) /\
  (forall t1 t2 : Task, Task__eq__ t1 (OTask t2) = Task__eq__ t2 (OTask t1)) /\
  (forall t1 t2 t3 : Task,
      Task__eq__ t1 (OTask t2) = PyBool true ->
      Task__eq__ t2 (OTask t3) = PyBool true ->
      Task__eq__ t1 (OTask t3) = PyBool true) /\
  (forall (r : Resource) (g : ResourceGroup) (t : Task) (o : object),
      ((forall r', o <> OResource r') -> Resource__eq__ r o = NotImplemented) /\
      ((forall g', o <> OResourceGroup g') -> ResourceGroup__eq__ g o = NotImplemented) /\
      ((forall t', o <> OTask t') -> Task__eq__ t o = NotImplemented)).
Proof.
  assert (forall a b c : Z, PyBool (a =? b) = PyBool true ->
                            PyBool (b =? c) = PyBool true ->
                            PyBool (a =? c) = PyBool true) as Htrans.
  { intros a b c H1 H2. injection H1 as H1. injection H2 as H2.
    apply Z.eqb_eq in H1. apply Z.eqb_eq in H2. subst. rewrite Z.eqb_refl.
    reflexivity. }
  unfold Resource__eq__, ResourceGroup__eq__, Task__eq__.
  repeat match goal with |- _ /\ _ => split end.
  - intros r. rewrite Z.eqb_refl. reflexivity.
  - intros r1 r2. rewrite Z.eqb_sym. reflexivity.
  - intros r1 r2 r3. apply Htrans.
  - intros g. rewrite Z.eqb_refl. reflexivity.
  - intros g1 g2. rewrite Z.eqb_sym. reflexivity.
  - intros g1 g2 g3. apply Htrans.
  - intros t. rewrite Z.eqb_refl. reflexivity.
  - intros t1 t2. rewrite Z.eqb_sym. reflexivity.
  - intros t1 t2 t3. apply Htrans.
  - intros r g t o. repeat split; intros Hother;
      destruct o; try reflexivity; exfalso; eapply Hother; reflexivity.
Qed.

(** ** Sets of objects compared by id *)

Lemma set_add_keys {A : Type} (key : A -> Z) (s : list A) (x : A) (k : Z) :
  In k (map key (set_add key s x)) <-> In k (map key s) \/ k = key x.
Proof.
  unfold set_add. destruct (existsb (fun y => key y =? key x) s) eqn:E.
  - split; [tauto |]. intros [Hin | ->]; [exact Hin |].
    apply existsb_exists in E as [y [Hy Heq]]. apply Z.eqb_eq in Heq.
    rewrite <- Heq. apply in_map. exact Hy.
  - rewrite map_app, in_app_iff. simpl. intuition congruence.
Qed.

Lemma set_add_NoDup {A : Type} (key : A -> Z) (s : list A) (x : A) :
  NoDup (map key s) -> NoDup (map key (set_add key s x)).
Proof.
  intros Hnd. unfold set_add.
  destruct (existsb (fun y => key y =? key x) s) eqn:E; [exact Hnd |].
  rewrite map_app. simpl. apply NoDup_app; [exact Hnd | | ].
  - constructor; [intros [] | constructor].
  - intros k Hin [<- | []].
    apply in_map_iff in Hin as [y [Hk Hy]].
    assert (existsb (fun y => key y =? key x) s = true) as Et; [| congruence].
    apply existsb_exists. exists y. split; [exact Hy |]. apply Z.eqb_eq. exact Hk.
Qed.

Lemma set_add_In {A : Type} (key : A -> Z) (s : list A) (x y : A) :
  In y (set_add key s x) -> In y s \/ y = x.
Proof.
  unfold set_add. destruct (existsb (fun y => key y =? key x) s); [tauto |].
  rewrite in_app_iff. simpl. intuition congruence.
Qed.

Lemma set_add_keeps {A : Type} (key : A -> Z) (s : list A) (x y : A) :
  In y s -> In y (set_add key s x).
Proof.
  unfold set_add. destruct (existsb (fun y => key y =? key x) s); [tauto |].
  intros Hin. apply in_or_app. left. exact Hin.
Qed.

Lemma set_add_new {A : Type} (key : A -> Z) (s : list A) (x : A) :
  ~ In (key x) (map key s) -> In x (set_add key s x).
Proof.
  intros Hnot. unfold set_add.
  destruct (existsb (fun y => key y =? key x) s) eqn:E.
  - exfalso. apply Hnot. apply existsb_exists in E as [y [Hy Heq]].
    apply Z.eqb_eq in Heq. rewrite <- Heq. apply in_map. exact Hy.
  - apply in_or_app. right. left. reflexivity.
Qed.

Lemma fold_set_add_spec {A : Type} (key : A -> Z) (l : list A) :
  forall s : list A,
    NoDup (map key s) ->
    NoDup (map key (fold_left (set_add key) l s)) /\
    (forall k, In k (map key (fold_left (set_add key) l s)) <->
               In k (map key s) \/ In k (map key l)) /\
    (forall y, In y (fold_left (set_add key) l s) -> In y s \/ In y l) /\
    (forall y, In y s -> In y (fold_left (set_add key) l s)).
Proof.
  induction l as [| x l IH]; simpl; intros s Hnd.
  - repeat split; tauto.
  - destruct (IH (set_add key s x) (set_add_NoDup key s x Hnd))
      as [Hnd' [Hkeys [Hin Hkeep]]].
    split; [exact Hnd' |]. split; [| split].
    + intros k. rewrite Hkeys, set_add_keys. intuition congruence.
    + intros y Hy. apply Hin in Hy as [Hy | Hy]; [| tauto].
      apply set_add_In in Hy. intuition congruence.
    + intros y Hy. apply Hkeep. apply set_add_keeps. exact Hy.
Qed.

Lemma py_set_first {A : Type} (key : A -> Z) (before after : list A) (x : A) :
  ~ In (key x) (map key before) ->
  In x (py_set key (before ++ x :: after)).
Proof.
  intros Hnot. unfold py_set. rewrite fold_left_app. simpl.
  destruct (fold_set_add_spec key before [] (NoDup_nil _)) as [_ [Hkeys _]].
  destruct (fold_set_add_spec key after
              (set_add key (fold_left (set_add key) before []) x)) as [_ [_ [_ Hkeep]]].
  - apply set_add_NoDup.
    apply (fold_set_add_spec key before [] (NoDup_nil _)).
  - apply Hkeep. apply set_add_new. rewrite Hkeys. simpl. tauto.
Qed.

Lemma resource_groups_hold_each_id_once_aux (tasks : list Task) :
  (forall gid,
      (exists t, In t tasks /\ resource_group_id (Task_resource_group t) = gid) ->
      In gid (map resource_group_id (schedule_resource_groups tasks))) /\
  (forall g, In g (schedule_resource_groups tasks) ->
             exists t, In t tasks /\ Task_resource_group t = g).
Proof.
  unfold schedule_resource_groups, py_set.
  destruct (fold_set_add_spec resource_group_id (map Task_resource_group tasks) []
              (NoDup_nil _)) as [_ [Hkeys [Hin _]]].
  split.
  - intros gid [t [Ht Hid]]. rewrite Hkeys, map_map. right.
    apply in_map_iff. exists t. tauto.
  - intros g Hg. apply Hin in Hg as [[] | Hg].
    apply in_map_iff in Hg as [t [Hid Ht]]. exists t. tauto.
Qed.

(** X14.  The set of resource groups that [schedule] builds holds each group
    id of the tasks once; its elements are groups of the tasks, and for each
    id it is the group of the first task with that id that is kept. *)
Theorem resource_groups_hold_each_id_once (tasks : list Task) :
  NoDup (map resource_group_id (schedule_resource_groups tasks)) /\
  (forall gid,
      In gid (map resource_group_id (schedule_resource_groups tasks)) <->
      exists t, In t tasks /\ resource_group_id (Task_resource_group t) = gid) /\
  (forall g, In g (schedule_resource_groups tasks) ->
             exists t, In t tasks /\ Task_resource_group t = g) /\
  (forall before t after,
      tasks = before ++ t :: after ->
      (forall t', In t' before ->
                  resource_group_id (Task_resource_group t') <>
                  resource_group_id (Task_resource_group t)) ->
      In (Task_resource_group t) (schedule_resource_groups tasks)).
Proof.
  unfold schedule_resource_groups, py_set.
  destruct (fold_set_add_spec resource_group_id (map Task_resource_group tasks) []
              (NoDup_nil _)) as [Hnd [Hkeys [Hin _]]].
  split; [exact Hnd |]. split; [| split].
  - intros gid. rewrite Hkeys. simpl. rewrite map_map. split.
    + intros [[] | Hg]. apply in_map_iff in Hg as [t [Hid Ht]]. exists t. tauto.
    + intros [t [Ht Hid]]. right. apply in_map_iff. exists t. tauto.
  - intros g Hg. apply Hin in Hg as [[] | Hg].
    apply in_map_iff in Hg as [t [Hid Ht]]. exists t. tauto.
  - intros before t after -> Hfirst. rewrite map_app. simpl.
    apply (py_set_first resource_group_id). rewrite map_map.
    intros Hg. apply in_map_iff in Hg as [t' [Hid Ht']].
    apply (Hfirst t' Ht' Hid).
Qed.

(** X15.  When the tasks agree on their groups (two groups with the same id
    have the same members), then in whatever order the set of groups is
    iterated, the set of resources holds the id of every resource of every
    task, once: the lookups [resource_intervals[resource_id]] of [schedule]
    find their key. *)
Theorem resources_cover_every_task (tasks : list Task)
  (iteration : list ResourceGroup) :
  groups_agree tasks ->
  enumerates iteration (schedule_resource_groups tasks) ->
  NoDup (map Resource_id (schedule_resources iteration)) /\
  forall t r,
    In t tasks -> In r (Task_get_resources t) ->
    In (Resource_id r) (map Resource_id (schedule_resources iteration)).
Proof.
  intros Hagree Henum. unfold schedule_resources, py_set.
  destruct (fold_set_add_spec Resource_id (flat_map resources iteration) []
              (NoDup_nil _)) as [Hnd [Hkeys _]].
  split; [exact Hnd |]. intros t r Ht Hr. rewrite Hkeys. right.
  destruct (resource_groups_hold_each_id_once_aux tasks) as [Hids Hfrom].
  assert (In (resource_group_id (Task_resource_group t))
             (map resource_group_id (schedule_resource_groups tasks))) as Hgid.
  { apply Hids. exists t. split; [exact Ht | reflexivity]. }
  apply in_map_iff in Hgid as [g [Hid Hg]].
  destruct (Hfrom g Hg) as [t' [Ht' Hgt']]. subst g.
  apply in_map. apply in_flat_map. exists (Task_resource_group t').
  split; [apply Henum; exact Hg |].
  rewrite (Hagree t' t Ht' Ht Hid). exact Hr.
Qed.

End MoreSchedulerFacts.

(** * Examples for the further properties *)

Section MoreExamples.
Import Models HeuristicSolver Spec RunShapes.

(** The order names "nope", which is not a task. *)
Lemma unknown_task_id_raises_KeyError_witness :
  solve Scenario.env
        (__init__ Scenario.env Scenario.tasks [Scenario.R; Scenario.R2]
                  ["T"; "nope"; "T2"]) = Raise KeyError.
Proof.
  refine (proj2 (unknown_task_id_raises_KeyError Scenario.env
                   (__init__ Scenario.env Scenario.tasks [Scenario.R; Scenario.R2]
                             ["T"; "nope"; "T2"])
                   _ ["T"] ["T2"] "nope" _ _ _)).
  - reflexivity.
  - vm_compute. reflexivity.
  - reflexivity.
Defined.

(** After T, T2 and T3: a task that waits for T (ended at 3), T3 (failed)
    and T6 (not visited). *)
Lemma earliest_start_stops_at_first_unscheduled_witness :
  _get_task_earliest_start Scenario.env (Scenario.after 3)
    (mkTask "Z" 1 ["T"; "T3"; "T6"] 0 tt tt [Scenario.R]) Scenario.tasks = Ok None.
Proof.
  apply (earliest_start_stops_at_first_unscheduled Scenario.env (Scenario.after 3)
           (mkTask "Z" 1 ["T"; "T3"; "T6"] 0 tt tt [Scenario.R]) Scenario.tasks
           [Scenario.T] [Scenario.T6] Scenario.T3 [3]).
  - reflexivity.
  - constructor; [| constructor]. eexists. split; reflexivity.
  - eexists. split; reflexivity.
Defined.

(** The task stored under the key "B" carries the id "ghost", for which
    [__init__] made no record. *)
Lemma predecessor_without_record_raises_KeyError_witness :
  let ghost := mkTask "ghost" 1 [] 0 tt tt [Scenario.R] in
  let a := mkTask "A" 1 ["B"] 0 tt tt [Scenario.R] in
  solve_iteration Scenario.env
    (__init__ Scenario.env [("A", a); ("B", ghost)] [Scenario.R] ["A"]) "A" =
  Raise KeyError.
Proof.
  intros ghost a.
  refine (proj2 (predecessor_without_record_raises_KeyError Scenario.env
                   (__init__ Scenario.env [("A", a); ("B", ghost)] [Scenario.R] ["A"])
                   "A" a [] [] ghost [] _ _ _ _)).
  - reflexivity.
  - reflexivity.
  - constructor.
  - reflexivity.
Defined.

(** An allocator that proposes a span outside every window: the commit
    raises, and so does the iteration. *)
Lemma uncaught_exception_aborts_run_witness :
  solve_iteration (designed_collaborators Faults.out_of_window)
    (__init__ (designed_collaborators Faults.out_of_window) Scenario.tasks
              [Scenario.R; Scenario.R2] ["T"]) "T" =
  Raise (FatalError "span not contained in a window").
Proof.
  refine (proj1 (uncaught_exception_aborts_run
                   (designed_collaborators Faults.out_of_window)
                   (__init__ (designed_collaborators Faults.out_of_window)
                             Scenario.tasks [Scenario.R; Scenario.R2] ["T"])
                   "T" Scenario.T _ _ _)).
  - reflexivity.
  - right. right. right. exists 0, [(1, [(0, 4); (5, 10)])], [(1, (100, 200))].
    split; [split; reflexivity |]. split; [discriminate |].
    split; reflexivity.
Defined.

(** An allocator that proposes the empty allocation. *)
Lemma empty_allocation_raises_ValueError_witness :
  solve_iteration (designed_collaborators Faults.nothing)
    (__init__ (designed_collaborators Faults.nothing) Scenario.tasks
              [Scenario.R; Scenario.R2] ["T"]) "T" = Raise ValueError.
Proof.
  refine (proj1 (empty_allocation_raises_ValueError
                   (designed_collaborators Faults.nothing)
                   (__init__ (designed_collaborators Faults.nothing)
                             Scenario.tasks [Scenario.R; Scenario.R2] ["T"])
                   "T" Scenario.T 0 [(1, [(0, 4); (5, 10)])]
                   [(1, [(0, 4); (5, 10)]); (2, [])] _ _ _ _ _)).
  - reflexivity.
  - split; reflexivity.
  - discriminate.
  - reflexivity.
  - reflexivity.
Defined.

(** The worked run visits six tasks and commits twice. *)
Lemma calls_follow_the_protocol_witness :
  (List.length (calls (Scenario.after 6)) <= 0 + 3 * 6)%nat /\
  (List.length (commits (calls (Scenario.after 6))) <= 0 + 6)%nat.
Proof.
  destruct (calls_follow_the_protocol Scenario.env Scenario.order Scenario.solver
              (Scenario.after 6)) as [groups [_ [_ Hbounds]]].
  - vm_compute. reflexivity.
  - exact Hbounds.
Defined.

Lemma returned_records_have_four_shapes_witness :
  exists records,
    solve Scenario.env Scenario.solver = Ok records /\
    Forall2 (record_shape Scenario.env) (PyDict.keys Scenario.tasks) records.
Proof.
  destruct (solve Scenario.env Scenario.solver) as [records | ex] eqn:Hs;
    [| vm_compute in Hs; discriminate Hs].
  exists records. split; [reflexivity |].
  apply (returned_records_have_four_shapes Scenario.env Scenario.tasks
           [Scenario.R; Scenario.R2] Scenario.order records tasks_wf Hs).
Defined.

Lemma returned_records_allocation_all_or_nothing_witness :
  exists records,
    solve Scenario.env Scenario.solver = Ok records /\
    Forall2 (fun task_id r =>
               PyDict.get r "task_id" = Some (VStr task_id) /\
               allocation_fields r)
            (PyDict.keys Scenario.tasks) records.
Proof.
  destruct (solve Scenario.env Scenario.solver) as [records | ex] eqn:Hs;
    [| vm_compute in Hs; discriminate Hs].
  exists records. split; [reflexivity |].
  apply (returned_records_allocation_all_or_nothing Scenario.env Scenario.tasks
           [Scenario.R; Scenario.R2] Scenario.order records tasks_wf Hs).
Defined.

Lemma scenario_intervals_ordered : allocator_intervals_ordered Scenario.env.
Proof.
  intros d a task_duration c allocated Ha. simpl in Ha.
  unfold Scenario.first_fit in Ha.
  destruct d as [| [rid [| [s e] ws]] d']; try discriminate Ha.
  destruct ((0 <=? task_duration) && (task_duration <=? e - s)) eqn:E;
    [| discriminate Ha].
  injection Ha as <-. apply andb_true_iff in E as [E1 _]. apply Z.leb_le in E1.
  constructor; [simpl; lia | constructor].
Qed.

(** T2 is returned with start 5 and end 7. *)
Lemma returned_records_start_before_end_witness : 5 <= 7.
Proof.
  destruct (solve Scenario.env Scenario.solver) as [records | ex] eqn:Hs;
    [| vm_compute in Hs; discriminate Hs].
  apply (returned_records_start_before_end Scenario.env Scenario.tasks
           [Scenario.R; Scenario.R2] Scenario.order records tasks_wf
           scenario_intervals_ordered Hs
           (task_values "T2" [(1, (5, 7))] 5 7)).
  - vm_compute in Hs. injection Hs as <-. right. left. reflexivity.
  - reflexivity.
  - reflexivity.
Defined.

(** T has its end after the first task and keeps it to the end of the run. *)
Lemma recorded_end_is_kept_witness :
  exists e, recorded_end (Scenario.after 6) Scenario.T e.
Proof.
  refine (proj1 (recorded_end_is_kept Scenario.env ["T2"; "T3"; "T4"; "T5"; "T6"]
                   (Scenario.after 1) (Scenario.after 6) Scenario.T 3 _ _)).
  - vm_compute. reflexivity.
  - eexists. split; reflexivity.
Defined.

Lemma predecessor_loop_never_raises_TypeError_witness :
  (exists res,
      collect_task_ends (Scenario.after 3) Scenario.T4 [Scenario.T3] [] = Ok res) \/
  collect_task_ends (Scenario.after 3) Scenario.T4 [Scenario.T3] [] = Raise KeyError.
Proof.
  apply (predecessor_loop_never_raises_TypeError Scenario.env Scenario.tasks
           [Scenario.R; Scenario.R2] Scenario.order ["T"; "T2"; "T3"]
           (Scenario.after 3)).
  vm_compute. reflexivity.
Defined.

Lemma init_creates_one_empty_record_per_task_witness :
  PyDict.get (task_vars Scenario.solver) "T4" = Some (initial_record "T4") /\
  PyDict.get (task_vars Scenario.solver) "nope" = None /\
  PyDict.keys (task_vars Scenario.solver) = PyDict.keys Scenario.tasks.
Proof.
  destruct (init_creates_one_empty_record_per_task Scenario.env Scenario.tasks
              [Scenario.R; Scenario.R2] Scenario.order) as [Hin [Hout Hkeys]].
  split; [| split].
  - apply Hin. simpl. tauto.
  - apply Hout. simpl. intuition discriminate.
  - apply Hkeys. exact tasks_wf.
Defined.

(** The run over T3, T4, T5 and T6 leaves the record of T2 alone. *)
Lemma run_changes_only_visited_records_witness :
  PyDict.get (task_vars (Scenario.after 6)) "T2" =
  PyDict.get (task_vars (Scenario.after 2)) "T2".
Proof.
  refine (proj2 (proj2 (run_changes_only_visited_records Scenario.env
                          ["T3"; "T4"; "T5"; "T6"] (Scenario.after 2)
                          (Scenario.after 6) _)) "T2" _).
  - vm_compute. reflexivity.
  - simpl. intuition discriminate.
Defined.

(** T3, T4, T5 and T6 all fail: the calendars stay as T2 left them. *)
Lemma window_manager_changes_by_commits_only_witness :
  window_manager (Scenario.after 6) = window_manager (Scenario.after 2).
Proof.
  refine (proj2 (window_manager_changes_by_commits_only Scenario.env
                   ["T3"; "T4"; "T5"; "T6"] (Scenario.after 2) (Scenario.after 6)
                   _) _).
  - vm_compute. reflexivity.
  - reflexivity.
Defined.

End MoreExamples.

Section MoreSchedulerExamples.
Import Scheduler SchedulerSets.

Lemma eq_is_an_equivalence_on_each_class_witness :
  let r1 := mkResource 7 [] in
  let r2 := mkResource 7 [mkSlot 0 0 4] in
  let r3 := mkResource 7 [mkSlot 1 5 10] in
  Resource__eq__ r1 (OResource r3) = PyBool true /\
  Resource__eq__ r1 (OInt 7) = NotImplemented.
Proof.
  intros r1 r2 r3.
  destruct eq_is_an_equivalence_on_each_class
    as [_ [_ [Htrans [_ [_ [_ [_ [_ [_ Hother]]]]]]]]].
  split.
  - apply (Htrans r1 r2 r3); reflexivity.
  - apply (Hother r1 (mkResourceGroup 1 []) (mkTask 1 1 1 (mkResourceGroup 1 []) None)
                  (OInt 7)).
    intros r'. discriminate.
Defined.

(** Two tasks share the group 1: the group of the first one is kept. *)
Lemma resource_groups_hold_each_id_once_witness :
  let g := mkResourceGroup 1 [mkResource 1 []; mkResource 2 []] in
  let g' := mkResourceGroup 1 [mkResource 1 []] in
  let t1 := mkTask 1 3 1 g None in
  let t2 := mkTask 2 3 1 g' None in
  In g (schedule_resource_groups [t1; t2]).
Proof.
  intros g g' t1 t2.
  destruct (resource_groups_hold_each_id_once [t1; t2]) as [_ [_ [_ Hfirst]]].
  apply (Hfirst [] t1 [t2]); [reflexivity |]. intros t' [].
Defined.

(** Two tasks on the same group with two resources. *)
Lemma resources_cover_every_task_witness :
  let g := mkResourceGroup 1 [mkResource 1 []; mkResource 2 []] in
  let t1 := mkTask 1 3 1 g None in
  let t2 := mkTask 2 3 1 g None in
  In 2 (map Resource_id (schedule_resources (schedule_resource_groups [t1; t2]))).
Proof.
  intros g t1 t2.
  destruct (resources_cover_every_task [t1; t2] (schedule_resource_groups [t1; t2]))
    as [_ Hcover].
  - intros a b [<- | [<- | []]] [<- | [<- | []]] _; reflexivity.
  - intros x. tauto.
  - apply (Hcover t1 (mkResource 2 [])); simpl; tauto.
Defined.

End MoreSchedulerExamples.
